(** * Trust Gateway verifier: delegation chains, revocation status,
      anchoring and the CVC orchestrator

    A shallow embedding of [verifier/status.py], [verifier/anchor.py],
    [verifier/constants.py], [verifier/crypto.py], [verifier/verifier.py]
    and the delegation parser of [gateway/adapters.py].

    Python dictionaries whose keys the code reads with [.get(k, d)] are
    records of [option] fields ([None] = key absent, [default d] = the
    [.get] default); dictionaries the code builds and returns (the info
    dictionaries, the VRO) are association lists of [json] values.
    Calls that leave the program (PyJWT, the file system, the clock, the
    signing key) are fields of [World]; the pure library functions
    (SHA-256, [json.dumps]) are section variables. *)

From Stdlib Require Import ZArith Bool Ascii String DecimalString Lia.
From stdpp Require Import base option list gmap strings.

Local Open Scope Z_scope.

(** ** JSON values and Python dictionaries *)

#[local] Set Warnings "-register-all".

Inductive json : Type :=
| JNull
| JBool (b : bool)
| JInt (z : Z)
| JStr (s : string)
| JList (l : list json)
| JDict (d : list (string * json)).

(** A dictionary literal [{"k": v, ...}]. *)
Abbreviation pydict := (list (string * json)).

(** [k in d] and [d.get(k)] / [d.get(k, dflt)] on a dictionary literal. *)
Fixpoint dict_lookup (k : string) (d : pydict) : option json :=
  match d with
  | [] => None
  | (k', v) :: d' => if String.eqb k k' then Some v else dict_lookup k d'
  end.

Definition dict_get (d : pydict) (k : string) : json :=
  default JNull (dict_lookup k d).

Definition dict_get_d (d : pydict) (k : string) (dflt : json) : json :=
  default dflt (dict_lookup k d).

(** Python truthiness of a JSON value. *)
Definition truthy (v : json) : bool :=
  match v with
  | JNull => false
  | JBool b => b
  | JInt z => negb (z =? 0)
  | JStr s => negb (String.eqb s "")
  | JList l => negb (bool_decide (l = []))
  | JDict d => negb (bool_decide (d = []))
  end.

(** Truthiness of a string read with [.get(k, "")]. *)
Definition nonempty (s : string) : bool := negb (String.eqb s "").

(** [str(n)] for an integer. *)
Definition str_of_Z (z : Z) : string := NilZero.string_of_int (Z.to_int z).

Definition opt_str (o : option string) : json :=
  match o with Some s => JStr s | None => JNull end.

(** ** Substring test: Python's [needle in hay] on strings *)

Fixpoint str_prefix (p s : string) : bool :=
  match p, s with
  | EmptyString, _ => true
  | String a p', String b s' => Ascii.eqb a b && str_prefix p' s'
  | String _ _, EmptyString => false
  end.

Fixpoint str_contains (needle hay : string) : bool :=
  str_prefix needle hay ||
  match hay with
  | EmptyString => false
  | String _ hay' => str_contains needle hay'
  end.

(** ** verifier/constants.py *)

Module ErrorCode.
Definition OK : string := "OK".
Definition FORMAT_ERROR : string := "100".
Definition STRUCT : string := "100".
Definition PROOF_ERROR : string := "E200".
Definition ALG : string := "E200".
Definition VC_TIME : string := "E200".
Definition VC_REVOKED : string := "E200".
Definition KEY_BINDING_UNVERIFIED : string := "E200".
Definition CHAIN_ERROR : string := "E300".
Definition DG_DEPTH : string := "E300".
Definition DG_TIME : string := "E300".
Definition DG_REVOKED : string := "E300".
Definition STATUS_FETCH_ERROR : string := "E300".
Definition ANCHOR_NOT_FOUND : string := "E300".
Definition ANCHOR_VERIFICATION_FAILED : string := "E300".
Definition SCOPE_VIOLATION : string := "E400".
Definition DG_SCOPE_ESCALATION : string := "E400".
Definition POLICY_ERROR : string := "E500".
Definition HOLDER_BINDING : string := "E500".
Definition INTERNAL_ERROR : string := "E900".
Definition INTERNAL : string := "E900".
End ErrorCode.

Definition DETERMINISTIC_TIMESTAMP : Z := 1735600000.
Definition VRO_EXPIRATION_SECONDS : Z := 3600.

(** ** Data model *)

(** [payload["dg"]["scope"]]. *)
Record Scope := {
  resource : option string;
  actions : option (list string)
}.

(** [payload["dg"]["status"]]. *)
Record DgStatus := {
  url : option string
}.

(** [payload["dg"]]; [key_binding] is a dictionary of strings. *)
Record Delegation := {
  scope : option Scope;
  key_binding : option (gmap string string);
  status : option DgStatus
}.

(** [payload["vc"]["credentialStatus"]]. *)
Record CredentialStatus := {
  statusListCredential : option string;
  statusListIndex : option Z
}.

(** [payload["vc"]]. *)
Record VcClaim := {
  credentialStatus : option CredentialStatus
}.

(** The claims set of a verified token. *)
Record Payload := {
  iss : option string;
  sub : option string;
  nbf : option Z;
  exp : option Z;
  dg : option Delegation;
  vc : option VcClaim
}.

(** The JOSE header of a token. *)
Record Header := {
  alg : option string;
  hdr_kid : option string
}.

(** An element of [Delta], as [parse_dg_jwts] builds it. *)
Record ParsedDelegation := {
  hdr : Header;
  pld : Payload;
  raw : string
}.

(** The verification policy (a JSON file read by the gateway). *)
Record Policy := {
  policy_id : option string;
  alg_allowlist : option (list string);
  clock_skew_seconds : option Z;
  status_required : option bool;
  max_delegation_depth : option Z;
  require_anchor : option bool;
  holder_binding_required : option bool
}.

(** A StatusList2021 document. *)
Record StatusDoc := {
  encodedList : option string
}.

(** A JWKS document: [{"keys": [{"kid": ...}, ...]}]. *)
Record Jwk := {
  jwk_kid : option string;
  jwk_x : option string
}.

Record Jwks := {
  keys : option (list Jwk)
}.

(** A verification outcome: [(success, error_code, info_dict)]. *)
Abbreviation result := (bool * string * pydict)%type.

(** ** The world outside the verifier *)

(** What [verify_jws(token, jwks_path)] does: returns header and payload,
    raises [CryptoError], or raises something else. *)
Inductive jws_result :=
| JwsOk (header : Header) (payload : Payload)
| JwsCryptoError (msg : string)
| JwsOtherError (msg : string).

(** What reading and parsing a JSON file does. *)
Inductive file_read (A : Type) :=
| FileMissing
| FileUnreadable (msg : string)
| FileJson (doc : A).
Arguments FileMissing {A}.
Arguments FileUnreadable {A} msg.
Arguments FileJson {A} doc.

Record World := {
  (** [verifier.crypto.verify_jws]: PyJWT's [jwt.decode], with its
      default options, over the key found in the JWKS file; which
      tokens it accepts is left open here, [with_crypto] puts the
      function of crypto.py in this place and [with_default_options]
      the library's validation of the time claims *)
  verify_jws : string -> string -> jws_result;
  (** the JWKS file as [key_exists_in_jwks] reads it; [None] when
      [json.loads] or the file read fails *)
  read_jwks : string -> option Jwks;
  (** the status fixtures under [base_dir] *)
  base_dir : string;
  read_status_file : string -> file_read StatusDoc;
  (** [int(time.time())] at verifier.py:255, :79, :205 and anchor.py:157 *)
  clock_vc : Z;
  clock_dg : Z;
  clock_meta : Z;
  clock_anchor : Z;
  (** [sign_vro]: the signed token, or the message of the [ValueError] *)
  jwt_encode : pydict -> string + string
}.

(** ** verifier/status.py *)

Definition revoked_status_file (w : World) : string :=
  base_dir w +:+ "/fixtures/status/statuslist2021_revoked.json".

Definition active_status_file (w : World) : string :=
  base_dir w +:+ "/fixtures/status/statuslist2021_active.json".

(** [fetch_status]: [inl doc], or [inr msg] for [StatusError(msg)].
    What [read_text] or [json.loads] raises besides [JSONDecodeError]
    and [IOError] is not caught there and is not part of this model. *)
Definition fetch_status (w : World) (status_url : string) : StatusDoc + string :=
  let status_file :=
    if str_contains "revoked" status_url
    then revoked_status_file w
    else active_status_file w in
  match read_status_file w status_file with
  | FileMissing => inr ("Status file not found: " +:+ status_file)
  | FileUnreadable e =>
      inr ("Error loading status file " +:+ status_file +:+ ": " +:+ e)
  | FileJson doc => inl doc
  end.

Definition is_revoked (status_doc : StatusDoc) (index : Z) : bool :=
  let encoded_list := default "" (encodedList status_doc) in
  if str_contains "/////" encoded_list then true else false.

(** ** verifier/crypto.py *)

Definition key_exists_in_jwks (w : World) (jwks_path kid : string) : bool :=
  match read_jwks w jwks_path with
  | Some data =>
      existsb (fun key_data => bool_decide (jwk_kid key_data = Some kid))
              (default [] (keys data))
  | None => false
  end.

(** ** The libraries behind verifier/crypto.py and gateway/adapters.py *)

(** What a call into PyJWT does: returns, raises an
    [jwt.InvalidTokenError] (or a subclass), or raises something else;
    the exceptions carry [str(e)]. *)
Inductive lib_result (A : Type) :=
| LibOk (a : A)
| LibInvalidToken (msg : string)
| LibRaised (msg : string).
Arguments LibOk {A} a.
Arguments LibInvalidToken {A} msg.
Arguments LibRaised {A} msg.

Record JwtLib := {
  (** [jwt.get_unverified_header(token)] *)
  get_unverified_header : string -> lib_result Header;
  (** [jwt.decode(token, key=key, algorithms=["EdDSA"])] *)
  decode : string -> string -> lib_result Payload;
  (** [jwt.decode(token, options={"verify_signature": False})] *)
  decode_unverified : string -> lib_result Payload;
  (** [base64.urlsafe_b64decode], [Ed25519PublicKey.from_public_bytes]
      and [public_bytes(PEM, SubjectPublicKeyInfo)] on the padded [x]
      of a JWK: the PEM text, or [str(e)] of what was raised *)
  pem_of_x_padded : string -> string + string;
  (** [str(e)] of the [JSONDecodeError] or [FileNotFoundError] raised
      when the JWKS file at a path cannot be read *)
  jwks_read_error : string -> string
}.

(** What [jwt.decode] does after the signature check when it is called
    with PyJWT's default options, as crypto.py:133 calls it: the
    library's [_validate_claims] with no leeway, on the two time
    claims of a payload. [nbf] is looked at first, then [exp], each
    only when the claim is present; [now] is the library's own reading
    of the clock, rounded down. The message is [str(e)] of the
    [ImmatureSignatureError] or [ExpiredSignatureError] it raises; both
    are subclasses of [InvalidTokenError]. *)
Definition immature (now : Z) (payload : Payload) : bool :=
  match nbf payload with
  | Some not_before => not_before >? now
  | None => false
  end.

Definition expired (now : Z) (payload : Payload) : bool :=
  match exp payload with
  | Some not_after => not_after <=? now
  | None => false
  end.

Definition validate_claims (now : Z) (payload : Payload) : option string :=
  if immature now payload then Some "The token is not yet valid (nbf)"
  else if expired now payload then Some "Signature has expired"
  else None.

(** The library with the claims validated: [lib] says which tokens
    carry a valid signature under a key and what they decode to, and
    [now token] is what the library reads off the clock when it
    validates the claims of [token]. *)
Definition with_default_options (lib : JwtLib) (now : string -> Z) : JwtLib :=
  {| get_unverified_header := get_unverified_header lib;
     decode := fun token key =>
       match decode lib token key with
       | LibOk payload =>
           match validate_claims (now token) payload with
           | Some msg => LibInvalidToken msg
           | None => LibOk payload
           end
       | other => other
       end;
     decode_unverified := decode_unverified lib;
     pem_of_x_padded := pem_of_x_padded lib;
     jwks_read_error := jwks_read_error lib |}.

(** [s * n] for a string [s]. *)
Fixpoint str_repeat (s : string) (n : nat) : string :=
  match n with
  | O => ""
  | S n' => s +:+ str_repeat s n'
  end.

Module Crypto.

(** [CryptoError], its subclass [KeyNotFoundError], and any other
    exception that leaves the module; each with [str(e)]. *)
Inductive exn :=
| CryptoError (msg : string)
| KeyNotFoundError (msg : string)
| OtherError (msg : string).

(** What [except CryptoError] catches. *)
Definition is_CryptoError (e : exn) : bool :=
  match e with
  | CryptoError _ | KeyNotFoundError _ => true
  | OtherError _ => false
  end.

(** "Padding for base64url": [x + '=' * (4 - len(x) % 4)]. *)
Definition x_padded (x : string) : string :=
  x +:+ str_repeat "=" (4 - String.length x mod 4).

Definition _jwk_to_pem (lib : JwtLib) (jwk : Jwk) : string + exn :=
  let x := default "" (jwk_x jwk) in
  if negb (nonempty x) then
    inr (CryptoError "JWK missing 'x' coordinate")
  else
    match pem_of_x_padded lib (x_padded x) with
    | inl pem => inl pem
    | inr e => inr (CryptoError ("Error converting JWK to PEM: " +:+ e))
    end.

(** The [for key_data in data.get("keys", [])] loop of
    [jwks_get_key]: the first key with the given [kid]. *)
Fixpoint find_key (keys_list : list Jwk) (kid : string) : option Jwk :=
  match keys_list with
  | [] => None
  | key_data :: rest =>
      if bool_decide (jwk_kid key_data = Some kid)
      then Some key_data
      else find_key rest kid
  end.

Definition jwks_get_key (lib : JwtLib) (w : World) (jwks_path kid : string)
  : string + exn :=
  match read_jwks w jwks_path with
  | Some data =>
      match find_key (default [] (keys data)) kid with
      | Some key_data => _jwk_to_pem lib key_data
      | None =>
          inr (KeyNotFoundError
                 ("KID '" +:+ kid +:+ "' not found in JWKS: " +:+ jwks_path))
      end
  | None =>
      inr (CryptoError ("Error loading JWKS from " +:+ jwks_path +:+ ": "
                        +:+ jwks_read_error lib jwks_path))
  end.

Definition verify_jws (lib : JwtLib) (w : World) (token jwks_path : string)
  : (Header * Payload) + exn :=
  match get_unverified_header lib token with
  | LibOk header =>
      let kid := default "" (hdr_kid header) in
      if negb (nonempty kid) then
        inr (CryptoError "JWT header missing 'kid'")
      else
        match jwks_get_key lib w jwks_path kid with
        | inl key =>
            match decode lib token key with
            | LibOk payload => inl (header, payload)
            | LibInvalidToken e =>
                inr (CryptoError ("JWT verification failed: " +:+ e))
            | LibRaised e => inr (OtherError e)
            end
        | inr e => inr e
        end
  | LibInvalidToken e => inr (CryptoError ("JWT verification failed: " +:+ e))
  | LibRaised e => inr (OtherError e)
  end.

(** The three ways the verifier sees a call of [verify_jws]: a result,
    an exception caught by [except CryptoError], or another one. *)
Definition as_jws_result (r : (Header * Payload) + exn) : jws_result :=
  match r with
  | inl (header, payload) => JwsOk header payload
  | inr (CryptoError msg) => JwsCryptoError msg
  | inr (KeyNotFoundError msg) => JwsCryptoError msg
  | inr (OtherError msg) => JwsOtherError msg
  end.

End Crypto.

(** [w] with [verify_jws] as verifier/crypto.py defines it over the
    library [lib] and the JWKS files of [w]. *)
Definition with_crypto (lib : JwtLib) (w : World) : World :=
  {| verify_jws := fun token jwks_path =>
       Crypto.as_jws_result (Crypto.verify_jws lib w token jwks_path);
     read_jwks := read_jwks w;
     base_dir := base_dir w;
     read_status_file := read_status_file w;
     clock_vc := clock_vc w;
     clock_dg := clock_dg w;
     clock_meta := clock_meta w;
     clock_anchor := clock_anchor w;
     jwt_encode := jwt_encode w |}.

(** ** gateway/adapters.py *)

Module Adapters.

(** [parse_dg_jwts]: the parsed delegations, or [str(e)] of an
    exception other than [jwt.InvalidTokenError], which the loop does
    not catch. *)
Fixpoint parse_dg_jwts (lib : JwtLib) (delegation_tokens : list string)
  : list ParsedDelegation + string :=
  match delegation_tokens with
  | [] => inl []
  | token :: rest =>
      match get_unverified_header lib token with
      | LibOk header =>
          match decode_unverified lib token with
          | LibOk payload =>
              match parse_dg_jwts lib rest with
              | inl parsed =>
                  inl ({| hdr := header; pld := payload; raw := token |}
                         :: parsed)
              | inr e => inr e
              end
          | LibInvalidToken _ => parse_dg_jwts lib rest
          | LibRaised e => inr e
          end
      | LibInvalidToken _ => parse_dg_jwts lib rest
      | LibRaised e => inr e
      end
  end.

(** A token both library calls of the loop body accept. *)
Definition decodable (lib : JwtLib) (token : string) : bool :=
  match get_unverified_header lib token with
  | LibOk _ =>
      match decode_unverified lib token with
      | LibOk _ => true
      | _ => false
      end
  | _ => false
  end.

End Adapters.

(** ** verifier/anchor.py *)

(** [anchor_proof["proof"]]. *)
Record ProofBody := {
  proof_type : string;
  proof_fingerprint : string;
  proof_block_hash : string;
  chain_position : nat
}.

(** An anchor proof. Block numbers are the ledger's own sequence
    numbers, [len(self._chain) + 1]. *)
Record AnchorProof := {
  block_hash : string;
  block_number : nat;
  transaction_hash : string;
  timestamp : Z;
  proof : ProofBody
}.

(** An entry of [self._chain]. *)
Record ChainEntry := {
  entry_block_hash : string;
  entry_block_number : nat;
  entry_fingerprint : string;
  entry_timestamp : Z
}.

(** The state of a [MockBlockchainAnchor]: [_in_memory_anchors] and
    [_chain]. [_save_to_storage] writes a copy of both to a file and
    swallows its own errors; it changes neither. *)
Record Ledger := {
  in_memory_anchors : gmap string AnchorProof;
  chain : list ChainEntry
}.

(** A fresh [MockBlockchainAnchor()] with nothing to load. *)
Definition empty_ledger : Ledger :=
  {| in_memory_anchors := ∅; chain := [] |}.

Section Verifier.

(** [hashlib.sha256(bytes).hexdigest()]. *)
Variable sha256_hexdigest : string -> string.
(** [json.dumps(value, sort_keys=True)]. *)
Variable json_dumps : json -> string.
(** [json.dumps(payload, sort_keys=True)] of a token's claims set. *)
Variable dumps_payload : Payload -> string.

(** [anchor_chain_fingerprint]: the proof or the message of the
    [AnchorError], and the ledger afterwards. *)
Definition anchor_chain_fingerprint (w : World) (self : Ledger)
    (fingerprint : string) (metadata : option pydict)
  : (AnchorProof + string) * Ledger :=
  if negb (nonempty fingerprint) then
    (inr "Fingerprint cannot be empty", self)
  else
    match in_memory_anchors self !! fingerprint with
    | Some existing => (inl existing, self)
    | None =>
        let block_number := (length (chain self) + 1)%nat in
        let timestamp := clock_anchor w in
        let block_data :=
          JDict [("fingerprint", JStr fingerprint);
                 ("metadata", JDict (default [] metadata));
                 ("timestamp", JInt timestamp);
                 ("block_number", JInt (Z.of_nat block_number))] in
        let block_hash_input :=
          match last (chain self) with
          | Some previous => json_dumps block_data +:+ entry_block_hash previous
          | None => json_dumps block_data
          end in
        let block_hash := sha256_hexdigest block_hash_input in
        let tx_data :=
          fingerprint +:+ str_of_Z timestamp
                      +:+ str_of_Z (Z.of_nat block_number) in
        let transaction_hash := sha256_hexdigest tx_data in
        let anchor_proof :=
          {| block_hash := block_hash;
             block_number := block_number;
             transaction_hash := transaction_hash;
             timestamp := timestamp;
             proof := {| proof_type := "mock_blockchain";
                         proof_fingerprint := fingerprint;
                         proof_block_hash := block_hash;
                         chain_position := block_number |} |} in
        (inl anchor_proof,
         {| in_memory_anchors :=
              <[fingerprint := anchor_proof]> (in_memory_anchors self);
            chain :=
              chain self ++ [{| entry_block_hash := block_hash;
                                entry_block_number := block_number;
                                entry_fingerprint := fingerprint;
                                entry_timestamp := timestamp |}] |})
    end.

(** [verify_anchor(fingerprint, anchor_proof=None)]. *)
Definition verify_anchor (self : Ledger) (fingerprint : string)
    (anchor_proof : option AnchorProof) : bool * option string :=
  if negb (nonempty fingerprint) then
    (false, Some "Fingerprint cannot be empty")
  else
    let proof_check : option string :=
      match anchor_proof with
      | Some given =>
          if negb (bool_decide (proof_fingerprint (proof given) = fingerprint))
          then Some "Anchor proof fingerprint mismatch"
          else
            match in_memory_anchors self !! fingerprint with
            | None => Some "Anchor proof not found in storage"
            | Some stored =>
                if negb (bool_decide (transaction_hash stored
                                      = transaction_hash given))
                then Some "Anchor proof transaction hash mismatch"
                else None
            end
      | None => None
      end in
    match proof_check with
    | Some err => (false, Some err)
    | None =>
        match in_memory_anchors self !! fingerprint with
        | None => (false, Some "Fingerprint not anchored")
        | Some stored_proof =>
            let block_number := block_number stored_proof in
            if negb (bool_decide (block_number = 0%nat))
               && bool_decide (block_number ≤ length (chain self))%nat
            then
              match chain self !! (block_number - 1)%nat with
              | Some chain_entry =>
                  if negb (bool_decide (entry_fingerprint chain_entry
                                        = fingerprint))
                  then (false, Some "Chain integrity verification failed")
                  else (true, None)
              | None => (true, None) (* not reached: block_number <= len *)
              end
            else (true, None)
        end
    end.

Definition get_anchor_proof (self : Ledger) (fingerprint : string)
  : option AnchorProof :=
  in_memory_anchors self !! fingerprint.

(** ** verifier/verifier.py: the delegation chain *)

(** The empty dictionaries of [payload.get("dg", {})],
    [.get("scope", {})] and [.get("status", {})]. *)
Definition empty_delegation : Delegation :=
  {| scope := None; key_binding := None; status := None |}.
Definition empty_scope : Scope := {| resource := None; actions := None |}.
Definition empty_status : DgStatus := {| url := None |}.

(** [payload.get("dg", {}).get("scope", {})]. *)
Definition scope_of (payload : Payload) : Scope :=
  default empty_scope (scope (default empty_delegation (dg payload))).

Definition scope_subset (child_scope parent_scope : Scope) : bool :=
  if negb (bool_decide (resource child_scope = resource parent_scope))
  then false
  else
    let child_actions : gset string :=
      list_to_set (default [] (actions child_scope)) in
    let parent_actions : gset string :=
      list_to_set (default [] (actions parent_scope)) in
    bool_decide (child_actions ⊆ parent_actions).

(** The loop body either returns from the function or goes on to the
    next element with the payloads verified so far. *)
Inductive step :=
| Continue (parsed_delegations : list Payload)
| Return (r : result).

Definition index_info (i : nat) : string * json := ("index", JInt (Z.of_nat i)).

(** "Verify temporality": the condition of the [if]. *)
Definition dg_time_invalid (now : Z) (payload : Payload) : bool :=
  (now <? default 0 (nbf payload)) || (now >? default 0 (exp payload)).

(** "Verify revocation status": [Some r] when the block returns [r]. *)
Definition dg_status_stage (w : World) (policy : Policy) (i : nat)
    (payload : Payload) : option result :=
  let dg_status :=
    default empty_status (status (default empty_delegation (dg payload))) in
  let status_url := default "" (url dg_status) in
  let required := default true (status_required policy) in
  if nonempty status_url then
    match fetch_status w status_url with
    | inl status_doc =>
        if is_revoked status_doc 0
        then Some (false, ErrorCode.DG_REVOKED, [index_info i])
        else None
    | inr e =>
        if required
        then Some (false, ErrorCode.STATUS_FETCH_ERROR,
                   [index_info i; ("error", JStr e)])
        else None
    end
  else None.

(** "Verify key binding": [Some r] when the block returns [r]. Both
    outcomes of [key_exists_in_jwks] only write to the log. *)
Definition key_binding_stage (w : World) (jwks_path : string) (i : nat)
    (payload : Payload) : option result :=
  let kb := default ∅ (key_binding (default empty_delegation (dg payload))) in
  if negb (bool_decide (kb = ∅)) then
    let kid := kb !! "kid" in
    if negb (nonempty (default "" kid)) then
      Some (false, ErrorCode.KEY_BINDING_UNVERIFIED,
            [index_info i; ("reason", JStr "missing_kid")])
    else
      let delegate_subject := default "" (sub payload) in
      if nonempty delegate_subject then
        if negb (key_exists_in_jwks w jwks_path (default "" kid))
        then None
        else None
      else None
  else None.

(** "Verify scope containment (except for first element)". An index
    out of range raises [IndexError], which the enclosing
    [except Exception] turns into [INTERNAL]. *)
Definition scope_stage (i : nat) (payload : Payload)
    (parsed_delegations : list Payload) : option result :=
  if bool_decide (0 < i)%nat then
    let current_scope := scope_of payload in
    match parsed_delegations !! (i - 1)%nat with
    | Some previous =>
        let previous_scope := scope_of previous in
        if negb (scope_subset current_scope previous_scope)
        then Some (false, ErrorCode.DG_SCOPE_ESCALATION, [index_info i])
        else None
    | None =>
        Some (false, ErrorCode.INTERNAL,
              [index_info i; ("error", JStr "list index out of range")])
    end
  else None.

(** One iteration of [for i, dg in enumerate(delta)]. *)
Definition check_delegation (w : World) (jwks_path : string)
    (policy : Policy) (now : Z) (i : nat) (dg : ParsedDelegation)
    (parsed_delegations : list Payload) : step :=
  let token := raw dg in
  match verify_jws w token jwks_path with
  | JwsCryptoError e =>
      Return (false, ErrorCode.STRUCT, [index_info i; ("error", JStr e)])
  | JwsOtherError e =>
      Return (false, ErrorCode.INTERNAL, [index_info i; ("error", JStr e)])
  | JwsOk header payload =>
      if dg_time_invalid now payload then
        Return (false, ErrorCode.DG_TIME, [index_info i])
      else
        match dg_status_stage w policy i payload with
        | Some r => Return r
        | None =>
            let parsed_delegations := parsed_delegations ++ [payload] in
            match key_binding_stage w jwks_path i payload with
            | Some r => Return r
            | None =>
                match scope_stage i payload parsed_delegations with
                | Some r => Return r
                | None => Continue parsed_delegations
                end
            end
        end
  end.

(** The [for] loop from index [i] on. *)
Fixpoint verify_loop (w : World) (jwks_path : string) (policy : Policy)
    (now : Z) (i : nat) (delta : list ParsedDelegation)
    (parsed_delegations : list Payload) : step :=
  match delta with
  | [] => Continue parsed_delegations
  | dg :: rest =>
      match check_delegation w jwks_path policy now i dg parsed_delegations with
      | Return r => Return r
      | Continue parsed_delegations' =>
          verify_loop w jwks_path policy now (S i) rest parsed_delegations'
      end
  end.

(** "Calculate chain fingerprint": one running SHA-256 over the
    serialised payloads, in chain order. *)
Definition chain_fingerprint_of (parsed_delegations : list Payload) : string :=
  sha256_hexdigest (String.concat "" (map dumps_payload parsed_delegations)).

Definition chain_ok (parsed_delegations : list Payload) : result :=
  (true, ErrorCode.OK,
   [("depth", JInt (Z.of_nat (length parsed_delegations)));
    ("chain_fingerprint", JStr (chain_fingerprint_of parsed_delegations))]).

(** "Anchor verification/anchoring (if required by policy)" and the
    final [return]. [anchor] is the global anchor instance, [None] when
    anchoring is disabled. *)
Definition anchor_stage (w : World) (anchor : option Ledger)
    (policy : Policy) (parsed_delegations : list Payload)
  : result * option Ledger :=
  let chain_fingerprint := chain_fingerprint_of parsed_delegations in
  if default false (require_anchor policy) then
    match anchor with
    | None => (chain_ok parsed_delegations, None)
    | Some ledger =>
        let '(is_anchored, error_msg) :=
          verify_anchor ledger chain_fingerprint None in
        if negb is_anchored then
          let metadata :=
            [("depth", JInt (Z.of_nat (length parsed_delegations)));
             ("policy_id", JStr (default "unknown" (policy_id policy)));
             ("timestamp", JInt (clock_meta w))] in
          match anchor_chain_fingerprint w ledger chain_fingerprint
                                         (Some metadata) with
          | (inl anchor_proof, ledger') =>
              (chain_ok parsed_delegations, Some ledger')
          | (inr e, ledger') =>
              ((false, ErrorCode.ANCHOR_VERIFICATION_FAILED,
                [("fingerprint", JStr chain_fingerprint); ("error", JStr e)]),
               Some ledger')
          end
        else (chain_ok parsed_delegations, Some ledger)
    end
  else (chain_ok parsed_delegations, anchor).

Definition verify_delegation_chain (w : World) (anchor : option Ledger)
    (delta : list ParsedDelegation) (jwks_path : string) (policy : Policy)
  : result * option Ledger :=
  if bool_decide (delta = []) then
    ((true, ErrorCode.OK, [("depth", JInt 0)]), anchor)
  else
    let max_depth := default 3 (max_delegation_depth policy) in
    if Z.of_nat (length delta) >? max_depth then
      ((false, ErrorCode.DG_DEPTH,
        [("max_depth", JInt max_depth);
         ("actual", JInt (Z.of_nat (length delta)))]), anchor)
    else
      let now := clock_dg w in
      match verify_loop w jwks_path policy now 0 delta [] with
      | Return r => (r, anchor)
      | Continue parsed_delegations =>
          anchor_stage w anchor policy parsed_delegations
      end.

(** ** verifier/verifier.py: the credential *)

(** [vp = {"jwt": raw_vc_jwt}]. *)
Record VP := {
  jwt : string
}.

Definition empty_vc : VcClaim := {| credentialStatus := None |}.
Definition empty_credential_status : CredentialStatus :=
  {| statusListCredential := None; statusListIndex := None |}.

(** [header.get("alg") not in alg_allowlist]. *)
Definition alg_not_allowed (header : Header) (allowlist : list string) : bool :=
  match alg header with
  | Some a => negb (bool_decide (a ∈ allowlist))
  | None => true
  end.

Definition verify_vc_jwt (w : World) (vp : VP) (jwks_issuer : string)
    (policy : Policy) : result :=
  let token := jwt vp in
  match verify_jws w token jwks_issuer with
  | JwsCryptoError e => (false, ErrorCode.STRUCT, [("error", JStr e)])
  | JwsOtherError e => (false, ErrorCode.INTERNAL, [("error", JStr e)])
  | JwsOk header payload =>
      let allowlist := default ["EdDSA"] (alg_allowlist policy) in
      if alg_not_allowed header allowlist then
        (false, ErrorCode.ALG,
         [("alg", opt_str (alg header));
          ("allowed", JList (map JStr allowlist))])
      else
        let now := clock_vc w in
        let clock_skew := default 5 (clock_skew_seconds policy) in
        let nbf := default 0 (nbf payload) in
        let exp := default 0 (exp payload) in
        if (now <? nbf - clock_skew) || (now >? exp + clock_skew) then
          (false, ErrorCode.VC_TIME,
           [("now", JInt now); ("nbf", JInt nbf); ("exp", JInt exp)])
        else
          let credential_status :=
            default empty_credential_status
                    (credentialStatus (default empty_vc (vc payload))) in
          let status_url := default "" (statusListCredential credential_status) in
          let status_index := default 0 (statusListIndex credential_status) in
          let required := default true (status_required policy) in
          let ok : result :=
            (true, ErrorCode.OK,
             [("iss", opt_str (iss payload)); ("sub", opt_str (sub payload))]) in
          if nonempty status_url then
            match fetch_status w status_url with
            | inl status_doc =>
                if is_revoked status_doc status_index
                then (false, ErrorCode.VC_REVOKED, [("index", JInt status_index)])
                else ok
            | inr e =>
                if required
                then (false, ErrorCode.STATUS_FETCH_ERROR,
                      [("error", JStr e); ("index", JInt status_index)])
                else ok
            end
          else ok
  end.

(** [sign_vro]: [{"vro_jwt": token}], or the message of the
    [ValueError] it raises. *)
Definition sign_vro (w : World) (vro : pydict) (jwks_verifier : string)
  : pydict + string :=
  match jwt_encode w vro with
  | inl token => inl [("vro_jwt", JStr token)]
  | inr e => inr e
  end.

(** ** verifier/verifier.py: the orchestrator *)

(** [cvc["M"]]. *)
Record Metadata := {
  request_id : option string;
  profile_hint : option string;
  raw_vc_jwt : option string;
  raw_vc_ld : option pydict;
  holder_binding : option pydict
}.

(** The CVC dictionary [{I_issuer, I_subject, C, pi, Delta, P, S, M}];
    [None] is a key that is not in the dictionary. *)
Record CVC := {
  cvc_I_issuer : option string;
  cvc_I_subject : option string;
  cvc_C : option json;
  cvc_pi : option json;
  cvc_Delta : option (list ParsedDelegation);
  cvc_P : option Policy;
  cvc_S : option json;
  cvc_M : option Metadata
}.

Definition present {A} (o : option A) : bool :=
  match o with Some _ => true | None => false end.

(** [field in cvc]. *)
Definition cvc_contains (cvc : CVC) (field : string) : bool :=
  if String.eqb field "I_issuer" then present (cvc_I_issuer cvc)
  else if String.eqb field "I_subject" then present (cvc_I_subject cvc)
  else if String.eqb field "C" then present (cvc_C cvc)
  else if String.eqb field "pi" then present (cvc_pi cvc)
  else if String.eqb field "Delta" then present (cvc_Delta cvc)
  else if String.eqb field "P" then present (cvc_P cvc)
  else if String.eqb field "S" then present (cvc_S cvc)
  else if String.eqb field "M" then present (cvc_M cvc)
  else false.

Definition required_fields : list string :=
  ["I_issuer"; "I_subject"; "C"; "pi"; "P"; "S"; "M"].

(** "1) Structural validation": [Some r] when the loop returns [r]. *)
Fixpoint structural_validation (cvc : CVC) (fields : list string)
  : option result :=
  match fields with
  | [] => None
  | field :: rest =>
      if negb (cvc_contains cvc field)
      then Some (false, ErrorCode.STRUCT,
                 [("msg", JStr ("missing " +:+ field))])
      else structural_validation cvc rest
  end.

Definition is_str (v : json) : bool :=
  match v with JStr _ => true | _ => false end.

(** "2) Verify credential based on profile": the failure returned, or
    [vc_info]. *)
Definition credential_stage (w : World) (issuer_id subject_id : string)
    (M : Metadata) (P : Policy) (jwks_issuer : string) : result + pydict :=
  let profile := default "VC-JWT" (profile_hint M) in
  if String.eqb profile "VC-JWT" then
    let raw := default "" (raw_vc_jwt M) in
    if negb (nonempty raw) then
      inl (false, ErrorCode.STRUCT, [("msg", JStr "missing raw_vc_jwt in M")])
    else
      let vp := {| jwt := raw |} in
      let '(success, code, vc_info) := verify_vc_jwt w vp jwks_issuer P in
      if negb success
      then inl (false, code, [("stage", JStr "vc"); ("info", JDict vc_info)])
      else inr vc_info
  else if String.eqb profile "VC-LD" then
    let raw := default [] (raw_vc_ld M) in
    if negb (truthy (JDict raw)) then
      inl (false, ErrorCode.STRUCT, [("msg", JStr "missing raw_vc_ld in M")])
    else
      inr [("iss", JStr issuer_id); ("sub", JStr subject_id)]
  else
    inl (false, ErrorCode.FORMAT_ERROR,
         [("msg", JStr ("Unsupported profile: " +:+ profile))]).

(** "4) Verify holder binding (if required)": [Some r] when it returns. *)
Definition holder_binding_stage (M : Metadata) (P : Policy) : option result :=
  if default true (holder_binding_required P) then
    let hb := default [] (holder_binding M) in
    if negb (truthy (JDict hb)) then
      Some (false, ErrorCode.HOLDER_BINDING,
            [("reason", JStr "missing_holder_binding")])
    else
      let proof := dict_get hb "proof" in
      if negb (truthy proof) || negb (is_str proof) then
        Some (false, ErrorCode.HOLDER_BINDING,
              [("reason", JStr "invalid_proof_structure")])
      else None
  else None.

(** "5) Build deterministic VRO". [cvc["M"]["request_id"]] and
    [cvc["P"]["id"]] raise [KeyError] when the key is absent. *)
Definition build_vro (M : Metadata) (P : Policy) (vc_info dg_info : pydict)
  : result + pydict :=
  match request_id M with
  | None => inl (false, ErrorCode.INTERNAL, [("error", JStr "'request_id'")])
  | Some rid =>
      match policy_id P with
      | None => inl (false, ErrorCode.INTERNAL, [("error", JStr "'id'")])
      | Some pid =>
          inr [("cvc_id", JStr rid);
               ("timestamp", JInt DETERMINISTIC_TIMESTAMP);
               ("policy_ref", JStr pid);
               ("issuer", dict_get vc_info "iss");
               ("subject", dict_get vc_info "sub");
               ("delegation_chain_depth", dict_get_d dg_info "depth" (JInt 0));
               ("decision", JStr "VERIFIED");
               ("assurance", JStr "AAL2");
               ("chain_fingerprint", dict_get dg_info "chain_fingerprint")]
      end
  end.

Definition key_error (k : string) : result :=
  (false, ErrorCode.INTERNAL, [("error", JStr ("'" +:+ k +:+ "'"))]).

(** Stages 1 to 5 of [verify_cvc]: the failure returned, or the VRO
    that is handed to [sign_vro]; and the anchor instance afterwards.
    The [None] branches of the four dictionary reads are [KeyError]s,
    which cannot happen once the structural stage has passed. *)
Definition verify_cvc_vro (w : World) (anchor : option Ledger) (cvc : CVC)
    (jwks_issuer : string) : (result + pydict) * option Ledger :=
  match structural_validation cvc required_fields with
  | Some r => (inl r, anchor)
  | None =>
      match cvc_M cvc, cvc_P cvc, cvc_I_issuer cvc, cvc_I_subject cvc with
      | Some M, Some P, Some issuer_id, Some subject_id =>
          match credential_stage w issuer_id subject_id M P jwks_issuer with
          | inl r => (inl r, anchor)
          | inr vc_info =>
              let delta := default [] (cvc_Delta cvc) in
              let '((success, code, dg_info), anchor') :=
                verify_delegation_chain w anchor delta jwks_issuer P in
              if negb success then
                (inl (false, code,
                      [("stage", JStr "dg"); ("info", JDict dg_info)]),
                 anchor')
              else
                match holder_binding_stage M P with
                | Some r => (inl r, anchor')
                | None => (build_vro M P vc_info dg_info, anchor')
                end
          end
      | None, _, _, _ => (inl (key_error "M"), anchor)
      | _, None, _, _ => (inl (key_error "P"), anchor)
      | _, _, None, _ => (inl (key_error "I_issuer"), anchor)
      | _, _, _, None => (inl (key_error "I_subject"), anchor)
      end
  end.

Definition verify_cvc (w : World) (anchor : option Ledger) (cvc : CVC)
    (jwks_issuer jwks_verifier : string) : result * option Ledger :=
  match verify_cvc_vro w anchor cvc jwks_issuer with
  | (inl r, anchor') => (r, anchor')
  | (inr vro, anchor') =>
      match sign_vro w vro jwks_verifier with
      | inl signed_vro => ((true, ErrorCode.OK, signed_vro), anchor')
      | inr e => ((false, ErrorCode.INTERNAL, [("error", JStr e)]), anchor')
      end
  end.

(** ** Statements in the words of the specification *)

(** The scope subset rule in the words of the specification: the
    resources match exactly and every action of the child is an action
    of the parent. *)
Definition scope_rule (child parent : Scope) : Prop :=
  resource child = resource parent
  /\ forall a, a ∈ default [] (actions child) -> a ∈ default [] (actions parent).

(** A chain element verifies to [payload] when [verify_jws] returns it
    for the element's raw token. *)
Definition verified (w : World) (jwks_path : string) (dg : ParsedDelegation)
    (payload : Payload) : Prop :=
  exists header, verify_jws w (raw dg) jwks_path = JwsOk header payload.

(** Everything the loop body checks before it compares scopes: the
    signature, the validity interval, the status and the key binding. *)
Definition passes_before_scope (w : World) (jwks_path : string)
    (policy : Policy) (i : nat) (dg : ParsedDelegation)
    (payload : Payload) : Prop :=
  verified w jwks_path dg payload
  /\ dg_time_invalid (clock_dg w) payload = false
  /\ dg_status_stage w policy i payload = None
  /\ key_binding_stage w jwks_path i payload = None.

(** [w] with another JWKS file behind [key_exists_in_jwks]. *)
Definition with_read_jwks (w : World) (f : string -> option Jwks) : World :=
  {| verify_jws := verify_jws w;
     read_jwks := f;
     base_dir := base_dir w;
     read_status_file := read_status_file w;
     clock_vc := clock_vc w;
     clock_dg := clock_dg w;
     clock_meta := clock_meta w;
     clock_anchor := clock_anchor w;
     jwt_encode := jwt_encode w |}.

(** The ledger after a sequence of [anchor_chain_fingerprint] calls on
    a fresh [MockBlockchainAnchor]; each call comes with the world it
    runs in, its fingerprint and its metadata. *)
Definition replay (calls : list (World * string * option pydict)) : Ledger :=
  foldl (fun self '(w, fingerprint, metadata) =>
           (anchor_chain_fingerprint w self fingerprint metadata).2)
        empty_ledger calls.

(** Every stored proof points at the chain entry that carries its
    fingerprint. *)
Definition ledger_consistent (self : Ledger) : Prop :=
  forall fingerprint stored,
    in_memory_anchors self !! fingerprint = Some stored ->
    (1 <= block_number stored)%nat
    /\ exists chain_entry,
         chain self !! (block_number stored - 1)%nat = Some chain_entry
         /\ entry_fingerprint chain_entry = fingerprint.

(** [w] with [verify_jws] decoding every token to the given header and
    claims. *)
Definition with_claims (w : World) (header : Header) (payload : Payload)
  : World :=
  {| verify_jws := fun _ _ => JwsOk header payload;
     read_jwks := read_jwks w;
     base_dir := base_dir w;
     read_status_file := read_status_file w;
     clock_vc := clock_vc w;
     clock_dg := clock_dg w;
     clock_meta := clock_meta w;
     clock_anchor := clock_anchor w;
     jwt_encode := jwt_encode w |}.

(** [payload] with another [statusListIndex] in its credential status,
    when it has one. *)
Definition with_statusListIndex (payload : Payload) (index : option Z)
  : Payload :=
  {| iss := iss payload;
     sub := sub payload;
     nbf := nbf payload;
     exp := exp payload;
     dg := dg payload;
     vc := match vc payload with
           | Some v =>
               Some {| credentialStatus :=
                         match credentialStatus v with
                         | Some cs =>
                             Some {| statusListCredential :=
                                       statusListCredential cs;
                                     statusListIndex := index |}
                         | None => None
                         end |}
           | None => None
           end |}.

(** [cvc] with its [Delta] key set to [delta], or removed. *)
Definition with_Delta (cvc : CVC) (delta : option (list ParsedDelegation)) : CVC :=
  {| cvc_I_issuer := cvc_I_issuer cvc;
     cvc_I_subject := cvc_I_subject cvc;
     cvc_C := cvc_C cvc;
     cvc_pi := cvc_pi cvc;
     cvc_Delta := delta;
     cvc_P := cvc_P cvc;
     cvc_S := cvc_S cvc;
     cvc_M := cvc_M cvc |}.

(** ** Sample inputs

    A bank delegates [view] and [pay] on an account to an agent, which
    delegates further; the tokens are named by what they carry. *)

Definition sample_header : Header :=
  {| alg := Some "EdDSA"; hdr_kid := Some "bank-ed25519-1" |}.

Definition sample_delegation (subject : string) (not_before not_after : Z)
    (acts : list string) (kb : option (gmap string string))
    (st : option DgStatus) : Payload :=
  {| iss := Some "did:example:bank";
     sub := Some subject;
     nbf := Some not_before;
     exp := Some not_after;
     dg := Some {| scope := Some {| resource := Some "account:123";
                                     actions := Some acts |};
                   key_binding := kb;
                   status := st |};
     vc := None |}.

Definition sample_credential (cs : option CredentialStatus) : Payload :=
  {| iss := Some "did:example:bank";
     sub := Some "did:example:alice";
     nbf := Some 1700000000;
     exp := Some 1800000000;
     dg := None;
     vc := Some {| credentialStatus := cs |} |}.

Definition sample_claims (token : string) : option Payload :=
  if String.eqb token "dg.view-pay" then
    Some (sample_delegation "did:example:agent1" 1700000000 1800000000
            ["view"; "pay"] None None)
  else if String.eqb token "dg.view" then
    Some (sample_delegation "did:example:agent2" 1700000000 1800000000
            ["view"] None None)
  else if String.eqb token "dg.view-pay-admin" then
    Some (sample_delegation "did:example:agent2" 1700000000 1800000000
            ["view"; "pay"; "admin"] None None)
  else if String.eqb token "dg.expired" then
    Some (sample_delegation "did:example:agent1" 1600000000 1650000000
            ["view"] None None)
  else if String.eqb token "dg.no-kid" then
    Some (sample_delegation "did:example:agent1" 1700000000 1800000000
            ["view"] (Some {["alg" := "EdDSA"]}) None)
  else if String.eqb token "dg.kid" then
    Some (sample_delegation "did:example:agent1" 1700000000 1800000000
            ["view"] (Some {["kid" := "agent-key-7"]}) None)
  else if String.eqb token "dg.status" then
    Some (sample_delegation "did:example:agent1" 1700000000 1800000000
            ["view"] None
            (Some {| url := Some "https://status.example/dg/1" |}))
  else if String.eqb token "dg.revoked" then
    Some (sample_delegation "did:example:agent1" 1700000000 1800000000
            ["view"] None
            (Some {| url := Some "https://status.example/revoked/1" |}))
  else if String.eqb token "vc.plain" then
    Some (sample_credential None)
  else if String.eqb token "vc.status" then
    Some (sample_credential
            (Some {| statusListCredential := Some "https://status.example/vc";
                     statusListIndex := Some 7 |}))
  else if String.eqb token "dg.no-exp" then
    Some {| iss := Some "did:example:bank";
            sub := Some "did:example:agent1";
            nbf := Some 1700000000;
            exp := None;
            dg := Some {| scope := Some {| resource := Some "account:123";
                                            actions := Some ["view"] |};
                          key_binding := None;
                          status := None |};
            vc := None |}
  else None.

(** What the library reads off the clock in the sample worlds; no
    clock of a sample world is later. *)
Definition sample_decode_time : Z := 1735700000.

(** [verify_jws] on the sample tokens: every token that decodes carries
    a valid signature, and [jwt.decode] validates its time claims. *)
Definition sample_verify_jws (token jwks_path : string) : jws_result :=
  match sample_claims token with
  | Some payload =>
      match validate_claims sample_decode_time payload with
      | Some msg => JwsCryptoError ("JWT verification failed: " +:+ msg)
      | None => JwsOk sample_header payload
      end
  | None => JwsCryptoError "JWT verification failed: Not enough segments"
  end.

(** A world in which the status fixtures are missing; [now] is what
    every clock reading returns. *)
Definition sample_world (now : Z) : World :=
  {| verify_jws := sample_verify_jws;
     read_jwks := fun _ =>
       Some {| keys := Some [{| jwk_kid := Some "bank-ed25519-1";
                                jwk_x := Some "11qYAYKxCrfVS_7TyWQHOg7hcvPapiMlrwIaaPcHURo" |}] |};
     base_dir := "/srv/gateway";
     read_status_file := fun _ => FileMissing;
     clock_vc := now;
     clock_dg := now;
     clock_meta := now;
     clock_anchor := now;
     jwt_encode := fun _ => inl "eyJ.vro.sig" |}.

(** The same world with both status fixtures in place. *)
Definition sample_world_with_status (now : Z) : World :=
  {| verify_jws := sample_verify_jws;
     read_jwks := read_jwks (sample_world now);
     base_dir := "/srv/gateway";
     read_status_file := fun path =>
       if str_contains "revoked" path
       then FileJson {| encodedList := Some "H4sIAAAAAAAAA/////8AAAD" |}
       else FileJson {| encodedList := Some "H4sIAAAAAAAAA2NgGAWjYBSMglEwCkbBKBgFo2AUjIJRMApGwSgYBaNgFIyCUTAKRsEoGAWjYBSMglEwCkbBKBgFAAAA" |};
     clock_vc := now;
     clock_dg := now;
     clock_meta := now;
     clock_anchor := now;
     jwt_encode := fun _ => inl "eyJ.vro.sig" |}.

Definition sample_element (token : string) : ParsedDelegation :=
  {| hdr := sample_header;
     pld := default (sample_credential None) (sample_claims token);
     raw := token |}.

Definition sample_policy (required : option bool) : Policy :=
  {| policy_id := Some "P-001";
     alg_allowlist := Some ["EdDSA"];
     clock_skew_seconds := Some 5;
     status_required := required;
     max_delegation_depth := None;
     require_anchor := None;
     holder_binding_required := Some false |}.

Definition sample_metadata (profile : string) : Metadata :=
  {| request_id := Some "1735600000123";
     profile_hint := Some profile;
     raw_vc_jwt := Some "vc.plain";
     raw_vc_ld := Some [("id", JStr "urn:uuid:1")];
     holder_binding := None |}.

Definition sample_cvc (profile : string)
    (delta : option (list ParsedDelegation)) (proofs : option json) : CVC :=
  {| cvc_I_issuer := Some "did:example:bank";
     cvc_I_subject := Some "did:example:alice";
     cvc_C := Some (JList []);
     cvc_pi := proofs;
     cvc_Delta := delta;
     cvc_P := Some (sample_policy None);
     cvc_S := Some (JDict []);
     cvc_M := Some (sample_metadata profile) |}.

(** Stand-ins for SHA-256 and [json.dumps] on the sample inputs. *)
Definition sample_sha256 (s : string) : string := "sha256:" +:+ s.
Definition sample_json_dumps (v : json) : string :=
  match v with JDict d => String.concat "," (map fst d) | _ => "" end.
Definition sample_dumps_payload (p : Payload) : string := default "" (sub p).

(** ** Further statements about the ledger *)

(** The [block_data] dictionary that [anchor_chain_fingerprint] hashes
    for a new block. *)
Definition block_data (fingerprint : string) (metadata : pydict)
    (timestamp : Z) (block_number : nat) : json :=
  JDict [("fingerprint", JStr fingerprint);
         ("metadata", JDict metadata);
         ("timestamp", JInt timestamp);
         ("block_number", JInt (Z.of_nat block_number))].

(** The hash of the block before position [k] of a chain, [""] for the
    first block. *)
Definition previous_hash (blocks : list ChainEntry) (k : nat) : string :=
  match k with
  | O => ""
  | S k' => from_option entry_block_hash "" (blocks !! k')
  end.

(** What a ledger built by anchoring looks like: as many proofs as
    blocks, the block at position [k] numbered [k + 1] and described by
    the proof stored under its fingerprint, and every proof stored
    under the fingerprint of its own block. *)
Definition ledger_shape (self : Ledger) : Prop :=
  size (in_memory_anchors self) = length (chain self)
  /\ (forall k e,
        chain self !! k = Some e ->
        entry_block_number e = S k
        /\ exists stored,
             in_memory_anchors self !! entry_fingerprint e = Some stored
             /\ block_number stored = S k
             /\ block_hash stored = entry_block_hash e
             /\ timestamp stored = entry_timestamp e
             /\ proof_fingerprint (proof stored) = entry_fingerprint e
             /\ proof_block_hash (proof stored) = entry_block_hash e
             /\ chain_position (proof stored) = S k)
  /\ (forall f stored,
        in_memory_anchors self !! f = Some stored ->
        f <> ""
        /\ exists e,
             chain self !! (block_number stored - 1)%nat = Some e
             /\ (1 <= block_number stored)%nat
             /\ entry_fingerprint e = f).

(** Each block hash is the SHA-256 of the block's data followed by the
    hash of the block before it. *)
Definition hash_linked (blocks : list ChainEntry) : Prop :=
  forall k e,
    blocks !! k = Some e ->
    exists metadata,
      entry_block_hash e =
      sha256_hexdigest
        (json_dumps (block_data (entry_fingerprint e) metadata
                       (entry_timestamp e) (entry_block_number e))
         +:+ previous_hash blocks k).

(** The fingerprints passed to a sequence of anchor calls. *)
Definition fingerprints_of (calls : list (World * string * option pydict))
  : list string :=
  (fun c => c.1.2) <$> calls.

(** ** Further statements about the chain verifier *)

(** [payload.get("dg", {}).get("status", {}).get("url", "")]. *)
Definition dg_status_url (payload : Payload) : string :=
  default "" (url (default empty_status
                     (status (default empty_delegation (dg payload))))).

(** The status of a delegation lets it pass: it names no status URL,
    or the document fetched is not revoked, or the fetch fails and the
    policy says the status is not required. *)
Definition status_passes (w : World) (policy : Policy) (payload : Payload)
  : Prop :=
  dg_status_url payload = ""
  \/ (exists doc,
        fetch_status w (dg_status_url payload) = inl doc
        /\ is_revoked doc 0 = false)
  \/ (exists e,
        fetch_status w (dg_status_url payload) = inr e
        /\ status_required policy = Some false).

(** The key binding of a delegation lets it pass: there is none, or an
    empty one, or one with a non-empty [kid]. *)
Definition key_binding_passes (payload : Payload) : Prop :=
  default ∅ (key_binding (default empty_delegation (dg payload))) = ∅
  \/ exists kid,
       default ∅ (key_binding (default empty_delegation (dg payload)))
         !! "kid" = Some kid
       /\ kid <> "".

(** A chain element passes on its own: its token verifies to
    [payload], the clock reading is within [[nbf, exp]], and status and
    key binding let it pass. *)
Definition element_passes (w : World) (jwks_path : string) (policy : Policy)
    (el : ParsedDelegation) (payload : Payload) : Prop :=
  verified w jwks_path el payload
  /\ default 0 (nbf payload) <= clock_dg w <= default 0 (exp payload)
  /\ status_passes w policy payload
  /\ key_binding_passes payload.

(** Each payload of the list is within the scope of the one before. *)
Definition scopes_narrow (payloads : list Payload) : Prop :=
  forall k prev cur,
    payloads !! k = Some prev -> payloads !! S k = Some cur ->
    scope_rule (scope_of cur) (scope_of prev).

(** [payload] with other [iss] and [sub] claims. *)
Definition with_principals (payload : Payload)
    (issuer subject : option string) : Payload :=
  {| iss := issuer;
     sub := subject;
     nbf := nbf payload;
     exp := exp payload;
     dg := dg payload;
     vc := vc payload |}.

(** [w] with the [iss] and [sub] of every verified token replaced by
    what [who] says for that token. *)
Definition relabel (w : World)
    (who : string -> option string * option string) : World :=
  {| verify_jws := fun token jwks_path =>
       match verify_jws w token jwks_path with
       | JwsOk header payload =>
           JwsOk header
                 (with_principals payload (who token).1 (who token).2)
       | other => other
       end;
     read_jwks := read_jwks w;
     base_dir := base_dir w;
     read_status_file := read_status_file w;
     clock_vc := clock_vc w;
     clock_dg := clock_dg w;
     clock_meta := clock_meta w;
     clock_anchor := clock_anchor w;
     jwt_encode := jwt_encode w |}.

(** The codes a verification outcome can carry. *)
Definition chain_codes : list string :=
  ["OK"; "100"; "E200"; "E300"; "E400"; "E900"].
Definition cvc_codes : list string :=
  ["OK"; "100"; "E200"; "E300"; "E400"; "E500"; "E900"].

(** Two payloads that differ at most in [iss] and [sub]. *)
Definition same_but_principals (p' p : Payload) : Prop :=
  nbf p' = nbf p /\ exp p' = exp p /\ dg p' = dg p /\ vc p' = vc p.

(** ** Further sample inputs *)

(** A policy that asks for anchoring. *)
Definition sample_anchor_policy : Policy :=
  {| policy_id := Some "P-002";
     alg_allowlist := None;
     clock_skew_seconds := None;
     status_required := None;
     max_delegation_depth := Some 2;
     require_anchor := Some true;
     holder_binding_required := None |}.

(** The signatures of the sample tokens: every sample token is signed
    by the key of the sample JWKS, every other token is not a JWT. *)
Definition sample_signatures : JwtLib :=
  {| get_unverified_header := fun token =>
       match sample_claims token with
       | Some _ => LibOk sample_header
       | None => LibInvalidToken "Not enough segments"
       end;
     decode := fun token key =>
       match sample_claims token with
       | Some payload => LibOk payload
       | None => LibInvalidToken "Not enough segments"
       end;
     decode_unverified := fun token =>
       match sample_claims token with
       | Some payload => LibOk payload
       | None => LibInvalidToken "Not enough segments"
       end;
     pem_of_x_padded := fun x => inl ("-----BEGIN PUBLIC KEY-----" +:+ x);
     jwks_read_error := fun _ => "Expecting value: line 1 column 1 (char 0)" |}.

(** The library on the sample tokens: the signatures above, with the
    claims validated. *)
Definition sample_lib : JwtLib :=
  with_default_options sample_signatures (fun _ => sample_decode_time).

(** A CVC with a chain, a policy and a holder binding. *)
Definition sample_cvc_with (delta : list ParsedDelegation) (policy : Policy)
    (hb : option pydict) : CVC :=
  {| cvc_I_issuer := Some "did:example:bank";
     cvc_I_subject := Some "did:example:alice";
     cvc_C := Some (JList []);
     cvc_pi := Some (JList []);
     cvc_Delta := Some delta;
     cvc_P := Some policy;
     cvc_S := Some (JDict []);
     cvc_M := Some {| request_id := Some "1735600000123";
                      profile_hint := Some "VC-JWT";
                      raw_vc_jwt := Some "vc.plain";
                      raw_vc_ld := None;
                      holder_binding := hb |} |}.

(** A policy more permissive than [sample_policy None]. *)
Definition sample_relaxed_policy : Policy :=
  {| policy_id := Some "P-004";
     alg_allowlist := Some ["EdDSA"; "ES256"];
     clock_skew_seconds := Some 60;
     status_required := Some false;
     max_delegation_depth := Some 5;
     require_anchor := Some true;
     holder_binding_required := Some false |}.

(** * Properties *)

(** ** Strings *)

Lemma str_prefix_spec (p s : string) :
  str_prefix p s = true <-> exists post, s = p +:+ post.
Proof.
  revert s. induction p as [|a p IH]; intros s; simpl.
  - split; [intros _; by exists s | done].
  - destruct s as [|b s].
    + split; [done | intros [post H]; discriminate H].
    + rewrite andb_true_iff, Ascii.eqb_eq, IH. split.
      * intros [-> [post ->]]. by exists post.
      * intros [post H]. injection H as -> ->. eauto.
Qed.

Lemma str_contains_spec (needle hay : string) :
  str_contains needle hay = true <->
  exists pre post, hay = pre +:+ needle +:+ post.
Proof.
  induction hay as [|c hay IH]; simpl.
  - rewrite orb_false_r, str_prefix_spec. split.
    + intros [post H]. by exists "", post.
    + intros [pre [post H]]. destruct pre; [by exists post | discriminate H].
  - rewrite orb_true_iff, str_prefix_spec, IH. split.
    + intros [[post H] | [pre [post ->]]].
      * by exists "", post.
      * by exists (String c pre), post.
    + intros [pre [post H]]. destruct pre as [|c' pre].
      * left. by exists post.
      * right. injection H as -> ->. by exists pre, post.
Qed.

Lemma nonempty_true (s : string) : s <> "" -> nonempty s = true.
Proof. intros H. by apply negb_true_iff, String.eqb_neq. Qed.

(** ** Revocation status *)

(** C10: [is_revoked] does not look at its index, and answers [true]
    exactly when ["/////"] occurs in the document's [encodedList]; in
    particular it answers [false] when the field is absent. So the
    verdict and the code of [verify_vc_jwt] are the same whatever
    [statusListIndex] the credential carries. *)
Theorem is_revoked_ignores_index (status_doc : StatusDoc) (i j : Z) :
  is_revoked status_doc i = is_revoked status_doc j
  /\ (is_revoked status_doc i = true <->
      exists pre post,
        encodedList status_doc = Some (pre +:+ "/////" +:+ post))
  /\ is_revoked {| encodedList := None |} i = false
  /\ forall w vp jwks policy header payload index,
       (verify_vc_jwt
          (with_claims w header (with_statusListIndex payload index))
          vp jwks policy).1
       = (verify_vc_jwt (with_claims w header payload) vp jwks policy).1.
Proof.
  split; [reflexivity | split; [|split]].
  - unfold is_revoked.
    destruct (str_contains "/////" (default "" (encodedList status_doc))) eqn:E.
    + apply str_contains_spec in E as [pre [post E]].
      split; [intros _ | done]. exists pre, post.
      destruct (encodedList status_doc) as [s|]; simpl in E.
      * by rewrite E.
      * destruct pre; discriminate E.
    + split; [done | intros [pre [post H]]]. rewrite H in E. simpl in E.
      assert (str_contains "/////" (pre +:+ "/////" +:+ post) = true) as E'
        by (apply str_contains_spec; eauto).
      congruence.
  - reflexivity.
  - intros w vp jwks policy header payload index.
    unfold verify_vc_jwt. simpl.
    destruct (alg_not_allowed header _); [done|].
    destruct (_ || _); [done|].
    destruct (vc payload) as [v|]; simpl; [|done].
    destruct (credentialStatus v) as [cs|]; simpl; [|done].
    destruct (nonempty _); [|done].
    change (fetch_status (with_claims w header
                            (with_statusListIndex payload index)))
      with (fetch_status (with_claims w header payload)).
    destruct (fetch_status (with_claims w header payload) _) as [doc|e].
    + unfold is_revoked. by destruct (str_contains _ _).
    + by destruct (default true (status_required policy)).
Qed.

(** ** Scope containment *)

Lemma scope_subset_spec (child parent : Scope) :
  scope_subset child parent = true <-> scope_rule child parent.
Proof.
  unfold scope_subset, scope_rule.
  destruct (decide (resource child = resource parent)) as [Hr|Hr].
  - rewrite (bool_decide_eq_true_2 _ Hr). simpl.
    rewrite bool_decide_eq_true. split.
    + intros Hsub. split; [done | intros a Ha].
      apply (elem_of_list_to_set (C := gset string)).
      apply Hsub. by apply elem_of_list_to_set.
    + intros [_ Hsub] a Ha. apply elem_of_list_to_set.
      apply Hsub. by apply (elem_of_list_to_set (C := gset string)) in Ha.
  - rewrite (bool_decide_eq_false_2 _ Hr). simpl. split; [done | tauto].
Qed.

(** ** The delegation loop *)

Lemma check_delegation_Continue w jwks policy now i dg parsed parsed' :
  check_delegation w jwks policy now i dg parsed = Continue parsed' ->
  exists header payload,
    verify_jws w (raw dg) jwks = JwsOk header payload
    /\ parsed' = parsed ++ [payload]
    /\ dg_time_invalid now payload = false
    /\ dg_status_stage w policy i payload = None
    /\ key_binding_stage w jwks i payload = None
    /\ scope_stage i payload (parsed ++ [payload]) = None.
Proof.
  unfold check_delegation. intros H.
  destruct (verify_jws w (raw dg) jwks) as [h p|e|e]; try discriminate.
  destruct (dg_time_invalid now p) eqn:Ht; try discriminate.
  destruct (dg_status_stage w policy i p) eqn:Hs; try discriminate.
  destruct (key_binding_stage w jwks i p) eqn:Hk; try discriminate.
  destruct (scope_stage i p (parsed ++ [p])) eqn:Hc; try discriminate.
  injection H as <-. exists h, p. auto 10.
Qed.

Lemma check_delegation_passes w jwks policy now i dg parsed header payload :
  verify_jws w (raw dg) jwks = JwsOk header payload ->
  dg_time_invalid now payload = false ->
  dg_status_stage w policy i payload = None ->
  key_binding_stage w jwks i payload = None ->
  check_delegation w jwks policy now i dg parsed =
  match scope_stage i payload (parsed ++ [payload]) with
  | Some r => Return r
  | None => Continue (parsed ++ [payload])
  end.
Proof.
  intros Hv Ht Hs Hk. unfold check_delegation. by rewrite Hv, Ht, Hs, Hk.
Qed.

Lemma stage_results_fail :
  (forall w policy i p r, dg_status_stage w policy i p = Some r -> r.1.1 = false)
  /\ (forall w jwks i p r, key_binding_stage w jwks i p = Some r -> r.1.1 = false)
  /\ (forall i p parsed r, scope_stage i p parsed = Some r -> r.1.1 = false).
Proof.
  repeat split.
  - intros w policy i p r. unfold dg_status_stage.
    repeat case_match; intros ?; by simplify_eq.
  - intros w jwks i p r. unfold key_binding_stage.
    repeat case_match; intros ?; by simplify_eq.
  - intros i p parsed r. unfold scope_stage.
    repeat case_match; intros ?; by simplify_eq.
Qed.

Lemma check_delegation_Return w jwks policy now i dg parsed r :
  check_delegation w jwks policy now i dg parsed = Return r -> r.1.1 = false.
Proof.
  destruct stage_results_fail as (Hs & Hk & Hc).
  unfold check_delegation. intros H.
  destruct (verify_jws w (raw dg) jwks) as [h p|e|e]; try by simplify_eq.
  destruct (dg_time_invalid now p); try by simplify_eq.
  destruct (dg_status_stage w policy i p) eqn:E1; [simplify_eq; eauto|].
  destruct (key_binding_stage w jwks i p) eqn:E2; [simplify_eq; eauto|].
  destruct (scope_stage i p (parsed ++ [p])) eqn:E3; [simplify_eq; eauto|].
  discriminate.
Qed.

Lemma verify_loop_Return w jwks policy now i delta parsed r :
  verify_loop w jwks policy now i delta parsed = Return r -> r.1.1 = false.
Proof.
  revert i parsed. induction delta as [|dg rest IH]; intros i parsed; simpl.
  - discriminate.
  - destruct (check_delegation w jwks policy now i dg parsed) eqn:E.
    + apply IH.
    + intros H. simplify_eq. eauto using check_delegation_Return.
Qed.

Lemma verify_loop_app w jwks policy now i pre rest parsed :
  verify_loop w jwks policy now i (pre ++ rest) parsed =
  match verify_loop w jwks policy now i pre parsed with
  | Return r => Return r
  | Continue parsed' =>
      verify_loop w jwks policy now (i + length pre)%nat rest parsed'
  end.
Proof.
  revert i parsed. induction pre as [|dg pre IH]; intros i parsed; simpl.
  - by rewrite Nat.add_0_r.
  - destruct (check_delegation w jwks policy now i dg parsed); [|done].
    rewrite IH. by replace (S i + length pre)%nat with (i + S (length pre))%nat by lia.
Qed.

(** What the loop has established when it runs to the end: every
    element verified, the payloads were appended in order, and every
    payload from index [i] on is within the scope of its predecessor. *)
Lemma verify_loop_Continue w jwks policy now i delta parsed parsed' :
  verify_loop w jwks policy now i delta parsed = Continue parsed' ->
  length parsed = i ->
  exists payloads,
    parsed' = parsed ++ payloads
    /\ Forall2 (verified w jwks) delta payloads
    /\ forall k prev cur,
         (i <= S k)%nat ->
         parsed' !! k = Some prev -> parsed' !! S k = Some cur ->
         scope_subset (scope_of cur) (scope_of prev) = true.
Proof.
  revert i parsed. induction delta as [|dg rest IH]; intros i parsed; simpl.
  - intros [= <-] Hlen. exists []. rewrite app_nil_r. repeat split; [constructor|].
    intros k prev cur Hk _ Hcur. apply lookup_lt_Some in Hcur. lia.
  - destruct (check_delegation w jwks policy now i dg parsed) as [parsed1|]
      eqn:E; [|discriminate].
    intros Hloop Hlen.
    apply check_delegation_Continue in E
      as (h & p & Hv & -> & _ & _ & _ & Hscope).
    apply IH in Hloop as (payloads & -> & Hall & Hsc);
      [|rewrite length_app; simpl; lia].
    exists (p :: payloads). rewrite <- app_assoc. simpl.
    repeat split; [constructor; [by exists h | done]|].
    intros k prev cur Hk Hprev Hcur.
    destruct (decide (S i <= S k)%nat) as [Hle|Hgt].
    { apply (Hsc k prev cur Hle); by rewrite <- app_assoc. }
    assert (S k = i) as <- by lia.
    rewrite lookup_app_l in Hprev by lia.
    rewrite lookup_app_r in Hcur by lia.
    rewrite Hlen, Nat.sub_diag in Hcur. simpl in Hcur. injection Hcur as ->.
    unfold scope_stage in Hscope.
    rewrite bool_decide_eq_true_2 in Hscope by lia.
    replace (S k - 1)%nat with k in Hscope by lia.
    rewrite lookup_app_l, Hprev in Hscope by lia.
    destruct (scope_subset (scope_of cur) (scope_of prev)); [done | discriminate].
Qed.

Lemma anchor_stage_success w anchor policy parsed code info anchor' :
  anchor_stage w anchor policy parsed = ((true, code, info), anchor') ->
  (true, code, info) = chain_ok parsed.
Proof.
  unfold anchor_stage. intros H. repeat case_match; by simplify_eq.
Qed.

(** A successful chain verification is either the empty chain or a
    loop that ran to the end. *)
Lemma verify_delegation_chain_success w anchor delta jwks policy code info anchor' :
  verify_delegation_chain w anchor delta jwks policy
    = ((true, code, info), anchor') ->
  (delta = [] /\ code = ErrorCode.OK /\ info = [("depth", JInt 0)]
   /\ anchor' = anchor)
  \/ (delta <> []
      /\ exists parsed,
           verify_loop w jwks policy (clock_dg w) 0 delta [] = Continue parsed
           /\ (true, code, info) = chain_ok parsed).
Proof.
  unfold verify_delegation_chain. intros H.
  case_bool_decide as Hd; [left; by simplify_eq|right].
  split; [done|].
  destruct (_ >? _); [by simplify_eq|].
  destruct (verify_loop w jwks policy (clock_dg w) 0 delta []) as [parsed|r] eqn:E.
  - exists parsed. split; [done|]. eauto using anchor_stage_success.
  - apply verify_loop_Return in E. by simplify_eq.
Qed.

(** Every element of a loop that ran to the end passed the checks of
    the loop body. *)
Lemma verify_loop_each w jwks policy now i delta parsed parsed' :
  verify_loop w jwks policy now i delta parsed = Continue parsed' ->
  Forall (fun el =>
            exists header payload k,
              verify_jws w (raw el) jwks = JwsOk header payload
              /\ dg_time_invalid now payload = false
              /\ dg_status_stage w policy k payload = None
              /\ key_binding_stage w jwks k payload = None) delta.
Proof.
  revert i parsed. induction delta as [|el rest IH]; intros i parsed; simpl.
  - constructor.
  - destruct (check_delegation w jwks policy now i el parsed) as [parsed1|]
      eqn:E; [|discriminate].
    intros Hloop.
    apply check_delegation_Continue in E as (h & p & Hv & _ & Ht & Hs & Hk & _).
    constructor; [exists h, p, i; auto | eauto].
Qed.

Lemma chain_success_each w anchor delta jwks policy code info anchor' :
  verify_delegation_chain w anchor delta jwks policy
    = ((true, code, info), anchor') ->
  Forall (fun el =>
            exists header payload k,
              verify_jws w (raw el) jwks = JwsOk header payload
              /\ dg_time_invalid (clock_dg w) payload = false
              /\ dg_status_stage w policy k payload = None
              /\ key_binding_stage w jwks k payload = None) delta.
Proof.
  intros H. apply verify_delegation_chain_success in H
    as [(-> & _) | (_ & parsed & Hloop & _)]; [constructor|].
  eauto using verify_loop_each.
Qed.

(** The chain verifier returns what the loop body returns at the first
    element where it stops. *)
Lemma verify_delegation_chain_at w anchor jwks policy pre dg post parsed r :
  (Z.of_nat (length (pre ++ dg :: post))
   <= default 3 (max_delegation_depth policy)) ->
  verify_loop w jwks policy (clock_dg w) 0 pre [] = Continue parsed ->
  check_delegation w jwks policy (clock_dg w) (length pre) dg parsed = Return r ->
  verify_delegation_chain w anchor (pre ++ dg :: post) jwks policy = (r, anchor).
Proof.
  intros Hdepth Hpre Hbody. unfold verify_delegation_chain.
  rewrite bool_decide_eq_false_2 by (by destruct pre).
  destruct (_ >? _) eqn:E; [lia|].
  rewrite verify_loop_app, Hpre. simpl. by rewrite Hbody.
Qed.

Lemma verified_functional w jwks dg p1 p2 :
  verified w jwks dg p1 -> verified w jwks dg p2 -> p1 = p2.
Proof. intros [h1 H1] [h2 H2]. congruence. Qed.

(** ** Depth bound *)

Lemma chain_too_deep w anchor delta jwks policy :
  delta <> [] ->
  Z.of_nat (length delta) > default 3 (max_delegation_depth policy) ->
  verify_delegation_chain w anchor delta jwks policy =
  ((false, ErrorCode.DG_DEPTH,
    [("max_depth", JInt (default 3 (max_delegation_depth policy)));
     ("actual", JInt (Z.of_nat (length delta)))]), anchor).
Proof.
  intros Hne Hlen. unfold verify_delegation_chain.
  rewrite bool_decide_eq_false_2 by done.
  destruct (_ >? _) eqn:E; [done | lia].
Qed.

(** C2: a non-empty chain longer than the policy's
    [max_delegation_depth] (3 when the policy has none) fails with E300
    (DG_DEPTH) whatever the world answers about its elements: nothing
    is verified, fetched or anchored before the depth check. *)
Theorem depth_check_comes_first w anchor delta jwks policy :
  delta <> [] ->
  Z.of_nat (length delta) > default 3 (max_delegation_depth policy) ->
  verify_delegation_chain w anchor delta jwks policy =
  ((false, "E300",
    [("max_depth", JInt (default 3 (max_delegation_depth policy)));
     ("actual", JInt (Z.of_nat (length delta)))]), anchor).
Proof.
  intros Hne Hlen. unfold verify_delegation_chain.
  rewrite bool_decide_eq_false_2 by done.
  destruct (Z.of_nat (length delta) >? default 3 (max_delegation_depth policy))
    eqn:E.
  - reflexivity.
  - rewrite Z.gtb_ltb, Z.ltb_ge in E. lia.
Qed.

(** The chain of length [maxDelegationDepth + 1]. *)
Corollary depth_plus_one_fails w anchor delta jwks policy (m : Z) :
  max_delegation_depth policy = Some m ->
  0 <= m ->
  Z.of_nat (length delta) = m + 1 ->
  (verify_delegation_chain w anchor delta jwks policy).1.1 = (false, "E300").
Proof.
  intros Hm Hpos Hlen. rewrite chain_too_deep.
  - done.
  - intros ->. simpl in Hlen. lia.
  - rewrite Hm. simpl. lia.
Qed.

(** ** Scope containment along the chain *)

Lemma stage_codes w jwks policy i p parsed r :
  (dg_status_stage w policy i p = Some r -> r.1.2 = "E300")
  /\ (key_binding_stage w jwks i p = Some r -> r.1.2 = "E200")
  /\ (scope_stage i p parsed = Some r ->
      r.1.2 = "E900"
      \/ (0 < i)%nat
         /\ r = (false, "E400", [index_info i])
         /\ exists previous,
              parsed !! (i - 1)%nat = Some previous
              /\ scope_subset (scope_of p) (scope_of previous) = false).
Proof.
  repeat split.
  - unfold dg_status_stage. repeat case_match; intros ?; by simplify_eq.
  - unfold key_binding_stage. repeat case_match; intros ?; by simplify_eq.
  - unfold scope_stage. case_bool_decide as Hi; [|done].
    destruct (parsed !! (i - 1)%nat) as [previous|] eqn:Hprev.
    + destruct (scope_subset _ _) eqn:E; simpl; [done|].
      intros [= <-]. right. eauto.
    + intros [= <-]. by left.
Qed.

(** When the loop returns E400, it returns it at the first element
    that is outside the scope of its predecessor. *)
Lemma verify_loop_E400 w jwks policy now i delta parsed info :
  verify_loop w jwks policy now i delta parsed = Return (false, "E400", info) ->
  exists pre el post parsed1 header payload previous,
    delta = pre ++ el :: post
    /\ verify_loop w jwks policy now i pre parsed = Continue parsed1
    /\ verify_jws w (raw el) jwks = JwsOk header payload
    /\ (0 < i + length pre)%nat
    /\ (parsed1 ++ [payload]) !! (i + length pre - 1)%nat = Some previous
    /\ scope_subset (scope_of payload) (scope_of previous) = false
    /\ info = [index_info (i + length pre)].
Proof.
  revert i parsed. induction delta as [|el rest IH]; intros i parsed; simpl.
  - discriminate.
  - destruct (check_delegation w jwks policy now i el parsed) as [parsed1|r]
      eqn:E.
    + intros Hloop.
      apply IH in Hloop
        as (pre & el' & post & parsed2 & h & p & prev
            & -> & Hpre & Hv & Hpos & Hprev & Hsub & ->).
      exists (el :: pre), el', post, parsed2, h, p, prev. simpl.
      rewrite E. replace (i + S (length pre))%nat with (S i + length pre)%nat
        by lia.
      auto 10.
    + intros [= ->]. revert E. unfold check_delegation.
      destruct (verify_jws w (raw el) jwks) as [h p|e|e] eqn:Hv;
        try discriminate.
      destruct (dg_time_invalid now p); [discriminate|].
      destruct (stage_codes w jwks policy i p (parsed ++ [p])
                  (false, "E400", info)) as (Hs & Hk & Hc).
      destruct (dg_status_stage w policy i p) as [r|] eqn:E1.
      { intros [= ->]. by specialize (Hs eq_refl). }
      destruct (key_binding_stage w jwks i p) as [r|] eqn:E2.
      { intros [= ->]. by specialize (Hk eq_refl). }
      destruct (scope_stage i p (parsed ++ [p])) as [r|] eqn:E3;
        [|discriminate].
      intros [= ->].
      destruct (Hc eq_refl) as [Hbad | (Hi & Hr & prev & Hprev & Hsub)];
        [discriminate|].
      injection Hr as ->.
      exists [], el, rest, parsed, h, p, prev. simpl.
      rewrite Nat.add_0_r. auto 10.
Qed.



Lemma anchor_stage_code w anchor policy parsed r anchor' :
  anchor_stage w anchor policy parsed = (r, anchor') ->
  r.1.2 = "OK" \/ r.1.2 = "E300".
Proof.
  unfold anchor_stage, chain_ok. intros H.
  repeat case_match; simplify_eq; auto.
Qed.

(** C1: a chain verifies only if every element after the first is
    within the scope of its predecessor (same resource, actions a
    subset); when the element at index [i > 0] is the first to break
    the rule, having passed the checks that come before the scope
    comparison, the chain fails with E400 (DG_SCOPE_ESCALATION) at index
    [i], whatever follows it; and whenever the chain fails with E400,
    the index it reports is that of the first element outside the scope
    of its predecessor. *)
Theorem scope_containment_enforced w anchor delta jwks policy :
  (forall code info anchor',
     verify_delegation_chain w anchor delta jwks policy
       = ((true, code, info), anchor') ->
     forall i dprev dcur,
       delta !! i = Some dprev -> delta !! S i = Some dcur ->
       exists pprev pcur,
         verified w jwks dprev pprev /\ verified w jwks dcur pcur
         /\ scope_rule (scope_of pcur) (scope_of pprev))
  /\ (forall pre dprev dcur post parsed pprev pcur,
        delta = pre ++ dprev :: dcur :: post ->
        Z.of_nat (length delta) <= default 3 (max_delegation_depth policy) ->
        verify_loop w jwks policy (clock_dg w) 0 (pre ++ [dprev]) []
          = Continue parsed ->
        verified w jwks dprev pprev ->
        passes_before_scope w jwks policy (S (length pre)) dcur pcur ->
        ~ scope_rule (scope_of pcur) (scope_of pprev) ->
        verify_delegation_chain w anchor delta jwks policy =
        ((false, "E400", [index_info (S (length pre))]), anchor))
  /\ (forall info anchor',
        verify_delegation_chain w anchor delta jwks policy
          = ((false, "E400", info), anchor') ->
        exists pre dprev dcur post pprev pcur,
          delta = pre ++ dprev :: dcur :: post
          /\ verified w jwks dprev pprev /\ verified w jwks dcur pcur
          /\ ~ scope_rule (scope_of pcur) (scope_of pprev)
          /\ info = [index_info (S (length pre))]
          /\ anchor' = anchor
          /\ forall k a b pa pb,
               (pre ++ [dprev]) !! k = Some a ->
               (pre ++ [dprev]) !! S k = Some b ->
               verified w jwks a pa -> verified w jwks b pb ->
               scope_rule (scope_of pb) (scope_of pa)).
Proof.
  split; [|split].
  - intros code info anchor' Hok i dprev dcur Hprev Hcur.
    apply verify_delegation_chain_success in Hok
      as [(-> & _) | (_ & parsed & Hloop & _)]; [done|].
    apply verify_loop_Continue in Hloop as (payloads & -> & Hall & Hsc); [|done].
    simpl in Hsc.
    destruct (Forall2_lookup_l _ _ _ _ _ Hall Hprev) as (pprev & Hpp & Hvp).
    destruct (Forall2_lookup_l _ _ _ _ _ Hall Hcur) as (pcur & Hpc & Hvc).
    exists pprev, pcur. repeat split; try done;
      apply scope_subset_spec, (Hsc i); (done || lia).
  - intros pre dprev dcur post parsed pprev pcur -> Hdepth Hloop Hvp
      (Hvc & Ht & Hs & Hk) Hviol.
    replace (pre ++ dprev :: dcur :: post)
      with ((pre ++ [dprev]) ++ dcur :: post) in * by (by rewrite <- app_assoc).
    pose proof Hloop as Hloop'.
    apply verify_loop_Continue in Hloop' as (payloads & -> & Hall & _); [|done].
    simpl in *.
    apply Forall2_app_inv_l in Hall as (ps & ps1 & Hps & Hlast & ->).
    apply Forall2_cons_inv_l in Hlast as (p' & ps2 & Hv' & Hnil & ->).
    apply Forall2_nil_inv_l in Hnil as ->.
    assert (p' = pprev) as -> by eauto using verified_functional.
    destruct Hvc as [h Hvc].
    rewrite (verify_delegation_chain_at w anchor jwks policy (pre ++ [dprev])
               dcur post (ps ++ [pprev])
               (false, "E400", [index_info (S (length pre))])); try done.
    rewrite length_app. simpl. rewrite Nat.add_1_r.
    rewrite (check_delegation_passes _ _ _ _ _ _ _ h pcur) by done.
    unfold scope_stage. rewrite bool_decide_eq_true_2 by lia.
    replace (S (length pre) - 1)%nat with (length ps)
      by (apply Forall2_length in Hps; lia).
    rewrite lookup_app_l by (rewrite length_app; simpl; lia).
    rewrite lookup_app_r by lia. rewrite Nat.sub_diag. simpl.
    destruct (scope_subset (scope_of pcur) (scope_of pprev)) eqn:E; [|done].
    by apply scope_subset_spec in E.
  - intros info anchor'. unfold verify_delegation_chain.
    case_bool_decide as Hd; [discriminate|].
    destruct (_ >? _); [discriminate|].
    destruct (verify_loop w jwks policy (clock_dg w) 0 delta [])
      as [parsed|r] eqn:Hloop.
    { intros H. apply anchor_stage_code in H as [H|H]; discriminate H. }
    intros [= -> <-].
    apply verify_loop_E400 in Hloop
      as (pre0 & dcur & post & parsed1 & h & pcur & previous
          & -> & Hpre & Hv & Hpos & Hprev & Hsub & ->).
    simpl in *.
    apply verify_loop_Continue in Hpre as (payloads & -> & Hall & Hsc); [|done].
    simpl in *.
    destruct (decide (pre0 = [])) as [->|Hne]; [simpl in Hpos; lia|].
    destruct (exists_last Hne) as (pre & dprev & ->).
    apply Forall2_app_inv_l in Hall as (ps & ps1 & Hps & Hlast & ->).
    apply Forall2_cons_inv_l in Hlast as (pprev & ps2 & Hvp & Hnil & ->).
    apply Forall2_nil_inv_l in Hnil as ->.
    assert (length ps = length pre) as Hlen by (by apply Forall2_length in Hps).
    rewrite length_app in Hprev. simpl in Hprev.
    replace (length pre + 1 - 1)%nat with (length ps) in Hprev by lia.
    rewrite <- app_assoc in Hprev.
    rewrite lookup_app_r in Hprev by lia.
    rewrite Nat.sub_diag in Hprev. simpl in Hprev. injection Hprev as <-.
    exists pre, dprev, dcur, post, pprev, pcur.
    rewrite <- app_assoc. simpl. split_and!; try done.
    + by exists h.
    + intros Hrule. apply scope_subset_spec in Hrule. congruence.
    + rewrite length_app. simpl. by rewrite Nat.add_1_r.
    + intros n a b pa pb Ha Hb Hva Hvb.
      assert (Forall2 (verified w jwks) (pre ++ [dprev]) (ps ++ [pprev]))
        as Hall by (apply Forall2_app; [done | by repeat constructor]).
      destruct (Forall2_lookup_l _ _ _ _ _ Hall Ha) as (pa' & Hpa & Hva').
      destruct (Forall2_lookup_l _ _ _ _ _ Hall Hb) as (pb' & Hpb & Hvb').
      assert (pa' = pa) as -> by eauto using verified_functional.
      assert (pb' = pb) as -> by eauto using verified_functional.
      apply scope_subset_spec, (Hsc n); (done || lia).
Qed.

(** A token that [verify_jws] rejects with [CryptoError], for whatever
    reason the JWT library has, fails the chain with code 100 at its
    index. *)
Lemma crypto_error_fails_struct w anchor jwks policy pre el post parsed e :
  Z.of_nat (length (pre ++ el :: post))
    <= default 3 (max_delegation_depth policy) ->
  verify_loop w jwks policy (clock_dg w) 0 pre [] = Continue parsed ->
  verify_jws w (raw el) jwks = JwsCryptoError e ->
  verify_delegation_chain w anchor (pre ++ el :: post) jwks policy =
  ((false, "100", [index_info (length pre); ("error", JStr e)]), anchor).
Proof.
  intros Hdepth Hloop Hv.
  apply (verify_delegation_chain_at _ _ _ _ _ _ _ parsed); try done.
  unfold check_delegation. by rewrite Hv.
Qed.

(** ** Validity interval of a delegation *)

Lemma dg_time_invalid_spec (now : Z) (payload : Payload) :
  dg_time_invalid now payload = false <->
  default 0 (nbf payload) <= now <= default 0 (exp payload).
Proof. unfold dg_time_invalid. rewrite orb_false_iff. lia. Qed.

(** The temporal check of the loop body, on the payload that
    [verify_jws] returns: it passes exactly when the clock reading of
    the verifier lies in [[nbf, exp]] (absent bounds read as 0, no skew
    is added); a chain verifies only if every element passes it; and
    when it fails at the element of index [i], the elements before it
    having passed, the chain fails with E300 (DG_TIME) and
    [{"index": i}]. *)
Lemma loop_temporal_check w anchor jwks policy :
  (forall now payload,
     dg_time_invalid now payload = false <->
     default 0 (nbf payload) <= now <= default 0 (exp payload))
  /\ (forall delta code info anchor' el,
        verify_delegation_chain w anchor delta jwks policy
          = ((true, code, info), anchor') ->
        el ∈ delta ->
        exists header payload,
          verify_jws w (raw el) jwks = JwsOk header payload
          /\ default 0 (nbf payload) <= clock_dg w <= default 0 (exp payload))
  /\ (forall pre el post parsed header payload,
        Z.of_nat (length (pre ++ el :: post))
          <= default 3 (max_delegation_depth policy) ->
        verify_loop w jwks policy (clock_dg w) 0 pre [] = Continue parsed ->
        verify_jws w (raw el) jwks = JwsOk header payload ->
        ~ (default 0 (nbf payload) <= clock_dg w <= default 0 (exp payload)) ->
        verify_delegation_chain w anchor (pre ++ el :: post) jwks policy =
        ((false, "E300", [index_info (length pre)]), anchor)).
Proof.
  split; [apply dg_time_invalid_spec | split].
  - intros delta code info anchor' el Hok Hin.
    apply chain_success_each in Hok.
    rewrite Forall_forall in Hok.
    destruct (Hok el Hin) as (h & p & k & Hv & Ht & _).
    exists h, p. split; [done | by apply dg_time_invalid_spec].
  - intros pre el post parsed header payload Hdepth Hloop Hv Hbad.
    apply (verify_delegation_chain_at _ _ _ _ _ _ _ parsed); try done.
    unfold check_delegation. rewrite Hv.
    destruct (dg_time_invalid (clock_dg w) payload) eqn:E; [done|].
    by apply dg_time_invalid_spec in E.
Qed.

(** [verify_jws] over a library that validates the claims: the
    result of the signature check, unless the validation rejects the
    payload. *)
Lemma verify_jws_default_options lib now w token jwks :
  Crypto.verify_jws (with_default_options lib now) w token jwks =
  match Crypto.verify_jws lib w token jwks with
  | inl (header, payload) =>
      match validate_claims (now token) payload with
      | Some msg =>
          inr (Crypto.CryptoError ("JWT verification failed: " +:+ msg))
      | None => inl (header, payload)
      end
  | inr e => inr e
  end.
Proof.
  unfold Crypto.verify_jws. simpl.
  destruct (get_unverified_header lib token) as [h|e|e]; [|done|done].
  destruct (negb (nonempty (default "" (hdr_kid h)))); [done|].
  change (Crypto.jwks_get_key (with_default_options lib now) w jwks
            (default "" (hdr_kid h)))
    with (Crypto.jwks_get_key lib w jwks (default "" (hdr_kid h))).
  destruct (Crypto.jwks_get_key lib w jwks (default "" (hdr_kid h)))
    as [key|e]; [|done].
  destruct (decode lib token key) as [p|e|e]; [|done|done].
  by destruct (validate_claims (now token) p).
Qed.

(** The validation rejects a payload whose [exp] is not after the
    library's clock reading. *)
Lemma validate_claims_expired now payload not_after :
  exp payload = Some not_after -> not_after <= now ->
  exists msg,
    validate_claims now payload = Some msg
    /\ (msg = "Signature has expired"
        \/ msg = "The token is not yet valid (nbf)").
Proof.
  intros Hexp Hpast. unfold validate_claims.
  destruct (immature now payload); [by eexists; split; [|right]|].
  unfold expired. rewrite Hexp.
  assert (not_after <=? now = true) as -> by (apply Z.leb_le; lia).
  eexists. split; [done | by left].
Qed.

(** With the claims validated and the library reading the clock after
    the verifier, the temporal check of the loop is reached with a
    failing payload only when the payload has no [exp], or when its
    [nbf] falls between the two clock readings. *)
Lemma temporal_check_after_validation lib now w token jwks header payload :
  verify_jws (with_crypto (with_default_options lib now) w) token jwks
    = JwsOk header payload ->
  0 <= clock_dg w <= now token ->
  dg_time_invalid (clock_dg w) payload = true ->
  exp payload = None
  \/ exists not_before,
       nbf payload = Some not_before
       /\ clock_dg w < not_before <= now token.
Proof.
  simpl. rewrite verify_jws_default_options.
  destruct (Crypto.verify_jws lib w token jwks) as [[h p]|e];
    [|by destruct e].
  destruct (validate_claims (now token) p) eqn:Hval; [done|].
  intros [= <- <-] Hclock. revert Hval.
  unfold validate_claims, immature, expired, dg_time_invalid.
  destruct (exp p) as [not_after|]; [|by left].
  destruct (nbf p) as [not_before|]; simpl.
  - destruct (not_before >? now token) eqn:Hn; [done|].
    destruct (not_after <=? now token) eqn:He; [done|].
    intros _ Hbad. right. exists not_before. split; [done|].
    apply orb_true_iff in Hbad. lia.
  - destruct (not_after <=? now token) eqn:He; [done|].
    intros _ Hbad. apply orb_true_iff in Hbad. lia.
Qed.

(** C7: the verifier's own temporal check would fail an expired
    delegation with E300 (DG_TIME) and its index, as the claim says,
    but it never sees one. [verify_jws] calls [jwt.decode] with the
    library's default options, which validate [nbf] and [exp]
    themselves; for an element whose signature is valid and whose
    [exp] is before the verifier's clock reading, the library raises,
    [verify_jws] turns that into a [CryptoError], and the chain fails
    with code 100 at that index, with the library's message. With the
    signature check alone the loop body returns E300 at the same
    element. *)
Theorem expired_delegation_fails_in_verify_jws
    lib now w anchor jwks policy pre el post parsed header payload not_after :
  Z.of_nat (length (pre ++ el :: post))
    <= default 3 (max_delegation_depth policy) ->
  verify_loop (with_crypto (with_default_options lib now) w) jwks policy
    (clock_dg w) 0 pre [] = Continue parsed ->
  Crypto.verify_jws lib w (raw el) jwks = inl (header, payload) ->
  exp payload = Some not_after ->
  not_after < clock_dg w ->
  clock_dg w <= now (raw el) ->
  exists msg,
    verify_delegation_chain (with_crypto (with_default_options lib now) w)
      anchor (pre ++ el :: post) jwks policy
    = ((false, "100",
        [index_info (length pre);
         ("error", JStr ("JWT verification failed: " +:+ msg))]), anchor)
    /\ (msg = "Signature has expired"
        \/ msg = "The token is not yet valid (nbf)")
    /\ check_delegation (with_crypto lib w) jwks policy (clock_dg w)
         (length pre) el parsed
       = Return (false, "E300", [index_info (length pre)]).
Proof.
  intros Hdepth Hloop Hsig Hexp Hpast Hclock.
  destruct (validate_claims_expired (now (raw el)) payload not_after Hexp)
    as (msg & Hval & Hmsg); [lia|].
  exists msg. split_and!; [|done|].
  - apply (crypto_error_fails_struct _ _ _ _ _ _ _ parsed); try done.
    simpl. by rewrite verify_jws_default_options, Hsig, Hval.
  - unfold check_delegation. simpl. rewrite Hsig. simpl.
    unfold dg_time_invalid. rewrite Hexp. simpl.
    assert (clock_dg w >? not_after = true) as -> by lia.
    by rewrite orb_true_r.
Qed.

(** ** Key binding *)

Lemma key_binding_stage_kid w jwks i payload d kb kid :
  dg payload = Some d -> key_binding d = Some kb ->
  kb !! "kid" = Some kid -> kid <> "" ->
  key_binding_stage w jwks i payload = None.
Proof.
  intros Hd Hkb Hkid Hne. unfold key_binding_stage.
  rewrite Hd. simpl. rewrite Hkb. simpl. rewrite Hkid. simpl.
  assert (nonempty kid = true) as ->.
  { unfold nonempty. apply negb_true_iff, String.eqb_neq, Hne. }
  simpl. by repeat case_match.
Qed.

Lemma key_binding_stage_jwks w jwks i payload f :
  key_binding_stage (with_read_jwks w f) jwks i payload
  = key_binding_stage w jwks i payload.
Proof. unfold key_binding_stage. by repeat case_match. Qed.

Lemma check_delegation_jwks w jwks policy now i dg parsed f :
  check_delegation (with_read_jwks w f) jwks policy now i dg parsed
  = check_delegation w jwks policy now i dg parsed.
Proof.
  unfold check_delegation.
  change (verify_jws (with_read_jwks w f)) with (verify_jws w).
  destruct (verify_jws w (raw dg) jwks) as [h p|e|e]; try done.
  destruct (dg_time_invalid now p); try done.
  change (dg_status_stage (with_read_jwks w f) policy i p)
    with (dg_status_stage w policy i p).
  by rewrite key_binding_stage_jwks.
Qed.

Lemma verify_loop_jwks w jwks policy now i delta parsed f :
  verify_loop (with_read_jwks w f) jwks policy now i delta parsed
  = verify_loop w jwks policy now i delta parsed.
Proof.
  revert i parsed. induction delta as [|dg rest IH]; intros i parsed; simpl.
  - done.
  - rewrite check_delegation_jwks. destruct (check_delegation _ _ _ _ _ _ _); auto.
Qed.

Lemma key_binding_stage_None w jwks i payload d kb :
  key_binding_stage w jwks i payload = None ->
  dg payload = Some d -> key_binding d = Some kb -> kb <> ∅ ->
  exists kid, kb !! "kid" = Some kid /\ kid <> "".
Proof.
  unfold key_binding_stage. intros H Hd Hkb Hne. revert H.
  rewrite Hd. simpl. rewrite Hkb. simpl.
  rewrite bool_decide_eq_false_2 by done. simpl.
  destruct (kb !! "kid") as [kid|]; simpl; [|done].
  destruct (decide (kid = "")) as [->|Hkid]; [done|]. eauto.
Qed.

(** C8: a chain verifies only if every non-empty key binding in it
    has a non-empty [kid]; a non-empty key binding without a [kid], or
    with an empty one, fails the chain with E200
    (KEY_BINDING_UNVERIFIED) once the element's signature, validity
    interval and status have passed; with a non-empty [kid] the
    key-binding block never returns, whatever [key_exists_in_jwks]
    answers; and the chain's result is the same for every content of
    the JWKS file behind [key_exists_in_jwks]. *)
Theorem key_binding_fail_open w anchor jwks policy :
  (forall delta code info anchor' el,
     verify_delegation_chain w anchor delta jwks policy
       = ((true, code, info), anchor') ->
     el ∈ delta ->
     exists header payload,
       verify_jws w (raw el) jwks = JwsOk header payload
       /\ forall d kb,
            dg payload = Some d -> key_binding d = Some kb -> kb <> ∅ ->
            exists kid, kb !! "kid" = Some kid /\ kid <> "")
  /\ (forall pre el post parsed header payload d kb,
     Z.of_nat (length (pre ++ el :: post))
       <= default 3 (max_delegation_depth policy) ->
     verify_loop w jwks policy (clock_dg w) 0 pre [] = Continue parsed ->
     verify_jws w (raw el) jwks = JwsOk header payload ->
     dg_time_invalid (clock_dg w) payload = false ->
     dg_status_stage w policy (length pre) payload = None ->
     dg payload = Some d -> key_binding d = Some kb -> kb <> ∅ ->
     kb !! "kid" = None \/ kb !! "kid" = Some "" ->
     verify_delegation_chain w anchor (pre ++ el :: post) jwks policy =
     ((false, "E200",
       [index_info (length pre); ("reason", JStr "missing_kid")]), anchor))
  /\ (forall i payload d kb kid,
        dg payload = Some d -> key_binding d = Some kb ->
        kb !! "kid" = Some kid -> kid <> "" ->
        key_exists_in_jwks w jwks kid = false ->
        key_binding_stage w jwks i payload = None)
  /\ (forall f delta,
        verify_delegation_chain (with_read_jwks w f) anchor delta jwks policy
        = verify_delegation_chain w anchor delta jwks policy).
Proof.
  split; [|repeat split].
  - intros delta code info anchor' el Hok Hin.
    apply chain_success_each in Hok.
    rewrite Forall_forall in Hok.
    destruct (Hok el Hin) as (h & p & k & Hv & _ & _ & Hk).
    exists h, p. split; [done|]. eauto using key_binding_stage_None.
  - intros pre el post parsed header payload d kb Hdepth Hloop Hv Ht Hs Hd
      Hkb Hne Hkid.
    apply (verify_delegation_chain_at _ _ _ _ _ _ _ parsed); try done.
    unfold check_delegation. rewrite Hv, Ht, Hs.
    unfold key_binding_stage. rewrite Hd. simpl. rewrite Hkb. simpl.
    rewrite bool_decide_eq_false_2 by done. simpl.
    by destruct Hkid as [-> | ->].
  - intros i payload d kb kid Hd Hkb Hkid Hne _.
    eauto using key_binding_stage_kid.
  - intros f delta. unfold verify_delegation_chain.
    change (clock_dg (with_read_jwks w f)) with (clock_dg w).
    rewrite verify_loop_jwks. by repeat case_match.
Qed.

(** ** Status fetch errors *)

(** The structural stage passes only when the seven required keys are
    there. *)
Lemma structural_validation_passed cvc :
  structural_validation cvc required_fields = None ->
  exists issuer_id subject_id claims proofs P st M,
    cvc_I_issuer cvc = Some issuer_id /\ cvc_I_subject cvc = Some subject_id
    /\ cvc_C cvc = Some claims /\ cvc_pi cvc = Some proofs
    /\ cvc_P cvc = Some P /\ cvc_S cvc = Some st /\ cvc_M cvc = Some M.
Proof.
  unfold required_fields. simpl. unfold cvc_contains. simpl.
  destruct (cvc_I_issuer cvc), (cvc_I_subject cvc), (cvc_C cvc),
    (cvc_pi cvc), (cvc_P cvc), (cvc_S cvc), (cvc_M cvc);
    simpl; try discriminate.
  intros _. eauto 15.
Qed.

Lemma dg_status_stage_None w policy i payload d st u e :
  dg_status_stage w policy i payload = None ->
  status_required policy <> Some false ->
  dg payload = Some d -> status d = Some st -> url st = Some u -> u <> "" ->
  fetch_status w u <> inr e.
Proof.
  unfold dg_status_stage. intros H Hreq Hd Hst Hu Hne Hfetch. revert H.
  rewrite Hd. simpl. rewrite Hst. simpl. rewrite Hu. simpl.
  rewrite (nonempty_true u Hne), Hfetch.
  by destruct (status_required policy) as [[]|].
Qed.

(** C3: when the status fetch of a credential or of a chain element
    raises [StatusError], the verification fails with E300
    (STATUS_FETCH_ERROR) unless the policy says [status_required =
    false]: the credential verifier returns at once, [verify_cvc]
    returns the credential's failure without running the chain stage,
    and the chain verifier returns at the element, leaving the anchor
    untouched; no chain verifies with such an element in it. With
    [status_required = false] the credential verifies, and the loop
    body goes on with the key-binding and scope checks of the
    element. *)
Theorem status_fetch_error_policy w anchor jwks policy :
  (forall cvc jwks_verifier M P token code info,
     structural_validation cvc required_fields = None ->
     cvc_M cvc = Some M -> cvc_P cvc = Some P ->
     default "VC-JWT" (profile_hint M) = "VC-JWT" ->
     raw_vc_jwt M = Some token -> token <> "" ->
     verify_vc_jwt w {| jwt := token |} jwks P = (false, code, info) ->
     verify_cvc w anchor cvc jwks jwks_verifier =
     ((false, code, [("stage", JStr "vc"); ("info", JDict info)]), anchor))
  /\ (forall delta code info anchor' el,
        verify_delegation_chain w anchor delta jwks policy
          = ((true, code, info), anchor') ->
        el ∈ delta ->
        status_required policy <> Some false ->
        exists header payload,
          verify_jws w (raw el) jwks = JwsOk header payload
          /\ forall d st u e,
               dg payload = Some d -> status d = Some st ->
               url st = Some u -> u <> "" ->
               fetch_status w u <> inr e)
  /\ (forall vp header payload v cs u e,
     verify_jws w (jwt vp) jwks = JwsOk header payload ->
     alg_not_allowed header (default ["EdDSA"] (alg_allowlist policy)) = false ->
     default 0 (nbf payload) - default 5 (clock_skew_seconds policy)
       <= clock_vc w
       <= default 0 (exp payload) + default 5 (clock_skew_seconds policy) ->
     vc payload = Some v -> credentialStatus v = Some cs ->
     statusListCredential cs = Some u -> u <> "" ->
     fetch_status w u = inr e ->
     (status_required policy <> Some false ->
      verify_vc_jwt w vp jwks policy =
      (false, "E300",
       [("error", JStr e); ("index", JInt (default 0 (statusListIndex cs)))]))
     /\ (status_required policy = Some false ->
         verify_vc_jwt w vp jwks policy =
         (true, "OK",
          [("iss", opt_str (iss payload)); ("sub", opt_str (sub payload))])))
  /\ (forall pre el post parsed header payload d st u e,
        Z.of_nat (length (pre ++ el :: post))
          <= default 3 (max_delegation_depth policy) ->
        verify_loop w jwks policy (clock_dg w) 0 pre [] = Continue parsed ->
        verify_jws w (raw el) jwks = JwsOk header payload ->
        dg_time_invalid (clock_dg w) payload = false ->
        dg payload = Some d -> status d = Some st ->
        url st = Some u -> u <> "" ->
        fetch_status w u = inr e ->
        (status_required policy <> Some false ->
         verify_delegation_chain w anchor (pre ++ el :: post) jwks policy =
         ((false, "E300", [index_info (length pre); ("error", JStr e)]),
          anchor))
        /\ (status_required policy = Some false ->
            check_delegation w jwks policy (clock_dg w) (length pre) el parsed =
            match key_binding_stage w jwks (length pre) payload with
            | Some r => Return r
            | None =>
                match scope_stage (length pre) payload (parsed ++ [payload]) with
                | Some r => Return r
                | None => Continue (parsed ++ [payload])
                end
            end)).
Proof.
  split; [|split; [|split]].
  - intros cvc jwks_verifier M P token code info Hstruct HM HP Hprofile Hraw
      Hne Hvc.
    destruct (structural_validation_passed cvc Hstruct)
      as (issuer_id & subject_id & claims & proofs & P' & st & M'
          & Hi & Hs & _).
    unfold verify_cvc, verify_cvc_vro.
    rewrite Hstruct, HM, HP, Hi, Hs.
    unfold credential_stage. rewrite Hprofile. simpl.
    rewrite Hraw. simpl. rewrite (nonempty_true token Hne). simpl.
    by rewrite Hvc.
  - intros delta code info anchor' el Hok Hin Hreq.
    apply chain_success_each in Hok.
    rewrite Forall_forall in Hok.
    destruct (Hok el Hin) as (h & p & k & Hv & _ & Hs & _).
    exists h, p. split; [done|]. eauto using dg_status_stage_None.
  - intros vp header payload v cs u e Hv Halg Htime Hvc Hcs Hu Hne Hfetch.
    assert (nonempty u = true) as Hnonempty
      by (apply negb_true_iff, String.eqb_neq, Hne).
    unfold verify_vc_jwt. rewrite Hv, Halg.
    destruct (_ || _) eqn:E; [apply orb_true_iff in E; lia|].
    rewrite Hvc. simpl. rewrite Hcs. simpl. rewrite Hu. simpl.
    rewrite Hnonempty, Hfetch.
    split; intros Hreq.
    + by destruct (status_required policy) as [[]|].
    + by rewrite Hreq.
  - intros pre el post parsed header payload d st u e Hdepth Hloop Hv Ht Hd
      Hst Hu Hne Hfetch.
    assert (nonempty u = true) as Hnonempty
      by (apply negb_true_iff, String.eqb_neq, Hne).
    split; intros Hreq.
    + apply (verify_delegation_chain_at _ _ _ _ _ _ _ parsed); try done.
      unfold check_delegation. rewrite Hv, Ht.
      unfold dg_status_stage. rewrite Hd. simpl. rewrite Hst. simpl.
      rewrite Hu. simpl. rewrite Hnonempty, Hfetch.
      by destruct (status_required policy) as [[]|].
    + unfold check_delegation. rewrite Hv, Ht.
      unfold dg_status_stage. rewrite Hd. simpl. rewrite Hst. simpl.
      rewrite Hu. simpl. rewrite Hnonempty, Hfetch, Hreq. done.
Qed.

(** ** The empty chain *)

(** C9: the empty chain verifies with [{"depth": 0}] and no
    fingerprint, whatever the world, the policy and the anchor, which
    it leaves as it was; and a CVC with an empty chain, a VC-JWT that
    verifies and a policy with [holder_binding_required = false] yields
    a VRO with [delegation_chain_depth = 0] and [chain_fingerprint =
    null], which is returned signed. *)
Theorem empty_chain_verifies w anchor jwks policy :
  verify_delegation_chain w anchor [] jwks policy
    = ((true, "OK", [("depth", JInt 0)]), anchor)
  /\ dict_lookup "chain_fingerprint"
       (verify_delegation_chain w anchor [] jwks policy).1.2 = None
  /\ (forall cvc jwks_verifier M P token code vc_info rid pid,
        structural_validation cvc required_fields = None ->
        cvc_M cvc = Some M -> cvc_P cvc = Some P ->
        default "VC-JWT" (profile_hint M) = "VC-JWT" ->
        raw_vc_jwt M = Some token -> token <> "" ->
        verify_vc_jwt w {| jwt := token |} jwks P = (true, code, vc_info) ->
        default [] (cvc_Delta cvc) = [] ->
        holder_binding_required P = Some false ->
        request_id M = Some rid -> policy_id P = Some pid ->
        exists vro,
          verify_cvc_vro w anchor cvc jwks = (inr vro, anchor)
          /\ dict_lookup "delegation_chain_depth" vro = Some (JInt 0)
          /\ dict_lookup "chain_fingerprint" vro = Some JNull
          /\ forall signed,
               jwt_encode w vro = inl signed ->
               verify_cvc w anchor cvc jwks jwks_verifier
               = ((true, "OK", [("vro_jwt", JStr signed)]), anchor)).
Proof.
  repeat split.
  intros cvc jwks_verifier M P token code vc_info rid pid Hstruct HM HP
    Hprofile Hraw Hne Hvc Hdelta Hhb Hrid Hpid.
  destruct (structural_validation_passed cvc Hstruct)
    as (issuer_id & subject_id & claims & proofs & P' & st & M'
        & Hi & Hs & _ & _ & HP' & _ & HM').
  assert (nonempty token = true) as Hnonempty
    by (apply negb_true_iff, String.eqb_neq, Hne).
  unfold verify_cvc, verify_cvc_vro.
  rewrite Hstruct, HM, HP, Hi, Hs.
  unfold credential_stage. rewrite Hprofile. simpl.
  rewrite Hraw. simpl. rewrite Hnonempty. simpl. rewrite Hvc. simpl.
  rewrite Hdelta. unfold verify_delegation_chain. simpl.
  unfold holder_binding_stage. rewrite Hhb. simpl.
  unfold build_vro. rewrite Hrid, Hpid.
  eexists. split; [reflexivity|]. repeat split.
  intros signed Hsign. unfold sign_vro. by rewrite Hsign.
Qed.

(** ** The anchor ledger *)

Lemma anchor_known w self f m stored :
  f <> "" -> in_memory_anchors self !! f = Some stored ->
  anchor_chain_fingerprint w self f m = (inl stored, self).
Proof.
  intros Hne Hin. unfold anchor_chain_fingerprint.
  by rewrite (nonempty_true f Hne), Hin.
Qed.

(** A new fingerprint is stored under its own key, with the next block
    number, and its entry goes to the end of the chain. *)
Lemma anchor_fresh w self f m :
  f <> "" -> in_memory_anchors self !! f = None ->
  exists minted entry,
    anchor_chain_fingerprint w self f m
      = (inl minted,
         {| in_memory_anchors := <[f := minted]> (in_memory_anchors self);
            chain := chain self ++ [entry] |})
    /\ block_number minted = S (length (chain self))
    /\ entry_fingerprint entry = f.
Proof.
  intros Hne Hin. unfold anchor_chain_fingerprint.
  rewrite (nonempty_true f Hne), Hin. simpl.
  eexists _, _. split; [reflexivity|]. simpl. split; [lia | done].
Qed.

Lemma anchor_stores w self f m :
  f <> "" ->
  exists stored,
    anchor_chain_fingerprint w self f m
      = (inl stored, (anchor_chain_fingerprint w self f m).2)
    /\ in_memory_anchors (anchor_chain_fingerprint w self f m).2 !! f
       = Some stored.
Proof.
  intros Hne. destruct (in_memory_anchors self !! f) as [stored|] eqn:Hin.
  - exists stored. by rewrite (anchor_known _ _ _ _ _ Hne Hin).
  - destruct (anchor_fresh w self f m Hne Hin) as (minted & entry & -> & _).
    exists minted. simpl. by rewrite lookup_insert_eq.
Qed.

Lemma empty_ledger_consistent : ledger_consistent empty_ledger.
Proof. intros f stored H. simpl in H. by rewrite lookup_empty in H. Qed.

Lemma anchor_preserves_consistent w self f m :
  ledger_consistent self ->
  ledger_consistent (anchor_chain_fingerprint w self f m).2.
Proof.
  intros Hc. destruct (decide (f = "")) as [->|Hne]; [done|].
  destruct (in_memory_anchors self !! f) as [stored|] eqn:Hin.
  { by rewrite (anchor_known _ _ _ _ _ Hne Hin). }
  destruct (anchor_fresh w self f m Hne Hin) as (minted & entry & -> & Hbn & Hfp).
  simpl. intros f' stored' Hlook. simpl in Hlook.
  destruct (decide (f = f')) as [<-|Hff].
  - rewrite lookup_insert_eq in Hlook. injection Hlook as <-.
    rewrite Hbn. split; [lia|]. exists entry. split; [|done]. simpl.
    rewrite lookup_app_r by lia.
    by replace (length (chain self) - 0 - length (chain self))%nat
      with 0%nat by lia.
  - rewrite lookup_insert_ne in Hlook by done.
    destruct (Hc f' stored' Hlook) as (Hpos & e & He & Hfe).
    split; [done|]. exists e. split; [|done]. simpl.
    by apply lookup_app_l_Some.
Qed.

Lemma replay_consistent calls : ledger_consistent (replay calls).
Proof.
  unfold replay. generalize empty_ledger_consistent.
  generalize empty_ledger. induction calls as [|[[w f] m] calls IH];
    intros self Hc; simpl; [done|].
  apply IH. by apply anchor_preserves_consistent.
Qed.

Lemma verify_anchor_consistent self f stored :
  f <> "" -> ledger_consistent self ->
  in_memory_anchors self !! f = Some stored ->
  verify_anchor self f None = (true, None).
Proof.
  intros Hne Hc Hin. unfold verify_anchor.
  rewrite (nonempty_true f Hne), Hin. simpl.
  destruct (Hc f stored Hin) as (Hpos & e & He & Hfe).
  rewrite He. rewrite (bool_decide_eq_true_2 _ Hfe). simpl.
  by destruct (_ && _).
Qed.

(** C6: anchoring a non-empty fingerprint twice, whatever the metadata
    and the clock of either call, returns the same proof both times,
    and the second call changes neither the stored proofs nor the
    chain; and on a ledger built by anchoring alone, [verify_anchor] of
    the fingerprint then answers [(True, None)]. *)
Theorem anchor_idempotent w1 w2 (f : string) (m1 m2 : option pydict) :
  f <> "" ->
  (forall self,
     exists stored self1,
       anchor_chain_fingerprint w1 self f m1 = (inl stored, self1)
       /\ anchor_chain_fingerprint w2 self1 f m2 = (inl stored, self1))
  /\ (forall self,
        ledger_consistent self ->
        verify_anchor (anchor_chain_fingerprint w1 self f m1).2 f None
        = (true, None))
  /\ (forall calls,
        verify_anchor (anchor_chain_fingerprint w1 (replay calls) f m1).2 f None
        = (true, None)).
Proof.
  intros Hne.
  assert (forall self,
            ledger_consistent self ->
            verify_anchor (anchor_chain_fingerprint w1 self f m1).2 f None
            = (true, None)) as Hverify.
  { intros self Hc.
    destruct (anchor_stores w1 self f m1 Hne) as (stored & _ & Hin).
    eapply verify_anchor_consistent; eauto using anchor_preserves_consistent. }
  repeat split.
  - intros self. destruct (anchor_stores w1 self f m1 Hne) as (stored & Hcall & Hin).
    exists stored, (anchor_chain_fingerprint w1 self f m1).2.
    split; [done|]. by apply anchor_known.
  - exact Hverify.
  - intros calls. apply Hverify, replay_consistent.
Qed.

(** ** Determinism of the VRO *)

Lemma verify_vc_jwt_success w vp jwks policy code info :
  verify_vc_jwt w vp jwks policy = (true, code, info) ->
  exists header payload,
    verify_jws w (jwt vp) jwks = JwsOk header payload
    /\ info = [("iss", opt_str (iss payload)); ("sub", opt_str (sub payload))].
Proof.
  unfold verify_vc_jwt. intros H.
  destruct (verify_jws w (jwt vp) jwks) as [h p|e|e]; try by simplify_eq.
  exists h, p. split; [done|].
  repeat case_match; by simplify_eq.
Qed.

Lemma credential_stage_agree w1 w2 issuer_id subject_id M P jwks v1 v2 :
  (forall token path, verify_jws w1 token path = verify_jws w2 token path) ->
  credential_stage w1 issuer_id subject_id M P jwks = inr v1 ->
  credential_stage w2 issuer_id subject_id M P jwks = inr v2 ->
  v1 = v2.
Proof.
  intros Hsame. unfold credential_stage.
  destruct (String.eqb _ "VC-JWT").
  - destruct (negb _); [discriminate|].
    destruct (verify_vc_jwt w1 _ jwks P) as [[[] c1] i1] eqn:E1;
      simpl; [|discriminate].
    destruct (verify_vc_jwt w2 _ jwks P) as [[[] c2] i2] eqn:E2;
      simpl; [|discriminate].
    apply verify_vc_jwt_success in E1 as (h1 & p1 & Hv1 & ->).
    apply verify_vc_jwt_success in E2 as (h2 & p2 & Hv2 & ->).
    rewrite Hsame in Hv1. intros [= <-] [= <-]. congruence.
  - repeat case_match; congruence.
Qed.

Lemma verified_payloads_agree w1 w2 jwks delta ps1 ps2 :
  (forall token path, verify_jws w1 token path = verify_jws w2 token path) ->
  Forall2 (verified w1 jwks) delta ps1 ->
  Forall2 (verified w2 jwks) delta ps2 ->
  ps1 = ps2.
Proof.
  intros Hsame H1. revert ps2.
  induction H1 as [|el p1 rest ps1 [h1 Hv1] _ IH]; intros ps2 H2.
  - by apply Forall2_nil_inv_l in H2.
  - apply Forall2_cons_inv_l in H2 as (p2 & ps2' & [h2 Hv2] & Hrest & ->).
    rewrite Hsame in Hv1. f_equal; [congruence | by apply IH].
Qed.

Lemma chain_success_agree w1 w2 a1 a2 delta jwks policy c1 c2 i1 i2 a1' a2' :
  (forall token path, verify_jws w1 token path = verify_jws w2 token path) ->
  verify_delegation_chain w1 a1 delta jwks policy = ((true, c1, i1), a1') ->
  verify_delegation_chain w2 a2 delta jwks policy = ((true, c2, i2), a2') ->
  i1 = i2.
Proof.
  intros Hsame H1 H2.
  apply verify_delegation_chain_success in H1
    as [(-> & _ & -> & _) | (Hne & ps1 & Hl1 & Hr1)];
  apply verify_delegation_chain_success in H2
    as [(Hnil & _ & -> & _) | (Hne2 & ps2 & Hl2 & Hr2)]; try done.
  apply verify_loop_Continue in Hl1 as (q1 & -> & Hq1 & _); [|done].
  apply verify_loop_Continue in Hl2 as (q2 & -> & Hq2 & _); [|done].
  simpl in *.
  assert (q1 = q2) as -> by eauto using verified_payloads_agree.
  congruence.
Qed.

Lemma structural_validation_fails cvc fields r :
  structural_validation cvc fields = Some r -> r.1.1 = false.
Proof.
  induction fields as [|fld fields IH]; simpl; [done|].
  destruct (negb _); [by intros [= <-] | done].
Qed.

Lemma verify_cvc_vro_failure w anchor cvc jwks r anchor' :
  verify_cvc_vro w anchor cvc jwks = (inl r, anchor') -> r.1.1 = false.
Proof.
  unfold verify_cvc_vro.
  destruct (structural_validation cvc required_fields) eqn:Es.
  { intros ?. simplify_eq. eauto using structural_validation_fails. }
  destruct (cvc_M cvc) as [M|], (cvc_P cvc) as [P|],
    (cvc_I_issuer cvc) as [issuer_id|], (cvc_I_subject cvc) as [subject_id|];
    try (intros ?; by simplify_eq).
  destruct (credential_stage w _ _ _ _ _) as [rc|vc_info] eqn:Ec.
  { intros ?. simplify_eq. revert Ec. unfold credential_stage.
    repeat case_match; intros ?; by simplify_eq. }
  destruct (verify_delegation_chain w _ _ _ _) as [[[[] d] i] b]; simpl;
    [|intros ?; by simplify_eq].
  destruct (holder_binding_stage M P) as [rh|] eqn:Eh.
  { intros ?. simplify_eq. revert Eh. unfold holder_binding_stage.
    repeat case_match; intros ?; by simplify_eq. }
  unfold build_vro. repeat case_match; intros ?; by simplify_eq.
Qed.

Lemma verify_cvc_success w anchor cvc jwks jwks_verifier code signed anchor' :
  verify_cvc w anchor cvc jwks jwks_verifier = ((true, code, signed), anchor') ->
  exists vro, verify_cvc_vro w anchor cvc jwks = (inr vro, anchor').
Proof.
  unfold verify_cvc.
  destruct (verify_cvc_vro w anchor cvc jwks) as [[r|vro] a] eqn:E.
  - intros ?. simplify_eq. by apply verify_cvc_vro_failure in E.
  - destruct (sign_vro w vro jwks_verifier); intros ?; simplify_eq; eauto.
Qed.

(** C5: two successful runs of [verify_cvc] on the same CVC assemble
    the same VRO, and its [timestamp] is the constant 1735600000; the
    runs may read different clocks, status files, JWKS probes, signing
    keys and anchor ledgers, as long as [verify_jws] decodes each token
    to the same claims in both. In particular the two VROs carry the
    same [chain_fingerprint]. *)
Theorem vro_deterministic w1 w2 a1 a2 cvc jwks jwks_verifier
    c1 c2 s1 s2 a1' a2' :
  (forall token path, verify_jws w1 token path = verify_jws w2 token path) ->
  verify_cvc w1 a1 cvc jwks jwks_verifier = ((true, c1, s1), a1') ->
  verify_cvc w2 a2 cvc jwks jwks_verifier = ((true, c2, s2), a2') ->
  exists vro,
    verify_cvc_vro w1 a1 cvc jwks = (inr vro, a1')
    /\ verify_cvc_vro w2 a2 cvc jwks = (inr vro, a2')
    /\ dict_lookup "timestamp" vro = Some (JInt 1735600000)
    /\ DETERMINISTIC_TIMESTAMP = 1735600000.
Proof.
  intros Hsame H1 H2.
  apply verify_cvc_success in H1 as [v1 H1].
  apply verify_cvc_success in H2 as [v2 H2].
  exists v1. split; [done|].
  assert (v1 = v2 /\ dict_lookup "timestamp" v1 = Some (JInt 1735600000))
    as [<- Hts]; [|done].
  revert H1 H2. unfold verify_cvc_vro.
  destruct (structural_validation cvc required_fields); [done|].
  destruct (cvc_M cvc) as [M|], (cvc_P cvc) as [P|],
    (cvc_I_issuer cvc) as [issuer_id|], (cvc_I_subject cvc) as [subject_id|];
    try done.
  destruct (credential_stage w1 _ _ _ _ _) as [|vc1] eqn:Ec1; [done|].
  destruct (credential_stage w2 _ _ _ _ _) as [|vc2] eqn:Ec2; [done|].
  assert (vc1 = vc2) as <- by eauto using credential_stage_agree.
  destruct (verify_delegation_chain w1 _ _ _ _) as [[[[] d1] i1] b1] eqn:Ed1;
    simpl; [|done].
  destruct (verify_delegation_chain w2 _ _ _ _) as [[[[] d2] i2] b2] eqn:Ed2;
    simpl; [|done].
  assert (i1 = i2) as <- by eauto using chain_success_agree.
  destruct (holder_binding_stage M P); [done|].
  unfold build_vro.
  destruct (request_id M); [|done]. destruct (policy_id P); [|done].
  intros [= <- _] [= <- _]. done.
Qed.

(** ** Required fields of the CVC *)

Lemma structural_validation_missing cvc fields field :
  field ∈ fields -> cvc_contains cvc field = false ->
  exists missing,
    missing ∈ fields /\ cvc_contains cvc missing = false
    /\ structural_validation cvc fields
       = Some (false, ErrorCode.STRUCT, [("msg", JStr ("missing " +:+ missing))]).
Proof.
  induction fields as [|fld fields IH]; intros Hin Hmiss.
  - by apply elem_of_nil in Hin.
  - simpl. destruct (cvc_contains cvc fld) eqn:E; simpl.
    + apply elem_of_cons in Hin as [->|Hin]; [congruence|].
      destruct (IH Hin Hmiss) as (missing & Hm & Hc & Hr).
      exists missing. repeat split; [by right | done | done].
    + exists fld. repeat split; [by left | done].
Qed.

Lemma structural_validation_with_Delta cvc delta :
  structural_validation (with_Delta cvc delta) required_fields
  = structural_validation cvc required_fields.
Proof. reflexivity. Qed.

(** C4, as the code has it: the structural stage requires
    [I_issuer], [I_subject], [C], [pi], [P], [S] and [M]; when one of
    them is absent, [verify_cvc] fails with code 100 and names a missing
    field, whatever the world, and the anchor is untouched. [Delta] is
    not among the required fields: a CVC without it verifies exactly as
    the same CVC with an empty chain. *)
Theorem structural_stage_required_fields cvc :
  required_fields = ["I_issuer"; "I_subject"; "C"; "pi"; "P"; "S"; "M"]
  /\ (forall field,
        field ∈ required_fields -> cvc_contains cvc field = false ->
        exists missing,
          missing ∈ required_fields /\ cvc_contains cvc missing = false
          /\ forall w anchor jwks jwks_verifier,
               verify_cvc w anchor cvc jwks jwks_verifier =
               ((false, "100", [("msg", JStr ("missing " +:+ missing))]),
                anchor))
  /\ (forall w anchor jwks jwks_verifier,
        cvc_Delta cvc = None ->
        verify_cvc w anchor cvc jwks jwks_verifier
        = verify_cvc w anchor (with_Delta cvc (Some [])) jwks jwks_verifier).
Proof.
  split; [done | split].
  - intros field Hin Hmiss.
    destruct (structural_validation_missing cvc required_fields field Hin Hmiss)
      as (missing & Hm & Hc & Hr).
    exists missing. repeat split; try done.
    intros w anchor jwks jwks_verifier.
    unfold verify_cvc, verify_cvc_vro. by rewrite Hr.
  - intros w anchor jwks jwks_verifier Hdelta.
    unfold verify_cvc, verify_cvc_vro.
    rewrite structural_validation_with_Delta. simpl. by rewrite Hdelta.
Qed.

(** * Further properties *)

(** ** The anchor ledger: lookup, growth, shape *)

Lemma anchor_empty_fingerprint w self m :
  anchor_chain_fingerprint w self "" m
  = (inr "Fingerprint cannot be empty", self).
Proof. reflexivity. Qed.

Lemma anchor_cases w self f m :
  (f = "" /\ (anchor_chain_fingerprint w self f m).2 = self)
  \/ (f <> "" /\ is_Some (in_memory_anchors self !! f)
      /\ (anchor_chain_fingerprint w self f m).2 = self)
  \/ (f <> "" /\ in_memory_anchors self !! f = None
      /\ exists minted entry,
           anchor_chain_fingerprint w self f m
           = (inl minted,
              {| in_memory_anchors := <[f := minted]> (in_memory_anchors self);
                 chain := chain self ++ [entry] |})
           /\ block_number minted = S (length (chain self))
           /\ entry_fingerprint entry = f).
Proof.
  destruct (decide (f = "")) as [->|Hne]; [by left|right].
  destruct (in_memory_anchors self !! f) as [stored|] eqn:Hin; [left|right].
  - by rewrite (anchor_known _ _ _ _ _ Hne Hin).
  - split; [done|]. split; [done|]. by apply anchor_fresh.
Qed.

(** X1: after [anchor_chain_fingerprint] of a non-empty fingerprint,
    [get_anchor_proof] returns the very proof the call returned, and
    the proof of every other fingerprint is what it was before. *)
Theorem get_anchor_proof_after_anchor w self (f : string) m :
  f <> "" ->
  exists stored,
    (anchor_chain_fingerprint w self f m).1 = inl stored
    /\ get_anchor_proof (anchor_chain_fingerprint w self f m).2 f = Some stored
    /\ forall g,
         g <> f ->
         get_anchor_proof (anchor_chain_fingerprint w self f m).2 g
         = get_anchor_proof self g.
Proof.
  intros Hne. unfold get_anchor_proof.
  destruct (anchor_cases w self f m)
    as [[-> _] | [(_ & [stored Hin] & Hsame)
                 | (_ & Hin & minted & entry & Hcall & _)]]; [done| |].
  - exists stored. rewrite (anchor_known _ _ _ _ _ Hne Hin). simpl.
    split_and!; done.
  - exists minted. rewrite Hcall. simpl. split_and!; [done| |].
    + by rewrite lookup_insert_eq.
    + intros g Hg. by rewrite lookup_insert_ne.
Qed.

(** X2: anchoring only ever appends. Whatever the ledger and the
    arguments, the old chain is a prefix of the new one, at most one
    block longer, every proof stored before is still stored unchanged,
    and the ledger changes exactly when the fingerprint is non-empty
    and was not anchored yet. *)
Theorem anchoring_is_append_only w self (f : string) m :
  chain self `prefix_of` chain (anchor_chain_fingerprint w self f m).2
  /\ (length (chain (anchor_chain_fingerprint w self f m).2)
      <= S (length (chain self)))%nat
  /\ (forall g stored,
        in_memory_anchors self !! g = Some stored ->
        in_memory_anchors (anchor_chain_fingerprint w self f m).2 !! g
        = Some stored)
  /\ ((anchor_chain_fingerprint w self f m).2 <> self <->
      f <> "" /\ in_memory_anchors self !! f = None).
Proof.
  destruct (anchor_cases w self f m)
    as [[Hf Hsame] | [(Hf & [stored Hin] & Hsame)
                     | (Hf & Hin & minted & entry & Hcall & _)]].
  - rewrite Hsame. split_and!; [done | lia | done |].
    split; [done | by intros [? _]].
  - rewrite Hsame. split_and!; [done | lia | done |].
    split; [done | intros [_ Hnone]; congruence].
  - rewrite Hcall. simpl. split_and!.
    + by apply prefix_app_r.
    + rewrite length_app. simpl. lia.
    + intros g stored Hg. rewrite lookup_insert_ne; [done|congruence].
    + split; [done|]. intros _ Heq.
      apply (f_equal (fun s => length (chain s))) in Heq. simpl in Heq.
      rewrite length_app in Heq. simpl in Heq. lia.
Qed.

Lemma empty_ledger_shape : ledger_shape empty_ledger.
Proof.
  split_and!.
  - done.
  - intros k e H. simpl in H. by rewrite lookup_nil in H.
  - intros f stored H. simpl in H. by rewrite lookup_empty in H.
Qed.

Lemma anchor_preserves_shape w self f m :
  ledger_shape self -> ledger_shape (anchor_chain_fingerprint w self f m).2.
Proof.
  intros (Hsize & Hblocks & Hproofs).
  destruct (anchor_cases w self f m)
    as [[Hf Hsame] | [(Hf & _ & Hsame) | (Hf & Hin & _)]];
    [by rewrite Hsame | by rewrite Hsame |].
  unfold anchor_chain_fingerprint.
  rewrite (nonempty_true f Hf), Hin. simpl.
  split_and!; simpl.
  - rewrite map_size_insert_None by done. rewrite length_app. simpl. lia.
  - intros k e Hk.
    apply lookup_app_Some in Hk as [Hk | [Hlen Hk]].
    + destruct (Hblocks k e Hk) as (Hbn & stored & Hs & Hrest).
      split; [done|]. exists stored. split; [|done].
      rewrite lookup_insert_ne; [done|]. intros Heq. rewrite <- Heq in Hs.
      congruence.
    + destruct (k - length (chain self))%nat as [|k'] eqn:Hkk;
        simpl in Hk; [|by rewrite lookup_nil in Hk].
      injection Hk as <-. simpl.
      assert (k = length (chain self)) as -> by lia.
      split; [lia|]. eexists. rewrite lookup_insert_eq.
      split; [reflexivity|]. simpl. split_and!; (done || lia).
  - intros g stored Hg.
    destruct (decide (f = g)) as [<-|Hfg].
    + rewrite lookup_insert_eq in Hg. injection Hg as <-. simpl.
      split; [done|]. eexists. split_and!; [|lia|].
      * rewrite lookup_app_r by lia.
        by replace (length (chain self) + 1 - 1 - length (chain self))%nat
          with 0%nat by lia.
      * done.
    + rewrite lookup_insert_ne in Hg by done.
      destruct (Hproofs g stored Hg) as (Hne & e & He & Hpos & Hfe).
      split; [done|]. exists e. split_and!; [|done|done].
      by apply lookup_app_l_Some.
Qed.

Lemma replay_shape calls : ledger_shape (replay calls).
Proof.
  unfold replay. generalize empty_ledger_shape.
  generalize empty_ledger. induction calls as [|[[w f] m] calls IH];
    intros self Hs; simpl; [done|].
  apply IH. by apply anchor_preserves_shape.
Qed.

Lemma ledger_shape_NoDup self :
  ledger_shape self -> NoDup (entry_fingerprint <$> chain self).
Proof.
  intros (_ & Hblocks & _). apply NoDup_alt.
  intros i j f Hi Hj.
  apply list_lookup_fmap_Some in Hi as (ei & -> & Hei).
  apply list_lookup_fmap_Some in Hj as (ej & Hf & Hej).
  destruct (Hblocks i ei Hei) as (_ & si & Hsi & Hbi & _).
  destruct (Hblocks j ej Hej) as (_ & sj & Hsj & Hbj & _).
  rewrite <- Hf in Hsj. rewrite Hsi in Hsj. injection Hsj as ->. lia.
Qed.

(** X3: a ledger built by any sequence of anchor calls on a fresh
    instance holds exactly one block per anchored fingerprint: as many
    proofs as blocks, no fingerprint in two blocks, the block at
    position [k] numbered [k + 1], and its block number, block hash,
    timestamp and fingerprint repeated in the proof stored under its
    fingerprint. *)
Theorem replay_one_block_per_fingerprint
    (calls : list (World * string * option pydict)) :
  size (in_memory_anchors (replay calls)) = length (chain (replay calls))
  /\ NoDup (entry_fingerprint <$> chain (replay calls))
  /\ forall k e,
       chain (replay calls) !! k = Some e ->
       entry_block_number e = S k
       /\ exists stored,
            get_anchor_proof (replay calls) (entry_fingerprint e) = Some stored
            /\ block_number stored = S k
            /\ block_hash stored = entry_block_hash e
            /\ timestamp stored = entry_timestamp e
            /\ proof_fingerprint (proof stored) = entry_fingerprint e
            /\ proof_block_hash (proof stored) = entry_block_hash e
            /\ chain_position (proof stored) = S k.
Proof.
  pose proof (replay_shape calls) as Hs.
  split_and!.
  - apply Hs.
  - by apply ledger_shape_NoDup.
  - apply Hs.
Qed.

(** ** The anchor ledger: verification *)

(** X4: on a ledger whose proofs point at their own blocks,
    [verify_anchor] with a proof supplied accepts exactly the proofs
    that name the fingerprint and carry the transaction hash of the
    stored proof; the block hash, block number and timestamp of the
    supplied proof are not compared. A proof naming another
    fingerprint is refused on every ledger. *)
Theorem verify_anchor_with_proof self (f : string) stored given :
  f <> "" ->
  ledger_consistent self ->
  in_memory_anchors self !! f = Some stored ->
  (verify_anchor self f (Some given) = (true, None) <->
   proof_fingerprint (proof given) = f
   /\ transaction_hash given = transaction_hash stored)
  /\ (proof_fingerprint (proof given) <> f ->
      forall other,
        verify_anchor other f (Some given)
        = (false, Some "Anchor proof fingerprint mismatch")).
Proof.
  intros Hne Hc Hin. split.
  - pose proof (verify_anchor_consistent self f stored Hne Hc Hin) as Hplain.
    revert Hplain. unfold verify_anchor.
    rewrite (nonempty_true f Hne), Hin. simpl.
    destruct (decide (proof_fingerprint (proof given) = f)) as [Hfp|Hfp].
    + rewrite (bool_decide_eq_true_2 _ Hfp). simpl.
      destruct (decide (transaction_hash stored = transaction_hash given))
        as [Htx|Htx].
      * rewrite (bool_decide_eq_true_2 _ Htx). simpl. intros ->. done.
      * rewrite (bool_decide_eq_false_2 _ Htx). simpl. intros _.
        split; [done | intros [_ ?]; congruence].
    + rewrite (bool_decide_eq_false_2 _ Hfp). simpl. intros _.
      split; [done | intros [? _]; congruence].
  - intros Hfp other. unfold verify_anchor.
    rewrite (nonempty_true f Hne). simpl.
    by rewrite (bool_decide_eq_false_2 _ Hfp).
Qed.

Lemma verify_anchor_true self f given msg :
  verify_anchor self f given = (true, msg) ->
  msg = None /\ f <> "" /\ is_Some (in_memory_anchors self !! f).
Proof.
  unfold verify_anchor.
  destruct (decide (f = "")) as [->|Hne]; [done|].
  rewrite (nonempty_true f Hne). simpl.
  destruct (in_memory_anchors self !! f) as [stored|] eqn:Hin.
  - intros H. split_and!; [|done|by eexists].
    revert H. repeat case_match; intros ?; by simplify_eq.
  - repeat case_match; intros ?; by simplify_eq.
Qed.

Lemma verify_anchor_false self f given msg :
  verify_anchor self f given = (false, msg) -> is_Some msg.
Proof.
  unfold verify_anchor. repeat case_match; intros ?; simplify_eq; by eexists.
Qed.

Lemma anchored_after_call w self f0 m f :
  is_Some (in_memory_anchors (anchor_chain_fingerprint w self f0 m).2 !! f)
  <-> is_Some (in_memory_anchors self !! f) \/ (f = f0 /\ f0 <> "").
Proof.
  destruct (anchor_cases w self f0 m)
    as [[Hf Hsame] | [(Hf & Hsome & Hsame)
                     | (Hf & Hin & minted & entry & Hcall & _)]].
  - rewrite Hsame. split; [by left | intros [H|[_ H]]; done].
  - rewrite Hsame. split; [by left | intros [H|[-> _]]; done].
  - rewrite Hcall. simpl. rewrite lookup_insert_is_Some. split.
    + intros [->|[_ H]]; [by right | by left].
    + intros [H|[-> _]]; [|by left].
      destruct (decide (f0 = f)); [by left | by right].
Qed.

Lemma anchored_after_calls calls self f :
  is_Some (in_memory_anchors
             (foldl (fun self '(w, fingerprint, metadata) =>
                       (anchor_chain_fingerprint w self fingerprint metadata).2)
                    self calls) !! f)
  <-> is_Some (in_memory_anchors self !! f)
      \/ (f <> "" /\ f ∈ fingerprints_of calls).
Proof.
  revert self. induction calls as [|[[w f0] m] calls IH]; intros self; simpl.
  - unfold fingerprints_of. simpl. rewrite elem_of_nil.
    split; [by left | intros [H|[_ []]]; done].
  - rewrite IH, anchored_after_call. unfold fingerprints_of. simpl.
    rewrite elem_of_cons. split.
    + intros [[H|[-> H]]|[H1 H2]]; auto.
    + intros [H|[H1 [->|H2]]]; auto.
Qed.

(** X5: [verify_anchor] never answers [True] for an empty fingerprint
    or one that is not stored, whatever the ledger and the proof
    supplied, and it gives an error message exactly when it answers
    [False]. On a ledger built by anchor calls on a fresh instance it
    answers [(True, None)] exactly for the non-empty fingerprints that
    were passed to one of the calls. *)
Theorem verify_anchor_exact :
  (forall self f given msg,
     verify_anchor self f given = (true, msg) ->
     msg = None /\ f <> "" /\ is_Some (get_anchor_proof self f))
  /\ (forall self f given msg,
        verify_anchor self f given = (false, msg) -> is_Some msg)
  /\ (forall calls f,
        verify_anchor (replay calls) f None = (true, None) <->
        f <> "" /\ f ∈ fingerprints_of calls).
Proof.
  split_and!.
  - apply verify_anchor_true.
  - apply verify_anchor_false.
  - intros calls f. split.
    + intros H. apply verify_anchor_true in H as (_ & Hne & Hin).
      split; [done|]. apply anchored_after_calls in Hin as [Hin|[_ Hin]];
        [|done].
      simpl in Hin. rewrite lookup_empty in Hin. by destruct Hin.
    + intros [Hne Hin].
      assert (is_Some (in_memory_anchors (replay calls) !! f))
        as [stored Hstored] by (apply anchored_after_calls; auto).
      eauto using verify_anchor_consistent, replay_consistent.
Qed.

(** ** The anchor ledger: the hash chain *)

Lemma str_append_empty (s : string) : s +:+ "" = s.
Proof.
  induction s as [|c s IH]; [reflexivity|].
  change (String c s +:+ "") with (String c (s +:+ "")). by rewrite IH.
Qed.

Lemma anchor_fresh_block w self f m :
  f <> "" -> in_memory_anchors self !! f = None ->
  chain (anchor_chain_fingerprint w self f m).2 =
  chain self ++
  [{| entry_block_hash :=
        sha256_hexdigest
          (json_dumps (block_data f (default [] m) (clock_anchor w)
                         (S (length (chain self))))
           +:+ from_option entry_block_hash "" (last (chain self)));
      entry_block_number := S (length (chain self));
      entry_fingerprint := f;
      entry_timestamp := clock_anchor w |}].
Proof.
  intros Hne Hin. unfold anchor_chain_fingerprint.
  rewrite (nonempty_true f Hne), Hin. simpl.
  rewrite Nat.add_1_r. unfold block_data.
  destruct (last (chain self)); simpl; [done|].
  by rewrite str_append_empty.
Qed.

Lemma previous_hash_last (blocks : list ChainEntry) e :
  previous_hash (blocks ++ [e]) (length blocks)
  = from_option entry_block_hash "" (last blocks).
Proof.
  rewrite last_lookup. destruct blocks as [|e0 rest]; [done|].
  change (length (e0 :: rest)) with (S (length rest)).
  unfold previous_hash. simpl pred.
  by rewrite lookup_app_l by (simpl; lia).
Qed.

Lemma anchor_preserves_hash_linked w self f m :
  hash_linked (chain self) ->
  hash_linked (chain (anchor_chain_fingerprint w self f m).2).
Proof.
  intros Hl.
  destruct (anchor_cases w self f m)
    as [[Hf Hsame] | [(Hf & _ & Hsame) | (Hf & Hin & _)]];
    [by rewrite Hsame | by rewrite Hsame |].
  rewrite (anchor_fresh_block w self f m Hf Hin).
  intros k e Hk.
  apply lookup_app_Some in Hk as [Hk | [Hlen Hk]].
  - destruct (Hl k e Hk) as [metadata He]. exists metadata.
    rewrite He. do 2 f_equal.
    destruct k as [|k']; [done|]. simpl.
    apply lookup_lt_Some in Hk.
    rewrite lookup_app_l by lia. done.
  - destruct (k - length (chain self))%nat as [|k'] eqn:Hkk;
      simpl in Hk; [|by rewrite lookup_nil in Hk].
    injection Hk as <-. simpl.
    assert (k = length (chain self)) as -> by lia.
    exists (default [] m). by rewrite previous_hash_last.
Qed.

(** X6: the blocks of a ledger built by anchor calls on a fresh
    instance form a hash chain: the hash of each block is the SHA-256
    of the serialised [block_data] of that block (its fingerprint, the
    metadata of the call, its timestamp and its number) followed by the
    hash of the block before it, and by nothing for the first block. *)
Theorem replay_hash_chain (calls : list (World * string * option pydict)) :
  hash_linked (chain (replay calls)).
Proof.
  unfold replay.
  assert (hash_linked (chain empty_ledger)) as Hempty
    by (intros k e H; simpl in H; by rewrite lookup_nil in H).
  revert Hempty. generalize empty_ledger.
  induction calls as [|[[w f] m] calls IH]; intros self Hl; simpl; [done|].
  apply IH. by apply anchor_preserves_hash_linked.
Qed.

(** ** The chain verifier: when a chain verifies *)

Lemma dg_status_stage_passes w policy i payload :
  dg_status_stage w policy i payload = None <-> status_passes w policy payload.
Proof.
  unfold dg_status_stage, status_passes, dg_status_url.
  set (u := default "" (url (default empty_status
                               (status (default empty_delegation
                                          (dg payload)))))).
  destruct (decide (u = "")) as [Hu|Hu].
  - rewrite Hu. simpl. split; [by left | done].
  - rewrite (nonempty_true u Hu).
    destruct (fetch_status w u) as [doc|e].
    + destruct (is_revoked doc 0) eqn:Hrev.
      * split; [done|]. intros [?|[(doc' & [= <-] & ?)|(e & ? & _)]];
          congruence.
      * split; [|done]. intros _. right. left. eauto.
    + destruct (status_required policy) as [[]|] eqn:Hreq; simpl.
      * split; [done|]. intros [?|[(doc' & ? & _)|(e' & _ & ?)]];
          congruence.
      * split; [|done]. intros _. right. right. eauto.
      * split; [done|]. intros [?|[(doc' & ? & _)|(e' & _ & ?)]];
          congruence.
Qed.

Lemma key_binding_stage_passes w jwks i payload :
  key_binding_stage w jwks i payload = None <-> key_binding_passes payload.
Proof.
  unfold key_binding_stage, key_binding_passes.
  set (kb := default ∅ (key_binding (default empty_delegation (dg payload)))).
  destruct (decide (kb = ∅)) as [Hkb|Hkb].
  - rewrite (bool_decide_eq_true_2 _ Hkb). simpl. split; [by left | done].
  - rewrite (bool_decide_eq_false_2 _ Hkb). simpl.
    destruct (kb !! "kid") as [kid|] eqn:Hkid; simpl.
    + destruct (decide (kid = "")) as [->|Hne]; simpl.
      * split; [done|]. intros [?|(kid' & [= <-] & ?)]; congruence.
      * rewrite (nonempty_true kid Hne). simpl.
        split; [|by repeat case_match]. intros _. right. eauto.
    + split; [done|]. intros [?|(kid' & ? & _)]; congruence.
Qed.

Lemma element_passes_body w jwks policy i el payload parsed :
  element_passes w jwks policy el payload ->
  check_delegation w jwks policy (clock_dg w) i el parsed =
  match scope_stage i payload (parsed ++ [payload]) with
  | Some r => Return r
  | None => Continue (parsed ++ [payload])
  end.
Proof.
  intros ([h Hv] & Ht & Hs & Hk).
  apply (check_delegation_passes _ _ _ _ _ _ _ h); [done| | |].
  - by apply dg_time_invalid_spec.
  - by apply dg_status_stage_passes.
  - by apply key_binding_stage_passes.
Qed.

(** The loop runs to the end exactly on the chains whose elements pass
    one by one and narrow the scope step by step. *)
Lemma verify_loop_Continue_iff w jwks policy i delta parsed parsed' :
  length parsed = i ->
  verify_loop w jwks policy (clock_dg w) i delta parsed = Continue parsed' <->
  exists payloads,
    parsed' = parsed ++ payloads
    /\ Forall2 (element_passes w jwks policy) delta payloads
    /\ forall k prev cur,
         (i <= S k)%nat ->
         (parsed ++ payloads) !! k = Some prev ->
         (parsed ++ payloads) !! S k = Some cur ->
         scope_subset (scope_of cur) (scope_of prev) = true.
Proof.
  revert i parsed. induction delta as [|el rest IH]; intros i parsed Hlen.
  - simpl. split.
    + intros [= <-]. exists []. rewrite app_nil_r. split_and!; [done|constructor|].
      intros k prev cur Hk _ Hcur. apply lookup_lt_Some in Hcur. lia.
    + intros (payloads & -> & Hall & _). apply Forall2_nil_inv_l in Hall as ->.
      by rewrite app_nil_r.
  - simpl. split.
    + destruct (check_delegation w jwks policy (clock_dg w) i el parsed)
        as [parsed1|] eqn:E; [|discriminate].
      intros Hloop.
      apply check_delegation_Continue in E
        as (h & p & Hv & -> & Ht & Hs & Hk & Hscope).
      apply IH in Hloop as (payloads & -> & Hall & Hsc);
        [|rewrite length_app; simpl; lia].
      exists (p :: payloads). rewrite <- app_assoc. simpl.
      split_and!; [done| |].
      * constructor; [|done].
        split; [by exists h|]. split; [by apply dg_time_invalid_spec|].
        split; [by apply (dg_status_stage_passes w policy i)|].
        by apply (key_binding_stage_passes w jwks i).
      * intros k prev cur Hk' Hprev Hcur.
        destruct (decide (S i <= S k)%nat) as [Hle|Hgt].
        { apply (Hsc k prev cur Hle); by rewrite <- app_assoc. }
        assert (S k = i) as <- by lia.
        rewrite lookup_app_l in Hprev by lia.
        rewrite lookup_app_r in Hcur by lia.
        rewrite Hlen, Nat.sub_diag in Hcur. simpl in Hcur.
        injection Hcur as ->.
        unfold scope_stage in Hscope.
        rewrite bool_decide_eq_true_2 in Hscope by lia.
        replace (S k - 1)%nat with k in Hscope by lia.
        rewrite lookup_app_l, Hprev in Hscope by lia.
        destruct (scope_subset (scope_of cur) (scope_of prev));
          [done | discriminate].
    + intros (payloads & -> & Hall & Hsc).
      apply Forall2_cons_inv_l in Hall as (p & ps & Hp & Hall & ->).
      rewrite (element_passes_body _ _ _ _ _ p) by done.
      assert (scope_stage i p (parsed ++ [p]) = None) as ->.
      { unfold scope_stage. case_bool_decide as Hi; [|done].
        destruct (parsed !! (i - 1)%nat) as [prev|] eqn:Hprev.
        - rewrite lookup_app_l by lia. rewrite Hprev.
          rewrite (Hsc (i - 1)%nat prev p); [done | lia | |].
          + by rewrite lookup_app_l by lia.
          + replace (S (i - 1)) with i by lia.
            rewrite lookup_app_r by lia. by rewrite Hlen, Nat.sub_diag.
        - apply lookup_ge_None in Hprev. lia. }
      apply IH; [rewrite length_app; simpl; lia|].
      exists ps. rewrite <- app_assoc. simpl. split_and!; [done|done|].
      intros k prev cur Hk. apply Hsc. lia.
Qed.

Lemma anchor_stage_ok w anchor policy parsed :
  (forall s, sha256_hexdigest s <> "") ->
  (anchor_stage w anchor policy parsed).1 = chain_ok parsed.
Proof.
  intros Hsha. unfold anchor_stage.
  destruct (default false (require_anchor policy)); [|done].
  destruct anchor as [ledger|]; [|done].
  destruct (verify_anchor ledger (chain_fingerprint_of parsed) None)
    as [[] msg]; simpl; [done|].
  destruct (anchor_stores w ledger (chain_fingerprint_of parsed)
              (Some [("depth", JInt (Z.of_nat (length parsed)));
                     ("policy_id", JStr (default "unknown" (policy_id policy)));
                     ("timestamp", JInt (clock_meta w))]))
    as (stored & -> & _); [apply Hsha | done].
Qed.

(** X7: with a hash function that never returns the empty string, as
    SHA-256 does not, a chain verifies exactly when it is empty, or is
    no longer than the depth bound and every element passes on its own
    (token verified, clock within [[nbf, exp]], status and key binding
    passing) and each payload is within the scope of the one before.
    Nothing else is looked at: not the anchor, not who issued a
    delegation or to whom. *)
Theorem chain_verifies_iff w anchor delta jwks policy :
  (forall s, sha256_hexdigest s <> "") ->
  (verify_delegation_chain w anchor delta jwks policy).1.1.1 = true <->
  delta = []
  \/ (Z.of_nat (length delta) <= default 3 (max_delegation_depth policy)
      /\ exists payloads,
           Forall2 (element_passes w jwks policy) delta payloads
           /\ scopes_narrow payloads).
Proof.
  intros Hsha. unfold verify_delegation_chain.
  case_bool_decide as Hd; [split; [by left | done]|].
  destruct (Z.of_nat (length delta) >? default 3 (max_delegation_depth policy))
    eqn:Hdepth; simpl.
  { split; [done|]. intros [?|[Hle _]]; [done|lia]. }
  destruct (verify_loop w jwks policy (clock_dg w) 0 delta []) as [parsed|r]
    eqn:Hloop.
  - rewrite anchor_stage_ok by done. simpl. split; [|done]. intros _. right.
    split; [lia|].
    apply verify_loop_Continue_iff in Hloop as (payloads & _ & Hall & Hsc);
      [|done].
    exists payloads. split; [done|]. intros k prev cur Hp Hc.
    apply scope_subset_spec, (Hsc k); (done || lia).
  - split.
    + intros Htrue. apply verify_loop_Return in Hloop. simpl in Htrue.
      congruence.
    + intros [?|(_ & payloads & Hall & Hsc)]; [done|].
      assert (verify_loop w jwks policy (clock_dg w) 0 delta []
              = Continue ([] ++ payloads)) as Hcont.
      { apply verify_loop_Continue_iff; [done|].
        exists payloads. split_and!; [done|done|].
        intros k prev cur _ Hp Hc. apply scope_subset_spec. by apply (Hsc k). }
      congruence.
Qed.

(** X8: a chain that verifies returns code OK, and for a non-empty
    chain the depth it reports is the length of the chain and the
    fingerprint is the SHA-256 of the serialised payloads that
    [verify_jws] returned for the raw tokens, concatenated in chain
    order. *)
Theorem chain_success_result w anchor delta jwks policy code info anchor' :
  verify_delegation_chain w anchor delta jwks policy
    = ((true, code, info), anchor') ->
  code = "OK"
  /\ (delta = [] -> info = [("depth", JInt 0)])
  /\ (delta <> [] ->
      exists payloads,
        Forall2 (verified w jwks) delta payloads
        /\ info =
           [("depth", JInt (Z.of_nat (length delta)));
            ("chain_fingerprint",
             JStr (sha256_hexdigest
                     (String.concat "" (map dumps_payload payloads))))]).
Proof.
  intros H. apply verify_delegation_chain_success in H
    as [(-> & -> & -> & _) | (Hne & parsed & Hloop & Hok)].
  - split_and!; done.
  - apply verify_loop_Continue in Hloop as (payloads & -> & Hall & _); [|done].
    simpl in Hok. unfold chain_ok in Hok. injection Hok as -> ->.
    split_and!; [done|done|]. intros _. exists payloads. split; [done|].
    by rewrite (Forall2_length _ _ _ Hall).
Qed.

Lemma check_delegation_code w jwks policy now i el parsed r :
  check_delegation w jwks policy now i el parsed = Return r ->
  r.1.1 = false /\ r.1.2 ∈ ["100"; "E200"; "E300"; "E400"; "E900"].
Proof.
  intros H. split; [by eapply check_delegation_Return|].
  revert H. unfold check_delegation.
  destruct (verify_jws w (raw el) jwks) as [h p|e|e].
  - destruct (dg_time_invalid now p).
    { intros [= <-]. simpl. set_solver. }
    destruct (stage_codes w jwks policy i p (parsed ++ [p]) r)
      as (Hs & Hk & Hc).
    destruct (dg_status_stage w policy i p) as [r1|].
    { intros [= ->]. rewrite Hs by done. set_solver. }
    destruct (key_binding_stage w jwks i p) as [r2|].
    { intros [= ->]. rewrite Hk by done. set_solver. }
    destruct (scope_stage i p (parsed ++ [p])) as [r3|]; [|done].
    intros [= ->]. destruct (Hc eq_refl) as [-> | (_ & -> & _)]; set_solver.
  - intros [= <-]. simpl. set_solver.
  - intros [= <-]. simpl. set_solver.
Qed.

Lemma verify_loop_code w jwks policy now i delta parsed r :
  verify_loop w jwks policy now i delta parsed = Return r ->
  r.1.1 = false /\ r.1.2 ∈ ["100"; "E200"; "E300"; "E400"; "E900"].
Proof.
  revert i parsed. induction delta as [|el rest IH]; intros i parsed; simpl.
  - discriminate.
  - destruct (check_delegation w jwks policy now i el parsed) eqn:E.
    + apply IH.
    + intros [= <-]. eauto using check_delegation_code.
Qed.

(** X9: the outcome of the chain verifier always carries one of the
    codes OK, 100, E200, E300, E400, E900, and it reports success
    exactly when the code is OK. *)
Theorem chain_outcome_codes w anchor delta jwks policy :
  (verify_delegation_chain w anchor delta jwks policy).1.1.2 ∈ chain_codes
  /\ ((verify_delegation_chain w anchor delta jwks policy).1.1.1 = true <->
      (verify_delegation_chain w anchor delta jwks policy).1.1.2 = "OK").
Proof.
  unfold verify_delegation_chain, chain_codes.
  case_bool_decide; [simpl; split; [set_solver | done]|].
  destruct (_ >? _); [simpl; split; [set_solver | done]|].
  destruct (verify_loop w jwks policy (clock_dg w) 0 delta []) as [parsed|r]
    eqn:Hloop.
  - unfold anchor_stage, chain_ok.
    repeat case_match; simpl; (split; [set_solver | done]).
  - apply verify_loop_code in Hloop as [Hfalse Hcode]. simpl. split.
    + set_solver.
    + rewrite Hfalse. split; [done|]. intros Hok. rewrite Hok in Hcode.
      set_solver.
Qed.

(** ** The chain verifier: sub-chains and scopes *)

Lemma scope_rule_refl (s : Scope) : scope_rule s s.
Proof. by split. Qed.

Lemma scope_rule_trans (a b c : Scope) :
  scope_rule c b -> scope_rule b a -> scope_rule c a.
Proof.
  intros [Hr1 Ha1] [Hr2 Ha2]. split; [congruence | auto].
Qed.

Lemma scopes_narrow_from_root (payloads : list Payload) :
  scopes_narrow payloads ->
  forall i j pi pj,
    (i <= j)%nat -> payloads !! i = Some pi -> payloads !! j = Some pj ->
    scope_rule (scope_of pj) (scope_of pi).
Proof.
  intros Hn i j pi pj Hij Hi. revert pj.
  induction Hij as [|j Hij IH]; intros pj Hj.
  - assert (pi = pj) as -> by congruence. apply scope_rule_refl.
  - destruct (payloads !! j) as [pm|] eqn:Hm.
    + eapply scope_rule_trans; [by apply (Hn j pm pj) | by apply IH].
    + apply lookup_ge_None in Hm. apply lookup_lt_Some in Hj. lia.
Qed.

(** X10: in a chain that verifies, every element is within the scope
    of every element before it, not only of its predecessor: the same
    resource, and no action that an earlier element does not have. In
    particular no element holds an action the first one does not. *)
Theorem verified_chain_within_earlier_scopes
    w anchor delta jwks policy code info anchor' :
  verify_delegation_chain w anchor delta jwks policy
    = ((true, code, info), anchor') ->
  forall i j di dj,
    (i <= j)%nat -> delta !! i = Some di -> delta !! j = Some dj ->
    exists pi pj,
      verified w jwks di pi /\ verified w jwks dj pj
      /\ resource (scope_of pj) = resource (scope_of pi)
      /\ forall a,
           a ∈ default [] (actions (scope_of pj)) ->
           a ∈ default [] (actions (scope_of pi)).
Proof.
  intros Hok i j di dj Hij Hi Hj.
  apply verify_delegation_chain_success in Hok
    as [(-> & _) | (_ & parsed & Hloop & _)]; [done|].
  apply verify_loop_Continue in Hloop as (payloads & -> & Hall & Hsc); [|done].
  simpl in Hsc.
  destruct (Forall2_lookup_l _ _ _ _ _ Hall Hi) as (pi & Hpi & Hvi).
  destruct (Forall2_lookup_l _ _ _ _ _ Hall Hj) as (pj & Hpj & Hvj).
  exists pi, pj. split; [done|]. split; [done|].
  apply (scopes_narrow_from_root payloads) with (i := i) (j := j); try done.
  intros k prev cur Hp Hc. apply scope_subset_spec, (Hsc k); (done || lia).
Qed.

(** X11: with a hash function that never returns the empty string,
    every contiguous part of a chain that verifies is a chain that
    verifies, under the same policy and in the same world, whatever the
    anchor: the verifier accepts a chain cut at either end. *)
Theorem chain_segment_verifies w anchor anchor' pre mid post jwks policy :
  (forall s, sha256_hexdigest s <> "") ->
  (verify_delegation_chain w anchor (pre ++ mid ++ post) jwks policy).1.1.1
    = true ->
  (verify_delegation_chain w anchor' mid jwks policy).1.1.1 = true.
Proof.
  intros Hsha. unfold verify_delegation_chain.
  case_bool_decide as Hfull.
  { intros _. apply app_eq_nil in Hfull as [_ Hfull].
    apply app_eq_nil in Hfull as [-> _]. done. }
  destruct (_ >? _) eqn:Hdepth; [done|].
  destruct (verify_loop w jwks policy (clock_dg w) 0 (pre ++ mid ++ post) [])
    as [parsed|r] eqn:Hloop.
  2: { intros Htrue. apply verify_loop_Return in Hloop. simpl in Htrue.
       congruence. }
  intros _. case_bool_decide as Hmid; [done|].
  assert (Z.of_nat (length mid) >? default 3 (max_delegation_depth policy)
          = false) as ->.
  { rewrite Z.gtb_ltb in Hdepth. rewrite Z.gtb_ltb. apply Z.ltb_ge.
    apply Z.ltb_ge in Hdepth. rewrite !length_app in Hdepth. lia. }
  apply verify_loop_Continue_iff in Hloop as (payloads & _ & Hall & Hsc);
    [|done].
  simpl in Hsc.
  apply Forall2_app_inv_l in Hall as (ps1 & ps23 & H1 & H23 & ->).
  apply Forall2_app_inv_l in H23 as (ps2 & ps3 & H2 & H3 & ->).
  assert (verify_loop w jwks policy (clock_dg w) 0 mid [] = Continue ([] ++ ps2))
    as ->.
  { apply verify_loop_Continue_iff; [done|]. exists ps2.
    split_and!; [done|done|]. simpl. intros k prev cur _ Hp Hc.
    apply (Hsc (length ps1 + k)%nat); [lia| |].
    - rewrite lookup_app_r by lia.
      replace (length ps1 + k - length ps1)%nat with k by lia.
      by apply lookup_app_l_Some.
    - rewrite lookup_app_r by lia.
      replace (S (length ps1 + k) - length ps1)%nat with (S k) by lia.
      by apply lookup_app_l_Some. }
  by rewrite anchor_stage_ok.
Qed.

(** ** The chain verifier and the ledger *)

Lemma anchor_error_keeps_ledger w self f m e self' :
  anchor_chain_fingerprint w self f m = (inr e, self') -> self' = self.
Proof.
  unfold anchor_chain_fingerprint. repeat case_match; intros ?; by simplify_eq.
Qed.

Lemma anchor_ok_nonempty w self f m minted self' :
  anchor_chain_fingerprint w self f m = (inl minted, self') -> f <> "".
Proof.
  unfold anchor_chain_fingerprint. intros H ->. simpl in H. discriminate.
Qed.

Lemma anchor_stage_keeps_ledger w anchor policy parsed :
  (anchor_stage w anchor policy parsed).1.1.1 = false
  \/ default false (require_anchor policy) = false ->
  (anchor_stage w anchor policy parsed).2 = anchor.
Proof.
  unfold anchor_stage.
  destruct (default false (require_anchor policy)); [|done].
  destruct anchor as [ledger|]; [|done].
  destruct (verify_anchor ledger (chain_fingerprint_of parsed) None)
    as [[] msg]; simpl; [done|].
  destruct (anchor_chain_fingerprint _ _ _ _) as [[minted|e] ledger'] eqn:E;
    simpl.
  - intros [?|?]; done.
  - intros _. by rewrite (anchor_error_keeps_ledger _ _ _ _ _ _ E).
Qed.

Lemma chain_keeps_ledger w anchor delta jwks policy :
  (verify_delegation_chain w anchor delta jwks policy).1.1.1 = false
  \/ default false (require_anchor policy) = false
  \/ delta = [] ->
  (verify_delegation_chain w anchor delta jwks policy).2 = anchor.
Proof.
  unfold verify_delegation_chain.
  case_bool_decide as Hd; [done|].
  destruct (_ >? _); [done|].
  destruct (verify_loop w jwks policy (clock_dg w) 0 delta []); [|done].
  intros [H|[H|H]]; [| |done]; apply anchor_stage_keeps_ledger; auto.
Qed.

(** X12: the ledger is left as it was whenever the chain is rejected,
    whenever the policy does not ask for anchoring, and for the empty
    chain. A verification can only change the ledger when it succeeds
    on a non-empty chain under a policy with [require_anchor]. *)
Theorem rejected_chain_leaves_ledger w anchor delta jwks policy :
  (verify_delegation_chain w anchor delta jwks policy).1.1.1 = false
  \/ default false (require_anchor policy) = false
  \/ delta = [] ->
  (verify_delegation_chain w anchor delta jwks policy).2 = anchor.
Proof.
  intros H. unfold verify_delegation_chain.
  case_bool_decide as Hd; [done|].
  destruct (_ >? _) eqn:Hdepth; [done|].
  destruct (verify_loop w jwks policy (clock_dg w) 0 delta []) as [parsed|r]
    eqn:Hloop; [|done].
  apply anchor_stage_keeps_ledger.
  revert H. unfold verify_delegation_chain.
  rewrite (bool_decide_eq_false_2 _ Hd), Hdepth, Hloop.
  intros [H|[H|H]]; [by left | by right | done].
Qed.

(** X13: with a hash function that never returns the empty string,
    the outcome of the chain verifier does not depend on the ledger:
    whether anchoring is configured and what has been anchored before
    changes neither the verdict nor the code nor the details. *)
Theorem chain_outcome_ignores_ledger w anchor anchor' delta jwks policy :
  (forall s, sha256_hexdigest s <> "") ->
  (verify_delegation_chain w anchor delta jwks policy).1
  = (verify_delegation_chain w anchor' delta jwks policy).1.
Proof.
  intros Hsha. unfold verify_delegation_chain.
  case_bool_decide; [done|].
  destruct (_ >? _); [done|].
  destruct (verify_loop w jwks policy (clock_dg w) 0 delta []); [|done].
  by rewrite !anchor_stage_ok.
Qed.

Lemma anchor_stage_stored w ledger policy parsed code info anchor' :
  require_anchor policy = Some true ->
  anchor_stage w (Some ledger) policy parsed = ((true, code, info), anchor') ->
  exists ledger',
    anchor' = Some ledger'
    /\ chain_fingerprint_of parsed <> ""
    /\ is_Some (in_memory_anchors ledger' !! chain_fingerprint_of parsed)
    /\ (ledger_consistent ledger -> ledger_consistent ledger').
Proof.
  intros Hreq. unfold anchor_stage. rewrite Hreq. simpl.
  destruct (verify_anchor ledger (chain_fingerprint_of parsed) None)
    as [[] msg] eqn:Hv; simpl.
  - intros [= <- <- <-]. exists ledger.
    apply verify_anchor_true in Hv as (_ & Hne & Hin). done.
  - destruct (anchor_chain_fingerprint w ledger (chain_fingerprint_of parsed) _)
      as [[minted|e] ledger'] eqn:E; [|done].
    intros [= <- <- <-]. exists ledger'.
    pose proof (anchor_ok_nonempty _ _ _ _ _ _ E) as Hne.
    split_and!; [done|done| |].
    + replace ledger' with
        (anchor_chain_fingerprint w ledger (chain_fingerprint_of parsed)
           (Some [("depth", JInt (Z.of_nat (length parsed)));
                  ("policy_id", JStr (default "unknown" (policy_id policy)));
                  ("timestamp", JInt (clock_meta w))])).2
        by (by rewrite E).
      apply anchored_after_call. by right.
    + intros Hc.
      replace ledger' with
        (anchor_chain_fingerprint w ledger (chain_fingerprint_of parsed)
           (Some [("depth", JInt (Z.of_nat (length parsed)));
                  ("policy_id", JStr (default "unknown" (policy_id policy)));
                  ("timestamp", JInt (clock_meta w))])).2
        by (by rewrite E).
      by apply anchor_preserves_consistent.
Qed.

(** X14: when a non-empty chain verifies under a policy with
    [require_anchor] and a ledger is configured, the fingerprint the
    outcome reports is not empty and is stored in the ledger
    afterwards; if the ledger was consistent it still is, and
    [verify_anchor] accepts the fingerprint. *)
Theorem verified_chain_is_anchored
    w ledger delta jwks policy code info anchor' :
  delta <> [] ->
  require_anchor policy = Some true ->
  verify_delegation_chain w (Some ledger) delta jwks policy
    = ((true, code, info), anchor') ->
  exists ledger' fingerprint,
    anchor' = Some ledger'
    /\ dict_lookup "chain_fingerprint" info = Some (JStr fingerprint)
    /\ fingerprint <> ""
    /\ is_Some (get_anchor_proof ledger' fingerprint)
    /\ (ledger_consistent ledger ->
        ledger_consistent ledger'
        /\ verify_anchor ledger' fingerprint None = (true, None)).
Proof.
  intros Hne Hreq. unfold verify_delegation_chain.
  rewrite (bool_decide_eq_false_2 _ Hne).
  destruct (_ >? _); [done|].
  destruct (verify_loop w jwks policy (clock_dg w) 0 delta []) as [parsed|r]
    eqn:Hloop.
  2: { intros [= Hr]. apply verify_loop_Return in Hloop. rewrite Hr in Hloop.
       done. }
  intros Hst. pose proof (anchor_stage_success _ _ _ _ _ _ _ Hst) as Hok.
  apply (anchor_stage_stored _ _ _ _ _ _ _ Hreq) in Hst
    as (ledger' & -> & Hf & Hin & Hc).
  exists ledger', (chain_fingerprint_of parsed).
  unfold chain_ok in Hok. injection Hok as -> ->.
  split_and!; [done|done|done|done|].
  intros Hcons. split; [auto|].
  destruct Hin as [stored Hin].
  by apply verify_anchor_consistent with stored; auto.
Qed.

Lemma verified_same_jws w w' jwks el p :
  verify_jws w' = verify_jws w -> verified w' jwks el p -> verified w jwks el p.
Proof. intros Hj [h H]. exists h. by rewrite <- Hj. Qed.

(** X15: once a chain has verified and been anchored, verifying the
    same tokens again leaves the ledger as it is: whatever the policy
    and the clocks of the second run, and whether it succeeds or not,
    as long as the tokens verify to the same payloads. *)
Theorem reverification_adds_no_block
    w w' ledger delta jwks policy policy' code info ledger' :
  require_anchor policy = Some true ->
  verify_jws w' = verify_jws w ->
  verify_delegation_chain w (Some ledger) delta jwks policy
    = ((true, code, info), Some ledger') ->
  (verify_delegation_chain w' (Some ledger') delta jwks policy').2
  = Some ledger'.
Proof.
  intros Hreq Hjws Hfirst.
  destruct (verify_delegation_chain w' (Some ledger') delta jwks policy')
    as [[[[] code2] info2] anchor2] eqn:Hsecond.
  2: { pose proof (chain_keeps_ledger w' (Some ledger') delta jwks policy')
         as Hk. rewrite Hsecond in Hk. apply Hk. by left. }
  simpl. revert Hfirst Hsecond. unfold verify_delegation_chain.
  case_bool_decide as Hd; [by intros _ [= _ _ <-]|].
  destruct (_ >? _); [done|]. destruct (_ >? _); [done|].
  destruct (verify_loop w jwks policy (clock_dg w) 0 delta []) as [parsed|r]
    eqn:Hloop.
  2: { intros [= Hr]. apply verify_loop_Return in Hloop. rewrite Hr in Hloop.
       done. }
  destruct (verify_loop w' jwks policy' (clock_dg w') 0 delta [])
    as [parsed2|r2] eqn:Hloop2.
  2: { intros _ [= Hr]. apply verify_loop_Return in Hloop2.
       rewrite Hr in Hloop2. done. }
  apply verify_loop_Continue in Hloop as (ps & -> & Hall & _); [|done].
  apply verify_loop_Continue in Hloop2 as (ps2 & -> & Hall2 & _); [|done].
  assert (ps2 = ps) as ->.
  { apply (verified_payloads_agree w w jwks delta); [done| |done].
    eapply Forall2_impl; [exact Hall2|]. intros el p.
    by apply verified_same_jws. }
  simpl. intros Hst.
  apply (anchor_stage_stored _ _ _ _ _ _ _ Hreq) in Hst
    as (l1 & [= <-] & Hf & [stored Hin] & _).
  unfold anchor_stage.
  destruct (default false (require_anchor policy')); [|by intros [= _ _ <-]].
  destruct (verify_anchor ledger' (chain_fingerprint_of ps) None)
    as [[] msg]; simpl; [by intros [= _ _ <-]|].
  rewrite (anchor_known _ _ _ _ _ Hf Hin). by intros [= _ _ <-].
Qed.

(** ** What the chain verifier does not look at *)

Lemma check_delegation_raw w jwks policy now i el el' parsed :
  raw el = raw el' ->
  check_delegation w jwks policy now i el parsed
  = check_delegation w jwks policy now i el' parsed.
Proof. unfold check_delegation. by intros ->. Qed.

Lemma verify_loop_raw w jwks policy now delta delta' :
  map raw delta = map raw delta' ->
  forall i parsed,
    verify_loop w jwks policy now i delta parsed
    = verify_loop w jwks policy now i delta' parsed.
Proof.
  revert delta'. induction delta as [|el rest IH]; intros [|el' rest'] Hraw;
    simpl in *; try done.
  injection Hraw as Hel Hrest. intros i parsed.
  rewrite (check_delegation_raw _ _ _ _ _ el el' _ Hel).
  destruct (check_delegation w jwks policy now i el' parsed); [|done].
  by apply IH.
Qed.

(** X16: the chain verifier reads nothing but the [raw] token of each
    element: two chains with the same raw tokens get the same outcome
    and the same ledger, whatever header and payload the adapter
    decoded for them without verification. *)
Theorem chain_reads_raw_tokens_only w anchor delta delta' jwks policy :
  map raw delta = map raw delta' ->
  verify_delegation_chain w anchor delta jwks policy
  = verify_delegation_chain w anchor delta' jwks policy.
Proof.
  intros Hraw. unfold verify_delegation_chain.
  assert (length delta = length delta') as Hlen.
  { by rewrite <- (length_map raw delta), Hraw, length_map. }
  rewrite (verify_loop_raw w jwks policy (clock_dg w) delta delta' Hraw).
  rewrite Hlen.
  destruct delta, delta'; done.
Qed.

Lemma key_binding_stage_reads_dg w w' jwks i p p' :
  dg p' = dg p ->
  key_binding_stage w' jwks i p' = key_binding_stage w jwks i p.
Proof.
  unfold key_binding_stage. intros ->. repeat case_match; done.
Qed.

Lemma scope_of_reads_dg p p' : dg p' = dg p -> scope_of p' = scope_of p.
Proof. unfold scope_of. by intros ->. Qed.

Lemma check_delegation_relabel w who jwks policy i el parsed' parsed :
  Forall2 same_but_principals parsed' parsed ->
  match check_delegation (relabel w who) jwks policy (clock_dg w) i el parsed',
        check_delegation w jwks policy (clock_dg w) i el parsed with
  | Return r', Return r => r' = r
  | Continue ps', Continue ps => Forall2 same_but_principals ps' ps
  | _, _ => False
  end.
Proof.
  intros Hrel. unfold check_delegation. simpl verify_jws.
  destruct (verify_jws w (raw el) jwks) as [h p|e|e]; [|done|done].
  set (p' := with_principals p (who (raw el)).1 (who (raw el)).2).
  change (dg_time_invalid (clock_dg w) p')
    with (dg_time_invalid (clock_dg w) p).
  destruct (dg_time_invalid (clock_dg w) p); [done|].
  change (dg_status_stage (relabel w who) policy i p')
    with (dg_status_stage w policy i p).
  destruct (dg_status_stage w policy i p); [done|].
  rewrite (key_binding_stage_reads_dg w (relabel w who) jwks i p p' eq_refl).
  destruct (key_binding_stage w jwks i p); [done|].
  assert (Forall2 same_but_principals (parsed' ++ [p']) (parsed ++ [p]))
    as Hrel'.
  { apply Forall2_app; [done|]. by repeat constructor. }
  unfold scope_stage. case_bool_decide; [|done].
  destruct ((parsed ++ [p]) !! (i - 1)%nat) as [prev|] eqn:Hprev.
  - destruct (Forall2_lookup_r _ _ _ _ _ Hrel' Hprev)
      as (prev' & -> & _ & _ & Hdg & _).
    rewrite (scope_of_reads_dg prev prev' Hdg).
    change (scope_of p') with (scope_of p).
    destruct (negb _); done.
  - assert ((parsed' ++ [p']) !! (i - 1)%nat = None) as ->; [|done].
    apply lookup_ge_None. apply lookup_ge_None in Hprev.
    by rewrite (Forall2_length _ _ _ Hrel').
Qed.

Lemma verify_loop_relabel w who jwks policy delta :
  forall i parsed' parsed,
    Forall2 same_but_principals parsed' parsed ->
    match verify_loop (relabel w who) jwks policy (clock_dg w) i delta parsed',
          verify_loop w jwks policy (clock_dg w) i delta parsed with
    | Return r', Return r => r' = r
    | Continue ps', Continue ps => Forall2 same_but_principals ps' ps
    | _, _ => False
    end.
Proof.
  induction delta as [|el rest IH]; intros i parsed' parsed Hrel; simpl;
    [done|].
  pose proof (check_delegation_relabel w who jwks policy i el _ _ Hrel) as H.
  destruct (check_delegation (relabel w who) jwks policy (clock_dg w) i el
              parsed'),
           (check_delegation w jwks policy (clock_dg w) i el parsed);
    try done.
  by apply IH.
Qed.

(** X17: the chain verifier never looks at the [iss] and [sub] claims
    of a delegation. With a hash function that never returns the empty
    string, replacing the issuer and subject of every verified payload
    by anything else leaves the verdict and the code as they were (the
    fingerprint changes with the payloads): nothing checks that an
    element was issued by the subject of the one before. *)
Theorem chain_ignores_principals w who anchor anchor' delta jwks policy :
  (forall s, sha256_hexdigest s <> "") ->
  (verify_delegation_chain (relabel w who) anchor delta jwks policy).1.1
  = (verify_delegation_chain w anchor' delta jwks policy).1.1.
Proof.
  intros Hsha. unfold verify_delegation_chain.
  case_bool_decide; [done|].
  destruct (_ >? _); [done|].
  assert (Forall2 same_but_principals [] []) as Hnil by constructor.
  pose proof (verify_loop_relabel w who jwks policy delta 0 [] [] Hnil) as Hl.
  change (clock_dg (relabel w who)) with (clock_dg w).
  destruct (verify_loop (relabel w who) jwks policy (clock_dg w) 0 delta []),
           (verify_loop w jwks policy (clock_dg w) 0 delta []); try done.
  - by rewrite !anchor_stage_ok.
  - by subst.
Qed.

(** ** Revocation and policy *)

Lemma fetch_status_revoked_url w status_url doc :
  read_status_file w (revoked_status_file w) = FileJson doc ->
  str_contains "revoked" status_url = true ->
  fetch_status w status_url = inl doc.
Proof. unfold fetch_status. by intros Hfile ->; rewrite Hfile. Qed.

(** X18: when the revoked status fixture carries a revoked list, a
    chain with an element whose verified payload names a status URL
    containing [revoked] never verifies, wherever the element stands
    and whatever the policy, also with [status_required = false]. *)
Theorem revoked_url_never_verifies
    w anchor delta jwks policy doc el header payload :
  read_status_file w (revoked_status_file w) = FileJson doc ->
  is_revoked doc 0 = true ->
  el ∈ delta ->
  verify_jws w (raw el) jwks = JwsOk header payload ->
  str_contains "revoked" (dg_status_url payload) = true ->
  (verify_delegation_chain w anchor delta jwks policy).1.1.1 = false.
Proof.
  intros Hfile Hrev Hel Hjws Hurl.
  destruct (verify_delegation_chain w anchor delta jwks policy)
    as [[[[] code] info] anchor'] eqn:E; [exfalso|done].
  apply verify_delegation_chain_success in E
    as [(-> & _) | (_ & parsed & Hloop & _)]; [by apply elem_of_nil in Hel|].
  apply verify_loop_Continue_iff in Hloop as (payloads & _ & Hall & _);
    [|done].
  apply list_elem_of_lookup in Hel as [k Hk].
  destruct (Forall2_lookup_l _ _ _ _ _ Hall Hk)
    as (p & _ & [h Hv] & _ & Hstatus & _).
  assert (p = payload) as -> by congruence.
  pose proof (fetch_status_revoked_url w _ doc Hfile Hurl) as Hfetch.
  destruct Hstatus as [Hempty | [(doc' & Hdoc & Hnot) | (e & He & _)]].
  - rewrite Hempty in Hurl. discriminate.
  - congruence.
  - congruence.
Qed.

(** X19: relaxing the policy never turns an accepted credential into
    a rejected one: a VC-JWT that verifies under a policy verifies,
    with the same result, under every policy that allows at least the
    same algorithms, has at least the same clock skew, and requires the
    status only if the first one does. Nothing else of the policy is
    read. *)
Theorem relaxed_policy_keeps_credential
    w vp jwks policy policy' code info :
  (forall a,
     a ∈ default ["EdDSA"] (alg_allowlist policy) ->
     a ∈ default ["EdDSA"] (alg_allowlist policy')) ->
  default 5 (clock_skew_seconds policy)
    <= default 5 (clock_skew_seconds policy') ->
  (default true (status_required policy') = true ->
   default true (status_required policy) = true) ->
  verify_vc_jwt w vp jwks policy = (true, code, info) ->
  verify_vc_jwt w vp jwks policy' = (true, code, info).
Proof.
  intros Halg Hskew Hst. unfold verify_vc_jwt.
  destruct (verify_jws w (jwt vp) jwks) as [h p|e|e]; [|done|done].
  destruct (alg_not_allowed h (default ["EdDSA"] (alg_allowlist policy)))
    eqn:Ea; [done|].
  assert (alg_not_allowed h (default ["EdDSA"] (alg_allowlist policy'))
          = false) as ->.
  { unfold alg_not_allowed in *. destruct (alg h) as [a|]; [|done].
    apply negb_false_iff, bool_decide_eq_true in Ea.
    apply negb_false_iff, bool_decide_eq_true. auto. }
  destruct ((clock_vc w <? default 0 (nbf p)
                           - default 5 (clock_skew_seconds policy))
            || (clock_vc w >? default 0 (exp p)
                              + default 5 (clock_skew_seconds policy)))
    eqn:Et; [done|].
  assert ((clock_vc w <? default 0 (nbf p)
                         - default 5 (clock_skew_seconds policy'))
          || (clock_vc w >? default 0 (exp p)
                            + default 5 (clock_skew_seconds policy'))
          = false) as ->.
  { apply orb_false_iff in Et as [H1 H2]. apply orb_false_iff.
    rewrite Z.gtb_ltb in H2. rewrite Z.gtb_ltb.
    apply Z.ltb_ge in H1, H2. split; apply Z.ltb_ge; lia. }
  destruct (nonempty _); [|done].
  destruct (fetch_status w _) as [doc|e]; [done|].
  destruct (default true (status_required policy)) eqn:Er; [done|].
  destruct (default true (status_required policy')) eqn:Er'; [|done].
  by specialize (Hst eq_refl).
Qed.

Lemma status_passes_relaxed w policy policy' payload :
  (default true (status_required policy') = true ->
   default true (status_required policy) = true) ->
  status_passes w policy payload -> status_passes w policy' payload.
Proof.
  intros Hst [H | [H | (e & He & Hreq)]]; [by left | by right; left |].
  right; right. exists e. split; [done|].
  rewrite Hreq in Hst. destruct (status_required policy') as [[]|]; try done;
    by specialize (Hst eq_refl).
Qed.

(** X20: relaxing the policy never turns an accepted chain into a
    rejected one. With a hash function that never returns the empty
    string, a chain that verifies under a policy gets the same outcome
    under every policy whose depth limit is not smaller and which
    requires the status only if the first one does, whatever else the
    two policies say, about anchoring in particular. *)
Theorem relaxed_policy_keeps_chain
    w anchor anchor' delta jwks policy policy' :
  (forall s, sha256_hexdigest s <> "") ->
  default 3 (max_delegation_depth policy)
    <= default 3 (max_delegation_depth policy') ->
  (default true (status_required policy') = true ->
   default true (status_required policy) = true) ->
  (verify_delegation_chain w anchor delta jwks policy).1.1.1 = true ->
  (verify_delegation_chain w anchor' delta jwks policy').1
  = (verify_delegation_chain w anchor delta jwks policy).1.
Proof.
  intros Hsha Hdepth Hst. unfold verify_delegation_chain.
  case_bool_decide as Hd; [done|].
  destruct (_ >? default 3 (max_delegation_depth policy)) eqn:Hmax; [done|].
  assert (Z.of_nat (length delta) >? default 3 (max_delegation_depth policy')
          = false) as ->.
  { rewrite Z.gtb_ltb in Hmax. rewrite Z.gtb_ltb. apply Z.ltb_ge.
    apply Z.ltb_ge in Hmax. lia. }
  destruct (verify_loop w jwks policy (clock_dg w) 0 delta []) as [parsed|r]
    eqn:Hloop.
  2: { intros Htrue. apply verify_loop_Return in Hloop. simpl in Htrue.
       congruence. }
  intros _.
  assert (verify_loop w jwks policy' (clock_dg w) 0 delta [] = Continue parsed)
    as ->.
  { apply verify_loop_Continue_iff in Hloop as (ps & -> & Hall & Hsc); [|done].
    apply verify_loop_Continue_iff; [done|]. exists ps.
    split_and!; [done| |done].
    eapply Forall2_impl; [exact Hall|].
    intros el p (Hv & Ht & Hs & Hk).
    split; [done|]. split; [done|]. split; [|done].
    by apply status_passes_relaxed with policy. }
  by rewrite !anchor_stage_ok.
Qed.

(** ** The orchestrator *)

Lemma chain_failure_code w anchor delta jwks policy :
  (verify_delegation_chain w anchor delta jwks policy).1.1.1 = false ->
  (verify_delegation_chain w anchor delta jwks policy).1.1.2
    ∈ ["100"; "E200"; "E300"; "E400"; "E900"].
Proof.
  unfold verify_delegation_chain.
  case_bool_decide; [done|].
  destruct (_ >? _); [intros _; simpl; set_solver|].
  destruct (verify_loop w jwks policy (clock_dg w) 0 delta []) as [parsed|r]
    eqn:Hloop.
  - unfold anchor_stage, chain_ok.
    repeat case_match; simpl; intros ?; (done || set_solver).
  - intros _. by apply verify_loop_code in Hloop as [_ Hcode].
Qed.

Lemma structural_validation_code cvc fields r :
  structural_validation cvc fields = Some r -> r.1.2 = "100".
Proof.
  induction fields as [|fld fields IH]; simpl; [done|].
  destruct (negb _); [by intros [= <-] | done].
Qed.

Lemma verify_vc_jwt_code w vp jwks policy :
  (verify_vc_jwt w vp jwks policy).1.1 = true
  \/ (verify_vc_jwt w vp jwks policy).1.2 ∈ ["100"; "E200"; "E300"; "E900"].
Proof.
  unfold verify_vc_jwt.
  repeat case_match; simpl; (by left) || (right; set_solver).
Qed.

Lemma credential_stage_code w issuer_id subject_id M P jwks r :
  credential_stage w issuer_id subject_id M P jwks = inl r ->
  r.1.2 ∈ ["100"; "E200"; "E300"; "E900"].
Proof.
  unfold credential_stage.
  destruct (String.eqb _ "VC-JWT").
  - destruct (negb (nonempty _)); [intros [= <-]; simpl; set_solver|].
    pose proof (verify_vc_jwt_code w {| jwt := default "" (raw_vc_jwt M) |}
                  jwks P) as Hc.
    destruct (verify_vc_jwt w _ jwks P) as [[[] c] i]; simpl in *; [done|].
    intros [= <-]. simpl. by destruct Hc.
  - repeat case_match; intros [= <-]; simpl; set_solver.
Qed.

Lemma holder_binding_stage_code M P r :
  holder_binding_stage M P = Some r -> r.1.2 = "E500".
Proof.
  unfold holder_binding_stage. repeat case_match; by intros [= <-].
Qed.

Lemma build_vro_code M P vc_info dg_info r :
  build_vro M P vc_info dg_info = inl r -> r.1.2 = "E900".
Proof. unfold build_vro. repeat case_match; by intros [= <-]. Qed.

Lemma verify_cvc_vro_code w anchor cvc jwks r anchor' :
  verify_cvc_vro w anchor cvc jwks = (inl r, anchor') ->
  r.1.2 ∈ ["100"; "E200"; "E300"; "E400"; "E500"; "E900"].
Proof.
  unfold verify_cvc_vro.
  destruct (structural_validation cvc required_fields) eqn:Es.
  { intros [= <- _]. rewrite (structural_validation_code _ _ _ Es).
    set_solver. }
  destruct (cvc_M cvc) as [M|], (cvc_P cvc) as [P|],
    (cvc_I_issuer cvc) as [issuer_id|], (cvc_I_subject cvc) as [subject_id|];
    try (intros [= <- _]; simpl; set_solver).
  destruct (credential_stage w _ _ _ _ _) as [rc|vc_info] eqn:Ec.
  { intros [= <- _]. apply credential_stage_code in Ec. set_solver. }
  pose proof (chain_failure_code w anchor (default [] (cvc_Delta cvc)) jwks P)
    as Hd.
  destruct (verify_delegation_chain w _ _ _ _) as [[[[] d] i] b]; simpl in *.
  - destruct (holder_binding_stage M P) as [rh|] eqn:Eh.
    { intros [= <- _]. rewrite (holder_binding_stage_code _ _ _ Eh).
      set_solver. }
    intros [= Hb _]. rewrite (build_vro_code _ _ _ _ _ Hb). set_solver.
  - intros [= <- _]. simpl. specialize (Hd eq_refl). set_solver.
Qed.

(** X21: the outcome of [verify_cvc] always carries one of the codes
    OK, 100, E200, E300, E400, E500, E900; it reports success exactly
    when the code is OK, and then the result holds the signed VRO under
    [vro_jwt] and nothing else. *)
Theorem verify_cvc_outcome_codes w anchor cvc jwks jwks_verifier :
  (verify_cvc w anchor cvc jwks jwks_verifier).1.1.2 ∈ cvc_codes
  /\ ((verify_cvc w anchor cvc jwks jwks_verifier).1.1.1 = true <->
      (verify_cvc w anchor cvc jwks jwks_verifier).1.1.2 = "OK")
  /\ ((verify_cvc w anchor cvc jwks jwks_verifier).1.1.1 = true ->
      exists token,
        (verify_cvc w anchor cvc jwks jwks_verifier).1.2
        = [("vro_jwt", JStr token)]).
Proof.
  unfold verify_cvc, cvc_codes.
  destruct (verify_cvc_vro w anchor cvc jwks) as [[r|vro] anchor'] eqn:E.
  - pose proof (verify_cvc_vro_failure _ _ _ _ _ _ E) as Hfalse.
    pose proof (verify_cvc_vro_code _ _ _ _ _ _ E) as Hcode.
    simpl. split_and!.
    + set_solver.
    + rewrite Hfalse. split; [done|]. intros Hok. rewrite Hok in Hcode.
      set_solver.
    + by rewrite Hfalse.
  - unfold sign_vro. destruct (jwt_encode w vro) as [token|e]; simpl.
    + split_and!; [set_solver|done|]. intros _. by exists token.
    + split_and!; [set_solver|done|done].
Qed.

Lemma verify_cvc_vro_stages w anchor cvc jwks vro anchor' :
  verify_cvc_vro w anchor cvc jwks = (inr vro, anchor') ->
  exists M P issuer_id subject_id vc_info code dg_info,
    cvc_M cvc = Some M /\ cvc_P cvc = Some P
    /\ cvc_I_issuer cvc = Some issuer_id
    /\ cvc_I_subject cvc = Some subject_id
    /\ credential_stage w issuer_id subject_id M P jwks = inr vc_info
    /\ verify_delegation_chain w anchor (default [] (cvc_Delta cvc)) jwks P
       = ((true, code, dg_info), anchor')
    /\ holder_binding_stage M P = None
    /\ build_vro M P vc_info dg_info = inr vro.
Proof.
  unfold verify_cvc_vro.
  destruct (structural_validation cvc required_fields); [done|].
  destruct (cvc_M cvc) as [M|], (cvc_P cvc) as [P|],
    (cvc_I_issuer cvc) as [issuer_id|], (cvc_I_subject cvc) as [subject_id|];
    try done.
  destruct (credential_stage w _ _ _ _ _) as [rc|vc_info] eqn:Ec; [done|].
  destruct (verify_delegation_chain w _ _ _ _) as [[[[] d] i] b] eqn:Ed;
    simpl; [|done].
  destruct (holder_binding_stage M P) as [rh|] eqn:Eh; [done|].
  intros [= Hb <-]. by exists M, P, issuer_id, subject_id, vc_info, d, i.
Qed.

Lemma credential_stage_info w issuer_id subject_id M P jwks vc_info :
  credential_stage w issuer_id subject_id M P jwks = inr vc_info ->
  (default "VC-JWT" (profile_hint M) = "VC-JWT"
   /\ exists header payload,
        verify_jws w (default "" (raw_vc_jwt M)) jwks = JwsOk header payload
        /\ vc_info = [("iss", opt_str (iss payload));
                      ("sub", opt_str (sub payload))])
  \/ (profile_hint M = Some "VC-LD"
      /\ raw_vc_ld M <> None /\ raw_vc_ld M <> Some []
      /\ vc_info = [("iss", JStr issuer_id); ("sub", JStr subject_id)]).
Proof.
  unfold credential_stage.
  destruct (String.eqb _ "VC-JWT") eqn:Ej.
  - apply String.eqb_eq in Ej.
    destruct (negb (nonempty _)); [done|].
    destruct (verify_vc_jwt w _ jwks P) as [[[] c] i] eqn:Ev; simpl in *;
      [|done].
    intros [= <-]. apply verify_vc_jwt_success in Ev as (h & p & Hv & ->).
    left. split; [done|]. by exists h, p.
  - destruct (String.eqb _ "VC-LD") eqn:El; [|done].
    apply String.eqb_eq in El.
    destruct (profile_hint M) as [hint|]; [|done]. simpl in El. subst hint.
    destruct (raw_vc_ld M) as [[|kv ld]|]; simpl; try done.
    intros [= <-]. by right.
Qed.

(** X22: what a verified CVC is signed into. When [verify_cvc]
    succeeds, the result is the token [jwt.encode] returns for a VRO
    with the request id, the constant timestamp, the policy id, the
    length of the chain as depth, decision VERIFIED and assurance AAL2.
    Issuer and subject are the [iss] and [sub] of the verified
    credential for VC-JWT, and the [I_issuer] and [I_subject] of the CVC
    for VC-LD, where no token is verified. The fingerprint is [None]
    for an empty chain and the hash of the verified payloads
    otherwise. *)
Theorem verified_cvc_vro
    w anchor cvc jwks jwks_verifier code signed anchor' :
  verify_cvc w anchor cvc jwks jwks_verifier = ((true, code, signed), anchor') ->
  exists M P rid pid issuer subject fingerprint token,
    cvc_M cvc = Some M /\ cvc_P cvc = Some P
    /\ request_id M = Some rid /\ policy_id P = Some pid
    /\ jwt_encode w
         [("cvc_id", JStr rid);
          ("timestamp", JInt 1735600000);
          ("policy_ref", JStr pid);
          ("issuer", issuer);
          ("subject", subject);
          ("delegation_chain_depth",
           JInt (Z.of_nat (length (default [] (cvc_Delta cvc)))));
          ("decision", JStr "VERIFIED");
          ("assurance", JStr "AAL2");
          ("chain_fingerprint", fingerprint)] = inl token
    /\ signed = [("vro_jwt", JStr token)]
    /\ ((default "VC-JWT" (profile_hint M) = "VC-JWT"
         /\ exists header payload,
              verify_jws w (default "" (raw_vc_jwt M)) jwks
                = JwsOk header payload
              /\ issuer = opt_str (iss payload)
              /\ subject = opt_str (sub payload))
        \/ (profile_hint M = Some "VC-LD"
            /\ exists issuer_id subject_id,
                 cvc_I_issuer cvc = Some issuer_id
                 /\ cvc_I_subject cvc = Some subject_id
                 /\ issuer = JStr issuer_id
                 /\ subject = JStr subject_id))
    /\ (default [] (cvc_Delta cvc) = [] -> fingerprint = JNull)
    /\ (default [] (cvc_Delta cvc) <> [] ->
        exists payloads,
          Forall2 (verified w jwks) (default [] (cvc_Delta cvc)) payloads
          /\ fingerprint = JStr (chain_fingerprint_of payloads)).
Proof.
  intros H. unfold verify_cvc in H.
  destruct (verify_cvc_vro w anchor cvc jwks) as [[r|vro] a] eqn:E.
  { injection H as Hr _. apply verify_cvc_vro_failure in E. by subst r. }
  unfold sign_vro in H.
  destruct (jwt_encode w vro) as [token|e] eqn:Ej; [|done].
  injection H as <- <- <-.
  apply verify_cvc_vro_stages in E
    as (M & P & iid & sid & vc_info & c & dg_info
        & HM & HP & Hi & Hs & Hc & Hd & Hh & Hb).
  unfold build_vro in Hb.
  destruct (request_id M) as [rid|] eqn:Hrid; [|done].
  destruct (policy_id P) as [pid|] eqn:Hpid; [|done].
  injection Hb as <-.
  set (delta := default [] (cvc_Delta cvc)) in *.
  assert (dict_get_d dg_info "depth" (JInt 0) = JInt (Z.of_nat (length delta))
          /\ (delta = [] -> dict_get dg_info "chain_fingerprint" = JNull)
          /\ (delta <> [] ->
              exists payloads,
                Forall2 (verified w jwks) delta payloads
                /\ dict_get dg_info "chain_fingerprint"
                   = JStr (chain_fingerprint_of payloads)))
    as (Hdepth & Hf0 & Hf1).
  { apply verify_delegation_chain_success in Hd
      as [(Hnil & _ & -> & _) | (Hne & parsed & Hloop & Hok)].
    - rewrite Hnil. by split_and!.
    - apply verify_loop_Continue in Hloop as (payloads & -> & Hall & _);
        [|done].
      simpl in Hok. unfold chain_ok in Hok. injection Hok as _ ->.
      split_and!.
      + cbn. by rewrite (Forall2_length _ _ _ Hall).
      + done.
      + intros _. by exists payloads. }
  rewrite Hdepth in Ej.
  exists M, P, rid, pid, (dict_get vc_info "iss"), (dict_get vc_info "sub"),
    (dict_get dg_info "chain_fingerprint"), token.
  split_and!; try done.
  apply credential_stage_info in Hc
    as [(Hp & h & p & Hv & ->) | (Hp & _ & _ & ->)]; [left | right].
  - split; [done|]. by exists h, p.
  - split; [done|]. by exists iid, sid.
Qed.

Lemma holder_binding_stage_None M P :
  holder_binding_stage M P = None ->
  holder_binding_required P = Some false
  \/ exists hb s,
       holder_binding M = Some hb
       /\ dict_lookup "proof" hb = Some (JStr s) /\ s <> "".
Proof.
  unfold holder_binding_stage.
  destruct (holder_binding_required P) as [[]|]; simpl; [|by left|].
  all: destruct (holder_binding M) as [[|kv hb]|]; simpl; try done.
  all: unfold dict_get.
  all: destruct (dict_lookup "proof" (kv :: hb)) as [[| | |s| |]|] eqn:Hp;
    simpl; try done;
    try (by destruct (negb _)).
  all: destruct (String.eqb_spec s ""); simpl; [done|].
  all: intros _; right; by exists (kv :: hb), s.
Qed.

(** X23: a CVC only verifies with a holder binding in its metadata
    whose [proof] is a non-empty string, unless the policy sets
    [holder_binding_required] to false; the default is to require
    it. Nothing else of the holder binding is looked at. *)
Theorem verified_cvc_holder_binding
    w anchor cvc jwks jwks_verifier code signed anchor' :
  verify_cvc w anchor cvc jwks jwks_verifier = ((true, code, signed), anchor') ->
  exists M P,
    cvc_M cvc = Some M /\ cvc_P cvc = Some P
    /\ (holder_binding_required P = Some false
        \/ exists hb s,
             holder_binding M = Some hb
             /\ dict_lookup "proof" hb = Some (JStr s) /\ s <> "").
Proof.
  intros H. unfold verify_cvc in H.
  destruct (verify_cvc_vro w anchor cvc jwks) as [[r|vro] a] eqn:E.
  { injection H as Hr _. apply verify_cvc_vro_failure in E. by subst r. }
  apply verify_cvc_vro_stages in E
    as (M & P & _ & _ & _ & _ & _ & HM & HP & _ & _ & _ & _ & Hh & _).
  exists M, P. split_and!; [done|done|].
  by apply holder_binding_stage_None.
Qed.

(** X24: [verify_cvc] leaves the ledger as it was unless the policy
    of the CVC asks for anchoring, the chain is not empty and the chain
    stage succeeds; the ledger is then the one the chain stage leaves.
    The CVC itself may still be rejected after that, for its holder
    binding (E500) or while the VRO is built and signed (E900), with
    the chain already anchored. *)
Theorem verify_cvc_ledger w anchor cvc jwks jwks_verifier :
  (verify_cvc w anchor cvc jwks jwks_verifier).2 = anchor
  \/ exists P,
       cvc_P cvc = Some P
       /\ require_anchor P = Some true
       /\ default [] (cvc_Delta cvc) <> []
       /\ (verify_delegation_chain w anchor (default [] (cvc_Delta cvc))
             jwks P).1.1.1 = true
       /\ (verify_cvc w anchor cvc jwks jwks_verifier).2
          = (verify_delegation_chain w anchor (default [] (cvc_Delta cvc))
               jwks P).2
       /\ (verify_cvc w anchor cvc jwks jwks_verifier).1.1.2
            ∈ ["OK"; "E500"; "E900"].
Proof.
  unfold verify_cvc, verify_cvc_vro.
  destruct (structural_validation cvc required_fields); [by left|].
  destruct (cvc_M cvc) as [M|], (cvc_P cvc) as [P|],
    (cvc_I_issuer cvc) as [issuer_id|], (cvc_I_subject cvc) as [subject_id|];
    try by left.
  destruct (credential_stage w _ _ _ _ _) as [rc|vc_info]; [by left|].
  pose proof (chain_keeps_ledger w anchor (default [] (cvc_Delta cvc)) jwks P)
    as Hkeep.
  destruct (verify_delegation_chain w _ _ _ _) as [[[[] d] i] b] eqn:Ed;
    simpl in *.
  2: { left. apply Hkeep. by left. }
  destruct (require_anchor P) as [[]|] eqn:Hreq; simpl in Hkeep.
  2, 3: left; rewrite <- Hkeep by (right; by left);
        destruct (holder_binding_stage M P); [done|];
        destruct (build_vro M P vc_info i); [done|];
        by destruct (sign_vro w _ jwks_verifier).
  destruct (decide (default [] (cvc_Delta cvc) = [])) as [Hnil|Hne].
  { left. rewrite <- Hkeep by (right; by right).
    destruct (holder_binding_stage M P); [done|].
    destruct (build_vro M P vc_info i); [done|].
    by destruct (sign_vro w _ jwks_verifier). }
  right. exists P. rewrite Ed. split_and!; try done.
  - destruct (holder_binding_stage M P); [done|].
    destruct (build_vro M P vc_info i); [done|].
    by destruct (sign_vro w _ jwks_verifier).
  - destruct (holder_binding_stage M P) as [rh|] eqn:Eh.
    { simpl. rewrite (holder_binding_stage_code _ _ _ Eh). set_solver. }
    destruct (build_vro M P vc_info i) as [rb|vro] eqn:Eb.
    { simpl. rewrite (build_vro_code _ _ _ _ _ Eb). set_solver. }
    destruct (sign_vro w _ jwks_verifier); simpl; set_solver.
Qed.

(** ** verifier/crypto.py *)

Lemma find_key_Some keys_list kid key :
  Crypto.find_key keys_list kid = Some key <->
  exists pre post,
    keys_list = pre ++ key :: post
    /\ jwk_kid key = Some kid
    /\ Forall (fun k => jwk_kid k <> Some kid) pre.
Proof.
  induction keys_list as [|k rest IH]; simpl.
  - split; [done|]. intros (pre & post & H & _). by destruct pre.
  - case_bool_decide as Hk.
    + split.
      * intros [= <-]. by exists [], rest.
      * intros (pre & post & Heq & Hkid & Hpre).
        destruct pre as [|k' pre]; simpl in Heq.
        -- congruence.
        -- injection Heq as <- _. by apply Forall_cons_1 in Hpre as [? _].
    + rewrite IH. split.
      * intros (pre & post & -> & Hkid & Hpre). exists (k :: pre), post.
        split_and!; [done|done|]. by constructor.
      * intros (pre & post & Heq & Hkid & Hpre).
        destruct pre as [|k' pre]; simpl in Heq.
        -- injection Heq as -> _. done.
        -- injection Heq as <- ->. apply Forall_cons_1 in Hpre as [_ Hpre].
           by exists pre, post.
Qed.

Lemma find_key_existsb keys_list kid :
  existsb (fun key_data => bool_decide (jwk_kid key_data = Some kid)) keys_list
  = bool_decide (is_Some (Crypto.find_key keys_list kid)).
Proof.
  induction keys_list as [|k rest IH]; simpl; [done|].
  by destruct (bool_decide (jwk_kid k = Some kid)).
Qed.

(** X25: [jwks_get_key] and [key_exists_in_jwks] agree on which keys
    a JWKS file has. The probe answers [True] exactly when
    [jwks_get_key] goes on to convert a key, and that key is the first
    one of the file with the given [kid]; it answers [False] exactly
    when [jwks_get_key] raises [KeyNotFoundError] or cannot load the
    file. *)
Theorem key_probe_agrees_with_lookup lib w jwks_path kid :
  (key_exists_in_jwks w jwks_path kid = true <->
   exists data pre key post,
     read_jwks w jwks_path = Some data
     /\ default [] (keys data) = pre ++ key :: post
     /\ jwk_kid key = Some kid
     /\ Forall (fun k => jwk_kid k <> Some kid) pre
     /\ Crypto.jwks_get_key lib w jwks_path kid = Crypto._jwk_to_pem lib key)
  /\ (key_exists_in_jwks w jwks_path kid = false <->
      Crypto.jwks_get_key lib w jwks_path kid
      = inr (Crypto.KeyNotFoundError
               ("KID '" +:+ kid +:+ "' not found in JWKS: " +:+ jwks_path))
      \/ Crypto.jwks_get_key lib w jwks_path kid
         = inr (Crypto.CryptoError
                  ("Error loading JWKS from " +:+ jwks_path +:+ ": "
                   +:+ jwks_read_error lib jwks_path))).
Proof.
  unfold key_exists_in_jwks, Crypto.jwks_get_key.
  destruct (read_jwks w jwks_path) as [data|].
  2: { split; [|split; [by right | done]].
       split; [done|]. by intros (? & ? & ? & ? & ? & _). }
  rewrite find_key_existsb.
  destruct (Crypto.find_key (default [] (keys data)) kid) as [key|] eqn:Hfind.
  - rewrite bool_decide_eq_true_2 by by eexists.
    apply find_key_Some in Hfind as (pre & post & Hkeys & Hkid & Hpre).
    split.
    + split; [|done]. intros _. by exists data, pre, key, post.
    + split; [done|]. unfold Crypto._jwk_to_pem.
      intros [H|H]; repeat case_match; done.
  - rewrite bool_decide_eq_false_2 by (by intros [? ?]).
    split; [|split; [by left | done]].
    split; [done|]. intros (data' & pre & key & post & [= <-] & Hkeys & Hkid
                            & Hpre & _).
    assert (Crypto.find_key (default [] (keys data)) kid = Some key) as Hsome.
    { apply find_key_Some. by exists pre, post. }
    congruence.
Qed.

Lemma verify_jws_ok lib w token jwks_path header payload :
  Crypto.verify_jws lib w token jwks_path = inl (header, payload) ->
  get_unverified_header lib token = LibOk header
  /\ exists kid,
       hdr_kid header = Some kid /\ kid <> ""
       /\ key_exists_in_jwks w jwks_path kid = true.
Proof.
  unfold Crypto.verify_jws, Crypto.jwks_get_key.
  destruct (get_unverified_header lib token) as [h|e|e]; [|done|done].
  destruct (hdr_kid h) as [kid|] eqn:Hkid; simpl; [|done].
  destruct (decide (kid = "")) as [->|Hne]; [done|].
  rewrite (nonempty_true kid Hne); simpl.
  destruct (read_jwks w jwks_path) as [data|] eqn:Hread; [|done].
  destruct (Crypto.find_key (default [] (keys data)) kid) as [key|] eqn:Hfind;
    [|done].
  destruct (Crypto._jwk_to_pem lib key) as [pem|]; [|done].
  destruct (decode lib token pem); [|done|done].
  intros [= <- <-]. split; [done|]. exists kid.
  split_and!; [done|done|]. unfold key_exists_in_jwks.
  rewrite Hread, find_key_existsb, Hfind. done.
Qed.

(** X26: [verify_jws] returns header and payload exactly when the
    header can be read and names a non-empty [kid], the JWKS file
    loads and has a key with that [kid], the first such key has a
    non-empty [x] that converts to a PEM key, and [jwt.decode]
    accepts the token under that key. The payload is what [jwt.decode]
    returns, the header what [jwt.get_unverified_header] returns. *)
Theorem verify_jws_returns_iff lib w token jwks_path header payload :
  Crypto.verify_jws lib w token jwks_path = inl (header, payload) <->
  exists kid data key x pem,
    get_unverified_header lib token = LibOk header
    /\ hdr_kid header = Some kid /\ kid <> ""
    /\ read_jwks w jwks_path = Some data
    /\ Crypto.find_key (default [] (keys data)) kid = Some key
    /\ jwk_x key = Some x /\ x <> ""
    /\ pem_of_x_padded lib (Crypto.x_padded x) = inl pem
    /\ decode lib token pem = LibOk payload.
Proof.
  unfold Crypto.verify_jws, Crypto.jwks_get_key, Crypto._jwk_to_pem.
  split.
  - destruct (get_unverified_header lib token) as [h|e|e] eqn:Hh;
      [|done|done].
    destruct (hdr_kid h) as [kid|] eqn:Hkid; simpl; [|done].
    destruct (decide (kid = "")) as [->|Hne]; [done|].
    rewrite (nonempty_true kid Hne); simpl.
    destruct (read_jwks w jwks_path) as [data|] eqn:Hread; [|done].
    destruct (Crypto.find_key _ kid) as [key|] eqn:Hfind; [|done].
    destruct (jwk_x key) as [x|] eqn:Hjx; simpl; [|done].
    destruct (decide (x = "")) as [->|Hx]; [done|].
    rewrite (nonempty_true x Hx); simpl.
    destruct (pem_of_x_padded lib (Crypto.x_padded x)) as [pem|] eqn:Hpem;
      [|done].
    destruct (decode lib token pem) as [p|e|e] eqn:Hdec; [|done|done].
    intros [= <- <-]. by exists kid, data, key, x, pem.
  - intros (kid & data & key & x & pem & Hh & Hk & Hkid & Hread & Hfind & Hjx
            & Hx & Hpem & Hdec).
    rewrite Hh, Hk. simpl. rewrite (nonempty_true kid Hkid), Hread. simpl.
    simpl in Hfind. rewrite Hfind, Hjx. simpl.
    rewrite (nonempty_true x Hx). simpl. by rewrite Hpem, Hdec.
Qed.

Lemma str_length_app (a b : string) :
  String.length (a +:+ b) = (String.length a + String.length b)%nat.
Proof. induction a as [|c a IH]; simpl; [done | by rewrite IH]. Qed.

Lemma str_repeat_length (c : string) (n : nat) :
  String.length (str_repeat c n) = (n * String.length c)%nat.
Proof.
  induction n as [|n IH]; simpl; [done|]. by rewrite str_length_app, IH.
Qed.

(** X27: the base64url padding of [_jwk_to_pem] brings the length of
    [x] to a multiple of four by appending between one and four [=]
    signs; an [x] whose length is already a multiple of four gets
    four of them, not none. *)
Theorem x_padded_length (x : string) :
  exists n,
    Crypto.x_padded x = x +:+ str_repeat "=" n
    /\ (1 <= n <= 4)%nat
    /\ (String.length (Crypto.x_padded x) mod 4 = 0)%nat
    /\ ((String.length x mod 4 = 0)%nat <-> n = 4%nat).
Proof.
  exists (4 - String.length x mod 4)%nat.
  assert (String.length x mod 4 < 4)%nat as Hlt
    by (apply Nat.mod_upper_bound; lia).
  pose proof (Nat.div_mod_eq (String.length x) 4) as Hdiv.
  unfold Crypto.x_padded. rewrite str_length_app, str_repeat_length.
  change (String.length "=") with 1%nat.
  split_and!; [done|lia|lia| |lia].
  replace (String.length x + (4 - String.length x mod 4) * 1)%nat
    with ((String.length x / 4 + 1) * 4)%nat by lia.
  apply Nat.Div0.mod_mul.
Qed.

(** ** The chain verifier over verifier/crypto.py *)

(** X28: with [verify_jws] as crypto.py defines it, every element of
    a chain that verifies carries a header with a non-empty [kid]
    that the JWKS file lists: [key_exists_in_jwks] answers [True] for
    the signing key of each element, while the [kid] of the key
    binding is only logged. *)
Theorem verified_chain_kids_listed
    lib w anchor delta jwks policy code info anchor' :
  verify_delegation_chain (with_crypto lib w) anchor delta jwks policy
    = ((true, code, info), anchor') ->
  forall el,
    el ∈ delta ->
    exists header kid,
      get_unverified_header lib (raw el) = LibOk header
      /\ hdr_kid header = Some kid /\ kid <> ""
      /\ key_exists_in_jwks w jwks kid = true.
Proof.
  intros H el Hel. apply chain_success_each in H.
  rewrite Forall_forall in H.
  destruct (H el Hel) as (h & p & _ & Hv & _). simpl in Hv.
  destruct (Crypto.verify_jws lib w (raw el) jwks) as [[h' p']|e] eqn:E.
  - injection Hv as -> ->.
    apply verify_jws_ok in E as (Hh & kid & Hk & Hne & Hex).
    by exists h, kid.
  - by destruct e.
Qed.


(** ** gateway/adapters.py *)

(** X30: [parse_dg_jwts] keeps exactly the tokens that both
    [jwt.get_unverified_header] and the unverified [jwt.decode] accept,
    in their order, each with the header and payload the library
    returned and the token itself as [raw]; a token the library calls
    invalid is dropped without an error. It returns whenever the
    library raises nothing but [InvalidTokenError]. *)
Theorem parse_dg_jwts_keeps_decodable lib delegation_tokens :
  (forall parsed,
     Adapters.parse_dg_jwts lib delegation_tokens = inl parsed ->
     map raw parsed = List.filter (Adapters.decodable lib) delegation_tokens
     /\ Forall (fun el =>
                  get_unverified_header lib (raw el) = LibOk (hdr el)
                  /\ decode_unverified lib (raw el) = LibOk (pld el)) parsed)
  /\ ((forall token e,
         token ∈ delegation_tokens ->
         get_unverified_header lib token <> LibRaised e
         /\ decode_unverified lib token <> LibRaised e) ->
      exists parsed, Adapters.parse_dg_jwts lib delegation_tokens = inl parsed).
Proof.
  induction delegation_tokens as [|token rest [IH1 IH2]]; simpl.
  { split; [by intros parsed [= <-] | by exists []]. }
  unfold Adapters.decodable at 1.
  split.
  - intros parsed.
    destruct (get_unverified_header lib token) as [h|e|e] eqn:Hh;
      [|by apply IH1|done].
    destruct (decode_unverified lib token) as [p|e|e] eqn:Hp;
      [|by apply IH1|done].
    destruct (Adapters.parse_dg_jwts lib rest) as [parsed'|e]; [|done].
    intros [= <-]. destruct (IH1 parsed' eq_refl) as [Hraw Hall].
    simpl. split; [by rewrite Hraw|]. by constructor.
  - intros Hlib.
    destruct IH2 as [parsed' Hrest].
    { intros t e Ht. apply Hlib. by right. }
    rewrite Hrest.
    destruct (get_unverified_header lib token) as [h|e|e] eqn:Hh.
    + destruct (decode_unverified lib token) as [p|e|e] eqn:Hp; eauto.
      by destruct (Hlib token e) as [_ ?]; [left|].
    + eauto.
    + by destruct (Hlib token e) as [? _]; [left|].
Qed.

End Verifier.

(** * The properties on the sample inputs *)

Lemma scope_containment_enforced_sample :
  verify_delegation_chain sample_sha256 sample_json_dumps sample_dumps_payload
    (sample_world 1735600100) None
    [sample_element "dg.view-pay"; sample_element "dg.view-pay-admin"]
    "issuer.jwks" (sample_policy None)
  = ((false, "E400", [("index", JInt 1)]), None).
Proof.
  apply (proj1 (proj2 (scope_containment_enforced sample_sha256
                         sample_json_dumps sample_dumps_payload
                         (sample_world 1735600100) None
                         [sample_element "dg.view-pay";
                          sample_element "dg.view-pay-admin"]
                         "issuer.jwks" (sample_policy None)))
           [] (sample_element "dg.view-pay")
           (sample_element "dg.view-pay-admin") []
           [sample_delegation "did:example:agent1" 1700000000 1800000000
              ["view"; "pay"] None None]
           (sample_delegation "did:example:agent1" 1700000000 1800000000
              ["view"; "pay"] None None)
           (sample_delegation "did:example:agent2" 1700000000 1800000000
              ["view"; "pay"; "admin"] None None)).
  - reflexivity.
  - simpl. lia.
  - vm_compute. reflexivity.
  - exists sample_header. reflexivity.
  - split; [exists sample_header; reflexivity|].
    split; [reflexivity|]. split; reflexivity.
  - intros H. apply scope_subset_spec in H. vm_compute in H. discriminate H.
Defined.

Lemma depth_check_comes_first_sample :
  verify_delegation_chain sample_sha256 sample_json_dumps sample_dumps_payload
    (sample_world 1735600100) None
    [sample_element "dg.view-pay"; sample_element "dg.view";
     sample_element "dg.view"; sample_element "dg.view"]
    "issuer.jwks" (sample_policy None)
  = ((false, "E300", [("max_depth", JInt 3); ("actual", JInt 4)]), None).
Proof.
  apply (depth_check_comes_first sample_sha256 sample_json_dumps
           sample_dumps_payload (sample_world 1735600100) None
           [sample_element "dg.view-pay"; sample_element "dg.view";
            sample_element "dg.view"; sample_element "dg.view"]
           "issuer.jwks" (sample_policy None)).
  - discriminate.
  - simpl. lia.
Defined.

Lemma status_fetch_error_policy_sample :
  verify_vc_jwt (sample_world 1735600100) {| jwt := "vc.status" |}
    "issuer.jwks" (sample_policy None)
  = (false, "E300",
     [("error", JStr "Status file not found: /srv/gateway/fixtures/status/statuslist2021_active.json");
      ("index", JInt 7)])
  /\ verify_vc_jwt (sample_world 1735600100) {| jwt := "vc.status" |}
       "issuer.jwks" (sample_policy (Some false))
     = (true, "OK", [("iss", JStr "did:example:bank");
                     ("sub", JStr "did:example:alice")])
  /\ verify_delegation_chain sample_sha256 sample_json_dumps
       sample_dumps_payload (sample_world 1735600100) None
       [sample_element "dg.status"] "issuer.jwks" (sample_policy (Some true))
     = ((false, "E300",
         [("index", JInt 0);
          ("error", JStr "Status file not found: /srv/gateway/fixtures/status/statuslist2021_active.json")]),
        None).
Proof.
  split; [|split].
  - destruct (status_fetch_error_policy sample_sha256 sample_json_dumps
                sample_dumps_payload (sample_world 1735600100) None
                "issuer.jwks" (sample_policy None)) as (_ & _ & Hvc & _).
    apply (Hvc {| jwt := "vc.status" |} sample_header
             (sample_credential
                (Some {| statusListCredential := Some "https://status.example/vc";
                         statusListIndex := Some 7 |}))
             {| credentialStatus :=
                  Some {| statusListCredential := Some "https://status.example/vc";
                          statusListIndex := Some 7 |} |}
             {| statusListCredential := Some "https://status.example/vc";
                statusListIndex := Some 7 |}
             "https://status.example/vc"
             "Status file not found: /srv/gateway/fixtures/status/statuslist2021_active.json");
      try reflexivity.
    + simpl. lia.
    + discriminate.
    + discriminate.
  - destruct (status_fetch_error_policy sample_sha256 sample_json_dumps
                sample_dumps_payload (sample_world 1735600100) None
                "issuer.jwks" (sample_policy (Some false))) as (_ & _ & Hvc & _).
    apply (Hvc {| jwt := "vc.status" |} sample_header
             (sample_credential
                (Some {| statusListCredential := Some "https://status.example/vc";
                         statusListIndex := Some 7 |}))
             {| credentialStatus :=
                  Some {| statusListCredential := Some "https://status.example/vc";
                          statusListIndex := Some 7 |} |}
             {| statusListCredential := Some "https://status.example/vc";
                statusListIndex := Some 7 |}
             "https://status.example/vc"
             "Status file not found: /srv/gateway/fixtures/status/statuslist2021_active.json");
      try reflexivity.
    + simpl. lia.
    + discriminate.
  - destruct (status_fetch_error_policy sample_sha256 sample_json_dumps
                sample_dumps_payload (sample_world 1735600100) None
                "issuer.jwks" (sample_policy (Some true))) as (_ & _ & _ & Hdg).
    apply (Hdg [] (sample_element "dg.status") [] [] sample_header
             (sample_delegation "did:example:agent1" 1700000000 1800000000
                ["view"] None
                (Some {| url := Some "https://status.example/dg/1" |}))
             {| scope := Some {| resource := Some "account:123";
                                 actions := Some ["view"] |};
                key_binding := None;
                status := Some {| url := Some "https://status.example/dg/1" |} |}
             {| url := Some "https://status.example/dg/1" |}
             "https://status.example/dg/1"
             "Status file not found: /srv/gateway/fixtures/status/statuslist2021_active.json");
      try reflexivity.
    + simpl. lia.
    + discriminate.
    + discriminate.
Defined.

(** A CVC without [Delta] is not a structural error: it verifies. *)
Lemma missing_Delta_verifies :
  cvc_contains (sample_cvc "VC-JWT" None (Some (JList []))) "Delta" = false
  /\ verify_cvc sample_sha256 sample_json_dumps sample_dumps_payload
       (sample_world 1735600100) None
       (sample_cvc "VC-JWT" None (Some (JList [])))
       "issuer.jwks" "verifier.jwks"
     = ((true, "OK", [("vro_jwt", JStr "eyJ.vro.sig")]), None).
Proof. split; reflexivity. Qed.

Lemma structural_stage_required_fields_sample :
  exists missing,
    missing ∈ required_fields
    /\ cvc_contains (sample_cvc "VC-JWT" (Some []) None) missing = false
    /\ forall w anchor jwks jwks_verifier,
         verify_cvc sample_sha256 sample_json_dumps sample_dumps_payload
           w anchor (sample_cvc "VC-JWT" (Some []) None) jwks jwks_verifier
         = ((false, "100", [("msg", JStr ("missing " +:+ missing))]), anchor).
Proof.
  apply (proj1 (proj2 (structural_stage_required_fields sample_sha256
                         sample_json_dumps sample_dumps_payload
                         (sample_cvc "VC-JWT" (Some []) None))) "pi").
  - unfold required_fields. repeat constructor.
  - reflexivity.
Defined.

Lemma vro_deterministic_sample :
  exists vro,
    verify_cvc_vro sample_sha256 sample_json_dumps sample_dumps_payload
      (sample_world 1735600100) None
      (sample_cvc "VC-JWT"
         (Some [sample_element "dg.view-pay"; sample_element "dg.view"])
         (Some (JList [])))
      "issuer.jwks" = (inr vro, None)
    /\ verify_cvc_vro sample_sha256 sample_json_dumps sample_dumps_payload
         (sample_world 1735699999) (Some empty_ledger)
         (sample_cvc "VC-JWT"
            (Some [sample_element "dg.view-pay"; sample_element "dg.view"])
            (Some (JList [])))
         "issuer.jwks" = (inr vro, Some empty_ledger)
    /\ dict_lookup "timestamp" vro = Some (JInt 1735600000)
    /\ DETERMINISTIC_TIMESTAMP = 1735600000.
Proof.
  apply (vro_deterministic sample_sha256 sample_json_dumps sample_dumps_payload
           (sample_world 1735600100) (sample_world 1735699999)
           None (Some empty_ledger)
           (sample_cvc "VC-JWT"
              (Some [sample_element "dg.view-pay"; sample_element "dg.view"])
              (Some (JList [])))
           "issuer.jwks" "verifier.jwks"
           "OK" "OK" [("vro_jwt", JStr "eyJ.vro.sig")]
           [("vro_jwt", JStr "eyJ.vro.sig")] None (Some empty_ledger)).
  - intros token path. reflexivity.
  - vm_compute. reflexivity.
  - vm_compute. reflexivity.
Defined.

Lemma anchor_idempotent_sample :
  (exists stored self1,
     anchor_chain_fingerprint sample_sha256 sample_json_dumps
       (sample_world 1735600100) empty_ledger "9f86d081884c7d65" None
     = (inl stored, self1)
     /\ anchor_chain_fingerprint sample_sha256 sample_json_dumps
          (sample_world 1735600200) self1 "9f86d081884c7d65"
          (Some [("depth", JInt 2)])
        = (inl stored, self1))
  /\ verify_anchor
       (anchor_chain_fingerprint sample_sha256 sample_json_dumps
          (sample_world 1735600100)
          (replay sample_sha256 sample_json_dumps
             [(sample_world 1735600000, "2c26b46b68ffc68f", None)])
          "9f86d081884c7d65" None).2
       "9f86d081884c7d65" None
     = (true, None).
Proof.
  destruct (anchor_idempotent sample_sha256 sample_json_dumps
              (sample_world 1735600100) (sample_world 1735600200)
              "9f86d081884c7d65" None (Some [("depth", JInt 2)]))
    as (Htwice & _ & Hverify).
  - discriminate.
  - split.
    + apply (Htwice empty_ledger).
    + apply (Hverify [(sample_world 1735600000, "2c26b46b68ffc68f", None)]).
Defined.

Lemma expired_delegation_fails_in_verify_jws_sample :
  exists msg,
    verify_delegation_chain sample_sha256 sample_json_dumps
      sample_dumps_payload
      (with_crypto
         (with_default_options sample_signatures (fun _ => 1735600100))
         (sample_world 1735600100))
      None ([] ++ sample_element "dg.expired" :: []) "issuer.jwks"
      (sample_policy None)
    = ((false, "100",
        [index_info (length (@nil ParsedDelegation));
         ("error", JStr ("JWT verification failed: " +:+ msg))]), None)
    /\ (msg = "Signature has expired"
        \/ msg = "The token is not yet valid (nbf)")
    /\ check_delegation (with_crypto sample_signatures (sample_world 1735600100))
         "issuer.jwks" (sample_policy None)
         (clock_dg (sample_world 1735600100))
         (length (@nil ParsedDelegation)) (sample_element "dg.expired") []
       = Return (false, "E300", [index_info (length (@nil ParsedDelegation))]).
Proof.
  apply (expired_delegation_fails_in_verify_jws sample_sha256
           sample_json_dumps sample_dumps_payload sample_signatures
           (fun _ => 1735600100) (sample_world 1735600100) None
           "issuer.jwks" (sample_policy None) []
           (sample_element "dg.expired") [] [] sample_header
           (sample_delegation "did:example:agent1" 1600000000 1650000000
              ["view"] None None)
           1650000000).
  - simpl. lia.
  - reflexivity.
  - reflexivity.
  - reflexivity.
  - simpl. lia.
  - simpl. lia.
Defined.

Lemma key_binding_fail_open_sample :
  verify_delegation_chain sample_sha256 sample_json_dumps sample_dumps_payload
    (sample_world 1735600100) None [sample_element "dg.no-kid"]
    "issuer.jwks" (sample_policy None)
  = ((false, "E200", [("index", JInt 0); ("reason", JStr "missing_kid")]), None)
  /\ key_exists_in_jwks (sample_world 1735600100) "issuer.jwks" "agent-key-7"
     = false
  /\ key_binding_stage (sample_world 1735600100) "issuer.jwks" 0
       (sample_delegation "did:example:agent1" 1700000000 1800000000
          ["view"] (Some {["kid" := "agent-key-7"]}) None)
     = None.
Proof.
  destruct (key_binding_fail_open sample_sha256 sample_json_dumps
              sample_dumps_payload (sample_world 1735600100) None
              "issuer.jwks" (sample_policy None))
    as (_ & Hmissing & Hopen & _).
  split; [|split].
  - apply (Hmissing [] (sample_element "dg.no-kid") [] [] sample_header
             (sample_delegation "did:example:agent1" 1700000000 1800000000
                ["view"] (Some {["alg" := "EdDSA"]}) None)
             {| scope := Some {| resource := Some "account:123";
                                 actions := Some ["view"] |};
                key_binding := Some {["alg" := "EdDSA"]};
                status := None |}
             {["alg" := "EdDSA"]}); try reflexivity.
    + simpl. lia.
    + intros H. apply (f_equal (fun m => m !! "alg")) in H.
      vm_compute in H. discriminate H.
    + left. reflexivity.
  - reflexivity.
  - apply (Hopen 0%nat
             (sample_delegation "did:example:agent1" 1700000000 1800000000
                ["view"] (Some {["kid" := "agent-key-7"]}) None)
             {| scope := Some {| resource := Some "account:123";
                                 actions := Some ["view"] |};
                key_binding := Some {["kid" := "agent-key-7"]};
                status := None |}
             {["kid" := "agent-key-7"]} "agent-key-7"); try reflexivity.
    discriminate.
Defined.

Lemma empty_chain_verifies_sample :
  exists vro,
    verify_cvc_vro sample_sha256 sample_json_dumps sample_dumps_payload
      (sample_world 1735600100) None
      (sample_cvc "VC-JWT" (Some []) (Some (JList []))) "issuer.jwks"
    = (inr vro, None)
    /\ dict_lookup "delegation_chain_depth" vro = Some (JInt 0)
    /\ dict_lookup "chain_fingerprint" vro = Some JNull
    /\ forall signed,
         jwt_encode (sample_world 1735600100) vro = inl signed ->
         verify_cvc sample_sha256 sample_json_dumps sample_dumps_payload
           (sample_world 1735600100) None
           (sample_cvc "VC-JWT" (Some []) (Some (JList [])))
           "issuer.jwks" "verifier.jwks"
         = ((true, "OK", [("vro_jwt", JStr signed)]), None).
Proof.
  apply (proj2 (proj2 (empty_chain_verifies sample_sha256 sample_json_dumps
                         sample_dumps_payload (sample_world 1735600100) None
                         "issuer.jwks" (sample_policy None)))
           (sample_cvc "VC-JWT" (Some []) (Some (JList []))) "verifier.jwks"
           (sample_metadata "VC-JWT") (sample_policy None) "vc.plain" "OK"
           [("iss", JStr "did:example:bank"); ("sub", JStr "did:example:alice")]
           "1735600000123" "P-001"); try reflexivity.
  discriminate.
Defined.

(** * The verifier on the sample inputs *)

Example chain_of_two_verifies :
  verify_delegation_chain sample_sha256 sample_json_dumps sample_dumps_payload
    (sample_world 1735600100) None
    [sample_element "dg.view-pay"; sample_element "dg.view"]
    "issuer.jwks" (sample_policy None)
  = ((true, "OK",
      [("depth", JInt 2);
       ("chain_fingerprint",
        JStr "sha256:did:example:agent1did:example:agent2")]), None).
Proof. reflexivity. Qed.

Example expired_delegation_gets_code_100 :
  verify_delegation_chain sample_sha256 sample_json_dumps sample_dumps_payload
    (with_crypto
       (with_default_options sample_signatures (fun _ => 1735600100))
       (sample_world 1735600100))
    None [sample_element "dg.expired"] "issuer.jwks" (sample_policy None)
  = ((false, "100",
      [("index", JInt 0);
       ("error", JStr "JWT verification failed: Signature has expired")]),
     None).
Proof. reflexivity. Qed.

Example delegation_without_exp_fails_dg_time :
  verify_delegation_chain sample_sha256 sample_json_dumps sample_dumps_payload
    (with_crypto
       (with_default_options sample_signatures (fun _ => 1735600100))
       (sample_world 1735600100))
    None [sample_element "dg.no-exp"] "issuer.jwks" (sample_policy None)
  = ((false, "E300", [("index", JInt 0)]), None).
Proof. reflexivity. Qed.

Example revoked_delegation_fails :
  verify_delegation_chain sample_sha256 sample_json_dumps sample_dumps_payload
    (sample_world_with_status 1735600100) None
    [sample_element "dg.revoked"] "issuer.jwks" (sample_policy None)
  = ((false, "E300", [("index", JInt 0)]), None).
Proof. reflexivity. Qed.

Example active_status_passes :
  verify_vc_jwt (sample_world_with_status 1735600100) {| jwt := "vc.status" |}
    "issuer.jwks" (sample_policy None)
  = (true, "OK", [("iss", JStr "did:example:bank");
                  ("sub", JStr "did:example:alice")]).
Proof. reflexivity. Qed.

Example unknown_token_is_structural :
  verify_delegation_chain sample_sha256 sample_json_dumps sample_dumps_payload
    (sample_world 1735600100) None
    [sample_element "dg.view-pay"; sample_element "garbage"]
    "issuer.jwks" (sample_policy None)
  = ((false, "100",
      [("index", JInt 1);
       ("error", JStr "JWT verification failed: Not enough segments")]), None).
Proof. reflexivity. Qed.

Example anchoring_on_request :
  (verify_delegation_chain sample_sha256 sample_json_dumps sample_dumps_payload
     (sample_world 1735600100) (Some empty_ledger)
     [sample_element "dg.view-pay"; sample_element "dg.view"]
     "issuer.jwks"
     {| policy_id := Some "P-002"; alg_allowlist := None;
        clock_skew_seconds := None; status_required := None;
        max_delegation_depth := Some 2; require_anchor := Some true;
        holder_binding_required := None |}).2
  = Some {| in_memory_anchors :=
              {["sha256:did:example:agent1did:example:agent2" :=
                 {| block_hash :=
                      "sha256:fingerprint,metadata,timestamp,block_number";
                    block_number := 1;
                    transaction_hash :=
                      "sha256:sha256:did:example:agent1did:example:agent217356001001";
                    timestamp := 1735600100;
                    proof :=
                      {| proof_type := "mock_blockchain";
                         proof_fingerprint :=
                           "sha256:did:example:agent1did:example:agent2";
                         proof_block_hash :=
                           "sha256:fingerprint,metadata,timestamp,block_number";
                         chain_position := 1 |} |}]};
            chain :=
              [{| entry_block_hash :=
                    "sha256:fingerprint,metadata,timestamp,block_number";
                  entry_block_number := 1;
                  entry_fingerprint :=
                    "sha256:did:example:agent1did:example:agent2";
                  entry_timestamp := 1735600100 |}] |}.
Proof. reflexivity. Qed.

Example holder_binding_required_by_default :
  (verify_cvc sample_sha256 sample_json_dumps sample_dumps_payload
     (sample_world 1735600100) None
     {| cvc_I_issuer := Some "did:example:bank";
        cvc_I_subject := Some "did:example:alice";
        cvc_C := Some (JList []);
        cvc_pi := Some (JList []);
        cvc_Delta := Some [];
        cvc_P := Some {| policy_id := Some "P-003"; alg_allowlist := None;
                         clock_skew_seconds := None; status_required := None;
                         max_delegation_depth := None; require_anchor := None;
                         holder_binding_required := None |};
        cvc_S := Some (JDict []);
        cvc_M := Some (sample_metadata "VC-JWT") |}
     "issuer.jwks" "verifier.jwks").1
  = (false, "E500", [("reason", JStr "missing_holder_binding")]).
Proof. reflexivity. Qed.

(** * The further properties on the sample inputs *)

Lemma get_anchor_proof_after_anchor_sample :
  exists stored,
    (anchor_chain_fingerprint sample_sha256 sample_json_dumps
       (sample_world 1735600100) empty_ledger "9f86d081884c7d65" None).1
    = inl stored
    /\ get_anchor_proof
         (anchor_chain_fingerprint sample_sha256 sample_json_dumps
            (sample_world 1735600100) empty_ledger "9f86d081884c7d65" None).2
         "9f86d081884c7d65"
       = Some stored
    /\ forall g,
         g <> "9f86d081884c7d65" ->
         get_anchor_proof
           (anchor_chain_fingerprint sample_sha256 sample_json_dumps
              (sample_world 1735600100) empty_ledger "9f86d081884c7d65"
              None).2 g
         = get_anchor_proof empty_ledger g.
Proof.
  apply (get_anchor_proof_after_anchor sample_sha256 sample_json_dumps
           (sample_world 1735600100) empty_ledger "9f86d081884c7d65" None).
  discriminate.
Defined.

Lemma verify_anchor_with_proof_sample :
  exists stored,
    get_anchor_proof
      (replay sample_sha256 sample_json_dumps
         [(sample_world 1735600000, "2c26b46b68ffc68f", None)])
      "2c26b46b68ffc68f" = Some stored
    /\ verify_anchor
         (replay sample_sha256 sample_json_dumps
            [(sample_world 1735600000, "2c26b46b68ffc68f", None)])
         "2c26b46b68ffc68f" (Some stored)
       = (true, None).
Proof.
  eexists. split; [reflexivity|].
  eapply (proj2 (proj1 (verify_anchor_with_proof
                          (replay sample_sha256 sample_json_dumps
                             [(sample_world 1735600000, "2c26b46b68ffc68f",
                               None)])
                          "2c26b46b68ffc68f" _ _
                          ltac:(discriminate)
                          (replay_consistent sample_sha256 sample_json_dumps
                             [(sample_world 1735600000, "2c26b46b68ffc68f",
                               None)])
                          ltac:(reflexivity)))).
  split; reflexivity.
Defined.

Lemma chain_verifies_iff_sample :
  (verify_delegation_chain sample_sha256 sample_json_dumps sample_dumps_payload
     (sample_world 1735600100) None
     [sample_element "dg.view-pay"; sample_element "dg.view"]
     "issuer.jwks" (sample_policy None)).1.1.1 = true.
Proof.
  apply (proj2 (chain_verifies_iff sample_sha256 sample_json_dumps
                  sample_dumps_payload (sample_world 1735600100) None
                  [sample_element "dg.view-pay"; sample_element "dg.view"]
                  "issuer.jwks" (sample_policy None)
                  ltac:(discriminate))).
  right. split; [simpl; lia|].
  exists [sample_delegation "did:example:agent1" 1700000000 1800000000
            ["view"; "pay"] None None;
          sample_delegation "did:example:agent2" 1700000000 1800000000
            ["view"] None None].
  split.
  - repeat constructor; try (exists sample_header; reflexivity);
      try (simpl; lia); try (left; reflexivity).
  - intros [|[|k]] prev cur; simpl; try discriminate.
    intros [= <-] [= <-]. apply scope_subset_spec. vm_compute. reflexivity.
Defined.

Lemma chain_success_result_sample :
  exists payloads,
    Forall2 (verified (sample_world 1735600100) "issuer.jwks")
      [sample_element "dg.view-pay"; sample_element "dg.view"] payloads
    /\ [("depth", JInt 2);
        ("chain_fingerprint",
         JStr "sha256:did:example:agent1did:example:agent2")]
       = [("depth",
           JInt (Z.of_nat (length [sample_element "dg.view-pay";
                                   sample_element "dg.view"])));
          ("chain_fingerprint",
           JStr (sample_sha256
                   (String.concat "" (map sample_dumps_payload payloads))))].
Proof.
  destruct (chain_success_result sample_sha256 sample_json_dumps
              sample_dumps_payload (sample_world 1735600100) None
              [sample_element "dg.view-pay"; sample_element "dg.view"]
              "issuer.jwks" (sample_policy None) "OK"
              [("depth", JInt 2);
               ("chain_fingerprint",
                JStr "sha256:did:example:agent1did:example:agent2")]
              None)
    as (_ & _ & H).
  - reflexivity.
  - apply H. discriminate.
Defined.

Lemma verified_chain_within_earlier_scopes_sample :
  exists pi pj,
    verified (sample_world 1735600100) "issuer.jwks"
      (sample_element "dg.view-pay") pi
    /\ verified (sample_world 1735600100) "issuer.jwks"
         (sample_element "dg.view") pj
    /\ resource (scope_of pj) = resource (scope_of pi)
    /\ forall a,
         a ∈ default [] (actions (scope_of pj)) ->
         a ∈ default [] (actions (scope_of pi)).
Proof.
  apply (verified_chain_within_earlier_scopes sample_sha256 sample_json_dumps
           sample_dumps_payload (sample_world 1735600100) None
           [sample_element "dg.view-pay"; sample_element "dg.view"]
           "issuer.jwks" (sample_policy None) "OK"
           [("depth", JInt 2);
            ("chain_fingerprint",
             JStr "sha256:did:example:agent1did:example:agent2")]
           None eq_refl 0%nat 1%nat).
  - lia.
  - reflexivity.
  - reflexivity.
Defined.

Lemma chain_segment_verifies_sample :
  (verify_delegation_chain sample_sha256 sample_json_dumps sample_dumps_payload
     (sample_world 1735600100) (Some empty_ledger)
     [sample_element "dg.view"] "issuer.jwks" (sample_policy None)).1.1.1
  = true.
Proof.
  apply (chain_segment_verifies sample_sha256 sample_json_dumps
           sample_dumps_payload (sample_world 1735600100) None
           (Some empty_ledger) [sample_element "dg.view-pay"]
           [sample_element "dg.view"] [] "issuer.jwks" (sample_policy None)).
  - discriminate.
  - reflexivity.
Defined.

Lemma rejected_chain_leaves_ledger_sample :
  (verify_delegation_chain sample_sha256 sample_json_dumps sample_dumps_payload
     (sample_world 1735600100) (Some empty_ledger)
     [sample_element "dg.expired"] "issuer.jwks" sample_anchor_policy).2
  = Some empty_ledger.
Proof.
  apply (rejected_chain_leaves_ledger sample_sha256 sample_json_dumps
           sample_dumps_payload (sample_world 1735600100) (Some empty_ledger)
           [sample_element "dg.expired"] "issuer.jwks" sample_anchor_policy).
  left. reflexivity.
Defined.

Lemma chain_outcome_ignores_ledger_sample :
  (verify_delegation_chain sample_sha256 sample_json_dumps sample_dumps_payload
     (sample_world 1735600100) None
     [sample_element "dg.view-pay"; sample_element "dg.view"]
     "issuer.jwks" sample_anchor_policy).1
  = (verify_delegation_chain sample_sha256 sample_json_dumps
       sample_dumps_payload (sample_world 1735600100) (Some empty_ledger)
       [sample_element "dg.view-pay"; sample_element "dg.view"]
       "issuer.jwks" sample_anchor_policy).1.
Proof.
  apply (chain_outcome_ignores_ledger sample_sha256 sample_json_dumps
           sample_dumps_payload (sample_world 1735600100) None
           (Some empty_ledger)
           [sample_element "dg.view-pay"; sample_element "dg.view"]
           "issuer.jwks" sample_anchor_policy).
  discriminate.
Defined.

Lemma verified_chain_is_anchored_sample :
  exists ledger' fingerprint,
    (verify_delegation_chain sample_sha256 sample_json_dumps
       sample_dumps_payload (sample_world 1735600100) (Some empty_ledger)
       [sample_element "dg.view-pay"; sample_element "dg.view"]
       "issuer.jwks" sample_anchor_policy).2 = Some ledger'
    /\ dict_lookup "chain_fingerprint"
         [("depth", JInt 2);
          ("chain_fingerprint",
           JStr "sha256:did:example:agent1did:example:agent2")]
       = Some (JStr fingerprint)
    /\ fingerprint <> ""
    /\ is_Some (get_anchor_proof ledger' fingerprint)
    /\ (ledger_consistent empty_ledger ->
        ledger_consistent ledger'
        /\ verify_anchor ledger' fingerprint None = (true, None)).
Proof.
  apply (verified_chain_is_anchored sample_sha256 sample_json_dumps
           sample_dumps_payload (sample_world 1735600100) empty_ledger
           [sample_element "dg.view-pay"; sample_element "dg.view"]
           "issuer.jwks" sample_anchor_policy "OK").
  - discriminate.
  - reflexivity.
  - reflexivity.
Defined.

Lemma reverification_adds_no_block_sample :
  (verify_delegation_chain sample_sha256 sample_json_dumps sample_dumps_payload
     (sample_world 1735700000)
     (Some (default empty_ledger
              (verify_delegation_chain sample_sha256 sample_json_dumps
                 sample_dumps_payload (sample_world 1735600100)
                 (Some empty_ledger)
                 [sample_element "dg.view-pay"; sample_element "dg.view"]
                 "issuer.jwks" sample_anchor_policy).2))
     [sample_element "dg.view-pay"; sample_element "dg.view"]
     "issuer.jwks" sample_relaxed_policy).2
  = Some (default empty_ledger
            (verify_delegation_chain sample_sha256 sample_json_dumps
               sample_dumps_payload (sample_world 1735600100)
               (Some empty_ledger)
               [sample_element "dg.view-pay"; sample_element "dg.view"]
               "issuer.jwks" sample_anchor_policy).2).
Proof.
  apply (reverification_adds_no_block sample_sha256 sample_json_dumps
           sample_dumps_payload (sample_world 1735600100)
           (sample_world 1735700000) empty_ledger
           [sample_element "dg.view-pay"; sample_element "dg.view"]
           "issuer.jwks" sample_anchor_policy sample_relaxed_policy "OK"
           [("depth", JInt 2);
            ("chain_fingerprint",
             JStr "sha256:did:example:agent1did:example:agent2")]).
  - reflexivity.
  - reflexivity.
  - reflexivity.
Defined.

Lemma chain_reads_raw_tokens_only_sample :
  verify_delegation_chain sample_sha256 sample_json_dumps sample_dumps_payload
    (sample_world 1735600100) None [sample_element "dg.view-pay"]
    "issuer.jwks" (sample_policy None)
  = verify_delegation_chain sample_sha256 sample_json_dumps
      sample_dumps_payload (sample_world 1735600100) None
      [{| hdr := {| alg := Some "none"; hdr_kid := None |};
          pld := sample_credential None;
          raw := "dg.view-pay" |}]
      "issuer.jwks" (sample_policy None).
Proof.
  apply (chain_reads_raw_tokens_only sample_sha256 sample_json_dumps
           sample_dumps_payload (sample_world 1735600100) None
           [sample_element "dg.view-pay"]
           [{| hdr := {| alg := Some "none"; hdr_kid := None |};
               pld := sample_credential None;
               raw := "dg.view-pay" |}]
           "issuer.jwks" (sample_policy None)).
  reflexivity.
Defined.

Lemma chain_ignores_principals_sample :
  (verify_delegation_chain sample_sha256 sample_json_dumps sample_dumps_payload
     (relabel (sample_world 1735600100)
        (fun _ => (Some "did:example:mallory", Some "did:example:mallory")))
     None [sample_element "dg.view-pay"; sample_element "dg.view"]
     "issuer.jwks" (sample_policy None)).1.1
  = (verify_delegation_chain sample_sha256 sample_json_dumps
       sample_dumps_payload (sample_world 1735600100) None
       [sample_element "dg.view-pay"; sample_element "dg.view"]
       "issuer.jwks" (sample_policy None)).1.1.
Proof.
  apply (chain_ignores_principals sample_sha256 sample_json_dumps
           sample_dumps_payload (sample_world 1735600100)
           (fun _ => (Some "did:example:mallory", Some "did:example:mallory"))
           None None [sample_element "dg.view-pay"; sample_element "dg.view"]
           "issuer.jwks" (sample_policy None)).
  discriminate.
Defined.

Lemma revoked_url_never_verifies_sample :
  (verify_delegation_chain sample_sha256 sample_json_dumps sample_dumps_payload
     (sample_world_with_status 1735600100) None
     [sample_element "dg.view-pay"; sample_element "dg.revoked"]
     "issuer.jwks" (sample_policy (Some false))).1.1.1 = false.
Proof.
  apply (revoked_url_never_verifies sample_sha256 sample_json_dumps
           sample_dumps_payload (sample_world_with_status 1735600100) None
           [sample_element "dg.view-pay"; sample_element "dg.revoked"]
           "issuer.jwks" (sample_policy (Some false))
           {| encodedList := Some "H4sIAAAAAAAAA/////8AAAD" |}
           (sample_element "dg.revoked") sample_header
           (sample_delegation "did:example:agent1" 1700000000 1800000000
              ["view"] None
              (Some {| url := Some "https://status.example/revoked/1" |}))).
  - reflexivity.
  - reflexivity.
  - repeat constructor.
  - reflexivity.
  - reflexivity.
Defined.

Lemma relaxed_policy_keeps_credential_sample :
  verify_vc_jwt (sample_world 1735600100) {| jwt := "vc.plain" |}
    "issuer.jwks" sample_relaxed_policy
  = (true, "OK", [("iss", JStr "did:example:bank");
                  ("sub", JStr "did:example:alice")]).
Proof.
  apply (relaxed_policy_keeps_credential (sample_world 1735600100)
           {| jwt := "vc.plain" |} "issuer.jwks" (sample_policy None)
           sample_relaxed_policy).
  - intros a Ha. simpl in *. apply list_elem_of_singleton in Ha.
    rewrite Ha. repeat constructor.
  - simpl. lia.
  - simpl. discriminate.
  - reflexivity.
Defined.

Lemma relaxed_policy_keeps_chain_sample :
  (verify_delegation_chain sample_sha256 sample_json_dumps sample_dumps_payload
     (sample_world 1735600100) (Some empty_ledger)
     [sample_element "dg.view-pay"; sample_element "dg.status"]
     "issuer.jwks" sample_relaxed_policy).1
  = (verify_delegation_chain sample_sha256 sample_json_dumps
       sample_dumps_payload (sample_world 1735600100) None
       [sample_element "dg.view-pay"; sample_element "dg.status"]
       "issuer.jwks" (sample_policy (Some false))).1.
Proof.
  apply (relaxed_policy_keeps_chain sample_sha256 sample_json_dumps
           sample_dumps_payload (sample_world 1735600100) None
           (Some empty_ledger)
           [sample_element "dg.view-pay"; sample_element "dg.status"]
           "issuer.jwks" (sample_policy (Some false)) sample_relaxed_policy).
  - discriminate.
  - simpl. lia.
  - simpl. discriminate.
  - reflexivity.
Defined.

Lemma verified_cvc_vro_sample :
  exists fingerprint payloads,
    Forall2 (verified (sample_world 1735600100) "issuer.jwks")
      [sample_element "dg.view-pay"; sample_element "dg.view"] payloads
    /\ fingerprint
       = JStr (chain_fingerprint_of sample_sha256 sample_dumps_payload
                 payloads).
Proof.
  destruct (verified_cvc_vro sample_sha256 sample_json_dumps
              sample_dumps_payload (sample_world 1735600100) None
              (sample_cvc_with
                 [sample_element "dg.view-pay"; sample_element "dg.view"]
                 (sample_policy None) None)
              "issuer.jwks" "verifier.jwks" "OK"
              [("vro_jwt", JStr "eyJ.vro.sig")] None)
    as (M & P & rid & pid & issuer & subject & fingerprint & token
        & _ & _ & _ & _ & _ & _ & _ & _ & H).
  - reflexivity.
  - exists fingerprint. apply H. discriminate.
Defined.

Lemma verified_cvc_holder_binding_sample :
  exists M P,
    cvc_M (sample_cvc_with [sample_element "dg.view-pay"] sample_anchor_policy
             (Some [("proof", JStr "eyJ.holder.sig")])) = Some M
    /\ cvc_P (sample_cvc_with [sample_element "dg.view-pay"]
                sample_anchor_policy
                (Some [("proof", JStr "eyJ.holder.sig")])) = Some P
    /\ (holder_binding_required P = Some false
        \/ exists hb s,
             holder_binding M = Some hb
             /\ dict_lookup "proof" hb = Some (JStr s) /\ s <> "").
Proof.
  apply (verified_cvc_holder_binding sample_sha256 sample_json_dumps
           sample_dumps_payload (sample_world 1735600100) None
           (sample_cvc_with [sample_element "dg.view-pay"]
              sample_anchor_policy
              (Some [("proof", JStr "eyJ.holder.sig")]))
           "issuer.jwks" "verifier.jwks" "OK"
           [("vro_jwt", JStr "eyJ.vro.sig")] None).
  reflexivity.
Defined.

Lemma verified_chain_kids_listed_sample :
  exists header kid,
    get_unverified_header sample_lib (raw (sample_element "dg.view"))
    = LibOk header
    /\ hdr_kid header = Some kid /\ kid <> ""
    /\ key_exists_in_jwks (sample_world 1735600100) "issuer.jwks" kid = true.
Proof.
  apply (verified_chain_kids_listed sample_sha256 sample_json_dumps
           sample_dumps_payload sample_lib (sample_world 1735600100) None
           [sample_element "dg.view-pay"; sample_element "dg.view"]
           "issuer.jwks" (sample_policy None) "OK"
           [("depth", JInt 2);
            ("chain_fingerprint",
             JStr "sha256:did:example:agent1did:example:agent2")]
           None).
  - reflexivity.
  - repeat constructor.
Defined.


(** * The orchestrator on further sample inputs *)

Example rejected_cvc_with_anchored_chain :
  verify_cvc sample_sha256 sample_json_dumps sample_dumps_payload
    (sample_world 1735600100) (Some empty_ledger)
    (sample_cvc_with [sample_element "dg.view-pay"] sample_anchor_policy None)
    "issuer.jwks" "verifier.jwks"
  = ((false, "E500", [("reason", JStr "missing_holder_binding")]),
     (verify_delegation_chain sample_sha256 sample_json_dumps
        sample_dumps_payload (sample_world 1735600100) (Some empty_ledger)
        [sample_element "dg.view-pay"] "issuer.jwks" sample_anchor_policy).2)
  /\ (verify_delegation_chain sample_sha256 sample_json_dumps
        sample_dumps_payload (sample_world 1735600100) (Some empty_ledger)
        [sample_element "dg.view-pay"] "issuer.jwks" sample_anchor_policy).2
     <> Some empty_ledger.
Proof.
  split; [reflexivity|].
  intros H. apply (f_equal (from_option (fun l => length (chain l)) 0%nat)) in H.
  vm_compute in H. discriminate H.
Qed.

Example parse_drops_undecodable_tokens :
  Adapters.parse_dg_jwts sample_lib ["dg.view-pay"; "garbage"; "dg.view"]
  = inl [sample_element "dg.view-pay"; sample_element "dg.view"].
Proof. reflexivity. Qed.
